(** * LLM cost optimizer: the routing engine, the model catalogue and the
      utilisation report

    A shallow embedding of [src/models.py], [src/router.py] and of
    [TokenAnalytics.model_utilization_rates] in [src/analytics.py].

    Conventions of the embedding.
    - Python [float] prices, costs and scores are exact rationals ([Q]);
      [round(x, n)] is rounding to [n] decimals, halves to the even
      neighbour.  Equality of such numbers is [Qeq] ([==]).
    - Python [str] is [string], a character being its code point below 256;
      whitespace, digits and lower-casing are those of Python on that range.
    - Python [dict]s with string keys are [gmap string _]; the index
      [_models_by_tier], keyed by a three-valued enumeration and only ever
      read through [.get(tier, [])], is a function from tiers to lists.
    - A raised exception is the [Err] branch of [result]. *)

From Stdlib Require Import ZArith QArith Qround Qabs Lia Lqa List Ascii String Bool.
From Stdlib Require Import Sorted Permutation.
From stdpp Require Import gmap strings.
Import ListNotations.
Local Open Scope string_scope.

(** ** Enumerations *)

Module Complexity.
Inductive t := SIMPLE | MODERATE | COMPLEX.

Definition value (c : t) : string :=
  match c with
  | SIMPLE => "simple"
  | MODERATE => "moderate"
  | COMPLEX => "complex"
  end.
End Complexity.

Module QualityTier.
Inductive t := PREMIUM | STANDARD | ECONOMY.

Definition value (q : t) : string :=
  match q with
  | PREMIUM => "premium"
  | STANDARD => "standard"
  | ECONOMY => "economy"
  end.

(** [QualityTier(name)]: the member whose value is [name]; Python raises
    [ValueError] when there is none. *)
Definition of_value (name : string) : option t :=
  if String.eqb name "premium" then Some PREMIUM
  else if String.eqb name "standard" then Some STANDARD
  else if String.eqb name "economy" then Some ECONOMY
  else None.

Definition eqb (a b : t) : bool :=
  match a, b with
  | PREMIUM, PREMIUM | STANDARD, STANDARD | ECONOMY, ECONOMY => true
  | _, _ => false
  end.
End QualityTier.

(** ** Exceptions

    The exceptions the modelled code can raise.  [route] raises two
    [ValueError]s: its own, built from the resolved complexity and the
    request's [max_cost], and the one of the enumeration constructor
    [QualityTier(name)] on a name that is no tier.  Pydantic raises
    [ValidationError] when a field constraint fails. *)
Inductive exn :=
| NoSuitableModel (complexity : Complexity.t) (max_cost : option Q)
| InvalidTier (name : string)
| ValidationError (field : string).

Inductive result (A : Type) :=
| Ok (a : A)
| Err (e : exn).
Arguments Ok {A} a.
Arguments Err {A} e.

Definition bind {A B} (x : result A) (f : A -> result B) : result B :=
  match x with
  | Ok a => f a
  | Err e => Err e
  end.

Notation "'let?' x ':=' c1 'in' c2" := (bind c1 (fun x => c2))
  (at level 10, x name, c1 at level 100, c2 at level 200).

(** ** Numbers *)

(** [round(x)] to an integer, halves to the even neighbour. *)
Definition round_half_even (x : Q) : Z :=
  let f := Qfloor x in
  match (x - inject_Z f ?= 1 # 2)%Q with
  | Lt => f
  | Gt => (f + 1)%Z
  | Eq => if Z.even f then f else (f + 1)%Z
  end.

(** [10 ** ndigits]. *)
Definition py_scale (ndigits : nat) : positive := Z.to_pos (10 ^ Z.of_nat ndigits).

(** [round(x, ndigits)]. *)
Definition py_round (x : Q) (ndigits : nat) : Q :=
  let scale := py_scale ndigits in
  Qmake (round_half_even (x * inject_Z (Z.pos scale))) scale.

(** ** models.py *)

Record ModelConfig := {
  name : string;
  provider : string;
  model_id : string;
  cost_per_1k_input : Q;
  cost_per_1k_output : Q;
  max_tokens : Z;
  quality_tier : QualityTier.t
}.

(** [ModelConfig.estimate_cost]. *)
Definition estimate_cost (self : ModelConfig) (input_tokens output_tokens : Z) : Q :=
  let input_cost := (inject_Z input_tokens / 1000 * cost_per_1k_input self)%Q in
  let output_cost := (inject_Z output_tokens / 1000 * cost_per_1k_output self)%Q in
  py_round (input_cost + output_cost) 6.

(** A model definition as it stands in the configuration document, before
    the constructor of [ModelConfig] has validated it. *)
Record RawModel := {
  raw_name : string;
  raw_provider : string;
  raw_model_id : string;
  raw_cost_per_1k_input : Q;
  raw_cost_per_1k_output : Q;
  raw_max_tokens : Z;
  raw_quality_tier : string
}.

(** The constructor of [ModelConfig] on a definition [m]: the field constraints [ge=0], [ge=0], [gt=0] and
    the coercion of the tier name are checked in field order. *)
Definition ModelConfig_init (m : RawModel) : result ModelConfig :=
  if negb (Qle_bool 0 (raw_cost_per_1k_input m)) then Err (ValidationError "cost_per_1k_input")
  else if negb (Qle_bool 0 (raw_cost_per_1k_output m)) then Err (ValidationError "cost_per_1k_output")
  else if negb (0 <? raw_max_tokens m)%Z then Err (ValidationError "max_tokens")
  else match QualityTier.of_value (raw_quality_tier m) with
       | None => Err (ValidationError "quality_tier")
       | Some q =>
           Ok {| name := raw_name m;
                 provider := raw_provider m;
                 model_id := raw_model_id m;
                 cost_per_1k_input := raw_cost_per_1k_input m;
                 cost_per_1k_output := raw_cost_per_1k_output m;
                 max_tokens := raw_max_tokens m;
                 quality_tier := q |}
       end.

Record RoutingRequest := {
  content : string;
  complexity : option Complexity.t;
  department : option string;
  project_id : option string;
  max_cost : option Q;
  required_quality : option QualityTier.t
}.

(** The constructor of [RoutingRequest]: [max_cost] carries [ge=0]. *)
Definition RoutingRequest_init (content : string) (complexity : option Complexity.t)
    (department project_id : option string) (max_cost : option Q)
    (required_quality : option QualityTier.t) : result RoutingRequest :=
  match max_cost with
  | Some c =>
      if Qle_bool 0 c then
        Ok {| content := content; complexity := complexity; department := department;
              project_id := project_id; max_cost := max_cost;
              required_quality := required_quality |}
      else Err (ValidationError "max_cost")
  | None =>
      Ok {| content := content; complexity := complexity; department := department;
            project_id := project_id; max_cost := max_cost;
            required_quality := required_quality |}
  end.

(** The fields [quality_tier] and [complexity] of the source carry the
    prefix [decision_] here: a record projection is a global name. *)
Record RoutingDecision := {
  selected_model : ModelConfig;
  reason : string;
  estimated_cost : Q;
  decision_quality_tier : QualityTier.t;
  decision_complexity : Complexity.t
}.

(** The constructor of [RoutingDecision]: [estimated_cost] carries [ge=0]. *)
Definition RoutingDecision_init (selected_model : ModelConfig) (reason : string)
    (estimated_cost : Q) (quality_tier : QualityTier.t) (complexity : Complexity.t)
    : result RoutingDecision :=
  if Qle_bool 0 estimated_cost then
    Ok {| selected_model := selected_model; reason := reason;
          estimated_cost := estimated_cost; decision_quality_tier := quality_tier;
          decision_complexity := complexity |}
  else Err (ValidationError "estimated_cost").

Record CostSummary := {
  entity : string;
  total_cost : Q;
  request_count : Z;
  total_input_tokens : Z;
  total_output_tokens : Z;
  avg_cost_per_request : Q;
  avg_latency_ms : Q
}.

(** ** Text primitives

    [str.isspace], [str.lower], [str.strip], [str.split], [in], [str.count]
    and the two [re.findall] patterns of [classify_complexity]. *)

Definition is_space (c : ascii) : bool :=
  let n := nat_of_ascii c in
  (((9 <=? n) && (n <=? 13)) || ((28 <=? n) && (n <=? 32)) || (n =? 133) || (n =? 160))%nat.

Definition is_digit (c : ascii) : bool :=
  let n := nat_of_ascii c in ((48 <=? n) && (n <=? 57))%nat.

Definition lower_char (c : ascii) : ascii :=
  let n := nat_of_ascii c in
  if (((65 <=? n) && (n <=? 90)) || ((192 <=? n) && (n <=? 222) && negb (n =? 215)))%nat
  then ascii_of_nat (n + 32) else c.

Fixpoint py_lower (s : string) : string :=
  match s with
  | EmptyString => EmptyString
  | String c t => String (lower_char c) (py_lower t)
  end.

Fixpoint py_lstrip (s : string) : string :=
  match s with
  | EmptyString => EmptyString
  | String c t => if is_space c then py_lstrip t else s
  end.

Fixpoint py_rstrip (s : string) : string :=
  match s with
  | EmptyString => EmptyString
  | String c t =>
      match py_rstrip t with
      | EmptyString => if is_space c then EmptyString else String c EmptyString
      | t' => String c t'
      end
  end.

Definition py_strip (s : string) : string := py_rstrip (py_lstrip s).

Definition is_empty (s : string) : bool :=
  match s with EmptyString => true | _ => false end.

(** [s.split()]: the maximal runs of non-whitespace characters. *)
Fixpoint split_from (word s : string) : list string :=
  match s with
  | EmptyString => if is_empty word then [] else [word]
  | String c t =>
      if is_space c
      then (if is_empty word then split_from EmptyString t
            else word :: split_from EmptyString t)
      else split_from (String.append word (String c EmptyString)) t
  end.

Definition py_split (s : string) : list string := split_from EmptyString s.

(** [kw in s]. *)
Fixpoint py_in (kw s : string) : bool :=
  String.prefix kw s ||
  match s with
  | EmptyString => false
  | String _ t => py_in kw t
  end.

(** [s.count(c)] for a one-character [c]. *)
Fixpoint py_count_char (c : ascii) (s : string) : nat :=
  match s with
  | EmptyString => 0
  | String d t => ((if Ascii.eqb c d then 1 else 0) + py_count_char c t)%nat
  end.

Fixpoint skip_while (p : ascii -> bool) (s : string) : string :=
  match s with
  | EmptyString => EmptyString
  | String c t => if p c then skip_while p t else s
  end.

(** The part of the pattern [(?:^|\n)\s*\d+[\.\)]\s] after the anchor,
    matched at the head of [s]; the result is what follows the match.  The
    classes [\s], [\d] and [[.)]] are pairwise disjoint, so the greedy choice
    is the only one that can succeed. *)
Definition numbered_body (s : string) : option string :=
  match skip_while is_space s with
  | String d t =>
      if is_digit d then
        match skip_while is_digit t with
        | String p (String w rest) =>
            if (Ascii.eqb p "." || Ascii.eqb p ")") && is_space w then Some rest else None
        | _ => None
        end
      else None
  | EmptyString => None
  end.

(** The same for [(?:^|\n)\s*[-*]\s]. *)
Definition bullet_body (s : string) : option string :=
  match skip_while is_space s with
  | String p (String w rest) =>
      if (Ascii.eqb p "-" || Ascii.eqb p "*") && is_space w then Some rest else None
  | _ => None
  end.

Definition is_newline (c : ascii) : bool := (nat_of_ascii c =? 10)%nat.

(** The scan of [re.findall] away from the start of the text: [skip]
    characters belong to the previous match; after them a match can only
    start at a newline. *)
Fixpoint count_from (body : string -> option string) (skip : nat) (s : string) : nat :=
  match s with
  | EmptyString => 0
  | String c t =>
      match skip with
      | S k => count_from body k t
      | O =>
          if is_newline c then
            match body t with
            | Some rest => S (count_from body (String.length t - String.length rest) t)
            | None => count_from body 0 t
            end
          else count_from body 0 t
      end
  end.

(** [len(re.findall(pattern, s))]: at the start of the text the anchor [^]
    matches (a leading newline is then taken by [\s*]); matches do not
    overlap. *)
Definition findall_count (body : string -> option string) (s : string) : nat :=
  match body s with
  | Some rest => S (count_from body (String.length s - String.length rest) s)
  | None => count_from body 0 s
  end.

(** ** router.py: the classifier *)

(** [complexity_thresholds]; a key may be absent from the document. *)
Record Thresholds := {
  short_text_max : option Z;
  medium_text_max : option Z;
  complex_keywords : option (list string);
  simple_keywords : option (list string)
}.

Definition no_thresholds : Thresholds :=
  {| short_text_max := None; medium_text_max := None;
     complex_keywords := None; simple_keywords := None |}.

Definition code_indicators : list string :=
  ["```"; "def "; "class "; "function "; "import "; "SELECT "; "CREATE "].

(** [sum(1 for kw in keywords if kw in text)]. *)
Definition keyword_matches (keywords : list string) (text : string) : nat :=
  List.length (List.filter (fun kw => py_in kw text) keywords).

(** Lines 85 to 136 of [classify_complexity]: the score accumulated over
    the six signals.  Every term is a multiple of one half. *)
Definition complexity_score (th : Thresholds) (text : string) : Q :=
  let text_lower := py_strip (py_lower text) in
  let score := 0%Q in
  let char_count := Z.of_nat (String.length text_lower) in
  let short_max := default 100%Z (short_text_max th) in
  let medium_max := default 500%Z (medium_text_max th) in
  let score :=
    if (char_count <=? short_max)%Z then (score + 0)%Q
    else if (char_count <=? medium_max)%Z then (score + 1)%Q
    else (score + 2)%Q in
  let complex_kw := default [] (complex_keywords th) in
  let simple_kw := default [] (simple_keywords th) in
  let complex_matches := keyword_matches complex_kw text_lower in
  let simple_matches := keyword_matches simple_kw text_lower in
  let score := (score + inject_Z (Z.of_nat complex_matches) * (3 # 2))%Q in
  let score := (score - inject_Z (Z.of_nat simple_matches) * 1)%Q in
  let question_count := py_count_char "?" text_lower in
  let score :=
    if (2 <? question_count)%nat then (score + (3 # 2))%Q
    else if (0 <? question_count)%nat then (score + (1 # 2))%Q
    else score in
  let numbered_items := findall_count numbered_body text in
  let bullet_items := findall_count bullet_body text in
  let list_items := (numbered_items + bullet_items)%nat in
  let score :=
    if (3 <=? list_items)%nat then (score + 2)%Q
    else if (1 <=? list_items)%nat then (score + (1 # 2))%Q
    else score in
  let score :=
    if List.existsb (fun ind => py_in ind text) code_indicators
    then (score + (3 # 2))%Q else score in
  let word_count := List.length (py_split text_lower) in
  let score :=
    if (200 <? word_count)%nat then (score + (3 # 2))%Q
    else if (50 <? word_count)%nat then (score + (1 # 2))%Q
    else score in
  score.

(** [SmartRouter.classify_complexity]. *)
Definition classify_complexity (th : Thresholds) (text : string) : Complexity.t :=
  let text_lower := py_strip (py_lower text) in
  if is_empty text_lower then Complexity.SIMPLE
  else
    let score := complexity_score th text in
    if Qle_bool score 1 then Complexity.SIMPLE
    else if Qle_bool score (7 # 2) then Complexity.MODERATE
    else Complexity.COMPLEX.

(** ** router.py: configuration *)

(** The parsed configuration document. *)
Record Config := {
  cfg_models : list RawModel;
  cfg_routing_rules : gmap string string;
  cfg_fallback_chain : gmap string (list string);
  cfg_complexity_thresholds : option Thresholds
}.

Record SmartRouter := {
  models : list ModelConfig;
  routing_rules : gmap string string;
  fallback_chain : gmap string (list string);
  complexity_thresholds : Thresholds;
  _models_by_tier : QualityTier.t -> list ModelConfig
}.

(** The list comprehension [[ModelConfig(m) for m in config["models"]]]:
    the first definition that fails validation aborts the load. *)
Fixpoint build_models (raws : list RawModel) : result (list ModelConfig) :=
  match raws with
  | [] => Ok []
  | m :: rest =>
      let? model := ModelConfig_init m in
      let? others := build_models rest in
      Ok (model :: others)
  end.

(** [self._models_by_tier[tier].append(model)], the list being created on
    the first use of the key. *)
Definition index_append (index : QualityTier.t -> list ModelConfig)
    (tier : QualityTier.t) (model : ModelConfig) : QualityTier.t -> list ModelConfig :=
  fun t => if QualityTier.eqb tier t then (index t ++ [model])%list else index t.

Definition index_models (ms : list ModelConfig) : QualityTier.t -> list ModelConfig :=
  List.fold_left (fun index model => index_append index (quality_tier model) model)
                 ms (fun _ => []).

(** [list.sort(key=lambda m: m.cost_per_1k_input)] is a stable sort; here
    as the insertion of each element, from the last to the first, before the
    first element whose key is not smaller. *)
Fixpoint insert_by_input_cost (m : ModelConfig) (sorted : list ModelConfig) : list ModelConfig :=
  match sorted with
  | [] => [m]
  | m' :: rest =>
      if Qle_bool (cost_per_1k_input m) (cost_per_1k_input m') then m :: sorted
      else m' :: insert_by_input_cost m rest
  end.

Definition sort_by_input_cost (ms : list ModelConfig) : list ModelConfig :=
  List.fold_right insert_by_input_cost [] ms.

(** [SmartRouter._load_config], from the parsed document on. *)
Definition _load_config (config : Config) : result SmartRouter :=
  let? ms := build_models (cfg_models config) in
  let index := index_models ms in
  Ok {| models := ms;
        routing_rules := cfg_routing_rules config;
        fallback_chain := cfg_fallback_chain config;
        complexity_thresholds := default no_thresholds (cfg_complexity_thresholds config);
        _models_by_tier := fun tier => sort_by_input_cost (index tier) |}.

(** ** router.py: selection *)

(** The loop of [_get_cheapest_model] over the tier's list. *)
Fixpoint first_within_budget (max_cost : option Q) (estimated_input_tokens
    estimated_output_tokens : Z) (ms : list ModelConfig) : option ModelConfig :=
  match ms with
  | [] => None
  | model :: rest =>
      match max_cost with
      | Some c =>
          let estimated := estimate_cost model estimated_input_tokens estimated_output_tokens in
          if negb (Qle_bool estimated c)
          then first_within_budget max_cost estimated_input_tokens estimated_output_tokens rest
          else Some model
      | None => Some model
      end
  end.

(** [SmartRouter._get_cheapest_model]. *)
Definition _get_cheapest_model (self : SmartRouter) (tier : QualityTier.t)
    (max_cost : option Q) (estimated_input_tokens estimated_output_tokens : Z)
    : option ModelConfig :=
  first_within_budget max_cost estimated_input_tokens estimated_output_tokens
                      (_models_by_tier self tier).

(** [QualityTier(name)] as a call that may raise. *)
Definition QualityTier_init (name : string) : result QualityTier.t :=
  match QualityTier.of_value name with
  | Some q => Ok q
  | None => Err (InvalidTier name)
  end.

(** [sep.join(parts)]. *)
Fixpoint py_join (sep : string) (parts : list string) : string :=
  match parts with
  | [] => EmptyString
  | [p] => p
  | p :: rest => String.append p (String.append sep (py_join sep rest))
  end.

Definition fell_back_reason (fallback_tier : QualityTier.t) (model : ModelConfig) : string :=
  String.append "Fell back to '"
    (String.append (QualityTier.value fallback_tier)
       (String.append "' tier: " (name model))).

(** The fallback loop of [route]: the model found, if any, with the reason
    part appended for it. *)
Fixpoint try_fallbacks (self : SmartRouter) (max_cost : option Q)
    (estimated_input_tokens estimated_output_tokens : Z) (fallbacks : list string)
    : result (option (ModelConfig * string)) :=
  match fallbacks with
  | [] => Ok None
  | fallback_tier_name :: rest =>
      let? fallback_tier := QualityTier_init fallback_tier_name in
      match _get_cheapest_model self fallback_tier max_cost
              estimated_input_tokens estimated_output_tokens with
      | Some model => Ok (Some (model, fell_back_reason fallback_tier model))
      | None => try_fallbacks self max_cost estimated_input_tokens estimated_output_tokens rest
      end
  end.

(** [max(len(content.split()) * 2, 100)]. *)
Definition estimate_tokens (content : string) : Z :=
  Z.max (Z.of_nat (List.length (py_split content)) * 2) 100.

(** Steps 1 and 2 of [route]. *)
Definition resolve_complexity (self : SmartRouter) (request : RoutingRequest) : Complexity.t :=
  match complexity request with
  | Some c => c
  | None => classify_complexity (complexity_thresholds self) (content request)
  end.

Definition resolve_target_tier (self : SmartRouter) (request : RoutingRequest)
    (complexity : Complexity.t) : result QualityTier.t :=
  match required_quality request with
  | Some q => Ok q
  | None =>
      let tier_name := default "standard" (routing_rules self !! Complexity.value complexity) in
      QualityTier_init tier_name
  end.

Definition mapped_reason (complexity : Complexity.t) (target_tier : QualityTier.t) : string :=
  String.append "Complexity '"
    (String.append (Complexity.value complexity)
       (String.append "' mapped to '"
          (String.append (QualityTier.value target_tier) "' tier"))).

Definition selected_reason (model : ModelConfig) : string :=
  String.append "Selected cheapest model in tier: " (name model).

Definition trying_fallbacks_reason (target_tier : QualityTier.t) : string :=
  String.append "No suitable model in '"
    (String.append (QualityTier.value target_tier) "' tier, trying fallbacks").

(** [SmartRouter.route]. *)
Definition route (self : SmartRouter) (request : RoutingRequest) : result RoutingDecision :=
  let complexity := resolve_complexity self request in
  let? target_tier := resolve_target_tier self request complexity in
  let estimated_input_tokens := estimate_tokens (content request) in
  let estimated_output_tokens := estimated_input_tokens in
  let model := _get_cheapest_model self target_tier (max_cost request)
                 estimated_input_tokens estimated_output_tokens in
  let? found :=
    match model with
    | Some model =>
        Ok (Some model, [mapped_reason complexity target_tier; selected_reason model])
    | None =>
        let reason_parts := [trying_fallbacks_reason target_tier] in
        let fallbacks := default [] (fallback_chain self !! QualityTier.value target_tier) in
        let? fb := try_fallbacks self (max_cost request)
                     estimated_input_tokens estimated_output_tokens fallbacks in
        match fb with
        | Some (model, part) => Ok (Some model, (reason_parts ++ [part])%list)
        | None => Ok (None, reason_parts)
        end
    end in
  match found with
  | (None, _) => Err (NoSuitableModel complexity (max_cost request))
  | (Some model, reason_parts) =>
      let estimated_cost := estimate_cost model estimated_input_tokens estimated_output_tokens in
      RoutingDecision_init model (py_join ". " reason_parts) estimated_cost
                           (quality_tier model) complexity
  end.

(** The keyword arguments [route_text] passes on to [RoutingRequest]. *)
Record Kwargs := {
  kw_complexity : option Complexity.t;
  kw_department : option string;
  kw_project_id : option string;
  kw_max_cost : option Q;
  kw_required_quality : option QualityTier.t
}.

Definition no_kwargs : Kwargs :=
  {| kw_complexity := None; kw_department := None; kw_project_id := None;
     kw_max_cost := None; kw_required_quality := None |}.


(** The call [route_text(text, required_quality=q)]. *)
Definition only_required_quality (q : QualityTier.t) : Kwargs :=
  {| kw_complexity := None; kw_department := None; kw_project_id := None;
     kw_max_cost := None; kw_required_quality := Some q |}.

(** [SmartRouter.route_text]. *)
Definition route_text (self : SmartRouter) (text : string) (kwargs : Kwargs)
    : result RoutingDecision :=
  let? request := RoutingRequest_init text (kw_complexity kwargs) (kw_department kwargs)
                    (kw_project_id kwargs) (kw_max_cost kwargs) (kw_required_quality kwargs) in
  route self request.

(** ** analytics.py: utilisation rates *)

Record UtilizationRate := {
  rate_model : string;
  rate_request_count : Z;
  request_pct : Q;
  rate_cost : Q;
  cost_pct : Q
}.

Definition sum_Z (l : list Z) : Z := List.fold_left Z.add l 0%Z.
Definition sum_Q (l : list Q) : Q := List.fold_left Qplus l 0%Q.

(** [TokenAnalytics.model_utilization_rates], from the summaries that
    [get_costs_by_model] returned. *)
Definition model_utilization_rates (summaries : list CostSummary) : list UtilizationRate :=
  let total_requests := sum_Z (List.map request_count summaries) in
  let total_cost' := sum_Q (List.map total_cost summaries) in
  List.map
    (fun s =>
       let request_pct :=
         if (0 <? total_requests)%Z
         then (inject_Z (request_count s) / inject_Z total_requests * 100)%Q else 0%Q in
       let cost_pct :=
         if negb (Qle_bool total_cost' 0)
         then (total_cost s / total_cost' * 100)%Q else 0%Q in
       {| rate_model := entity s;
          rate_request_count := request_count s;
          request_pct := py_round request_pct 2;
          rate_cost := total_cost s;
          cost_pct := py_round cost_pct 2 |})
    summaries.

(** ** Vocabulary of the statements *)

(** The models of a tier, in the order of the configuration document. *)
Definition models_of_tier (ms : list ModelConfig) (tier : QualityTier.t) : list ModelConfig :=
  List.filter (fun m => QualityTier.eqb (quality_tier m) tier) ms.

(** The field constraints of [ModelConfig]. *)
Definition valid_model (m : ModelConfig) : Prop :=
  (0 <= cost_per_1k_input m)%Q /\ (0 <= cost_per_1k_output m)%Q /\ (0 < max_tokens m)%Z.

(** A model satisfies the cost ceiling: there is none, or its estimated
    cost for the token volumes does not exceed it. *)
Definition within_budget (max_cost : option Q) (input_tokens output_tokens : Z)
    (m : ModelConfig) : Prop :=
  match max_cost with
  | None => True
  | Some c => (estimate_cost m input_tokens output_tokens <= c)%Q
  end.

(** A tier contains a configured model that satisfies the request's ceiling. *)
Definition tier_has_affordable (self : SmartRouter) (request : RoutingRequest)
    (tier : QualityTier.t) : Prop :=
  exists m, In m (models self) /\ quality_tier m = tier
            /\ within_budget (max_cost request) (estimate_tokens (content request))
                             (estimate_tokens (content request)) m.

(** The tiers that a list of names denotes, in order. *)
Fixpoint tiers_of_names (names : list string) : list QualityTier.t :=
  match names with
  | [] => []
  | n :: rest =>
      match QualityTier.of_value n with
      | Some q => q :: tiers_of_names rest
      | None => tiers_of_names rest
      end
  end.

(** The fallback chain configured for a tier: its names, and the tiers they
    denote. *)
Definition fallback_names (self : SmartRouter) (tier : QualityTier.t) : list string :=
  default [] (fallback_chain self !! QualityTier.value tier).

Definition fallback_tiers (self : SmartRouter) (tier : QualityTier.t) : list QualityTier.t :=
  tiers_of_names (fallback_names self tier).

(** The decision [route] builds once a model and the reason parts are known. *)
Definition decision_of (self : SmartRouter) (request : RoutingRequest)
    (model : ModelConfig) (reason_parts : list string) : RoutingDecision :=
  let tokens := estimate_tokens (content request) in
  {| selected_model := model;
     reason := py_join ". " reason_parts;
     estimated_cost := estimate_cost model tokens tokens;
     decision_quality_tier := quality_tier model;
     decision_complexity := resolve_complexity self request |}.

(** Every tier name in the routing rules and in the fallback chains is the
    value of a quality tier. *)
Definition tier_names_valid (self : SmartRouter) : Prop :=
  map_Forall (fun _ v => is_Some (QualityTier.of_value v)) (routing_rules self)
  /\ map_Forall (fun _ vs => Forall (fun v => is_Some (QualityTier.of_value v)) vs)
                (fallback_chain self).

(** All characters of the text are whitespace. *)
Fixpoint whitespace_only (s : string) : bool :=
  match s with
  | EmptyString => true
  | String c t => is_space c && whitespace_only t
  end.

(** The sums a caller takes over one report, as the test of the
    repository does: [sum(r["request_pct"] for r in rates)]. *)
Definition sum_request_pct (rates : list UtilizationRate) : Q :=
  sum_Q (List.map request_pct rates).

Definition sum_cost_pct (rates : list UtilizationRate) : Q :=
  sum_Q (List.map cost_pct rates).

(** The loosest tolerance the repository itself grants these sums, the
    [0.1] of its test; the rounding error of double arithmetic on such sums
    is many orders of magnitude below it. *)
Definition sum_tolerance : Q := 1 # 10.

(** ** A configuration for the examples

    Five models over the three tiers, the default rules of the router and a
    fallback chain per tier; [Beta] and [Gamma] have the same input price, in
    that order in the document. *)
Module Sample.
Definition raw (n : string) (cin cout : Q) (tier : string) : RawModel :=
  {| raw_name := n; raw_provider := "acme"; raw_model_id := n;
     raw_cost_per_1k_input := cin; raw_cost_per_1k_output := cout;
     raw_max_tokens := 128000; raw_quality_tier := tier |}.

Definition thresholds : Thresholds :=
  {| short_text_max := Some 100%Z;
     medium_text_max := Some 500%Z;
     complex_keywords := Some ["analyze"; "compare"; "evaluate"; "step by step"];
     simple_keywords := Some ["yes"; "ok"; "thanks"] |}.

Definition rules : gmap string string :=
  <["simple" := "economy"]> (<["moderate" := "standard"]> (<["complex" := "premium"]> ∅)).

Definition chains : gmap string (list string) :=
  <["premium" := ["standard"; "economy"]]>
    (<["standard" := ["economy"; "premium"]]>
       (<["economy" := ["standard"; "premium"]]> ∅)).

Definition config : Config :=
  {| cfg_models :=
       [ raw "Alpha" (5 # 1000) (15 # 1000) "premium";
         raw "Beta" (1 # 1000) (2 # 1000) "standard";
         raw "Gamma" (1 # 1000) (4 # 1000) "standard";
         raw "Delta" (3 # 1000) (12 # 1000) "premium";
         raw "Epsilon" (1 # 10000) (4 # 10000) "economy" ];
     cfg_routing_rules := rules;
     cfg_fallback_chain := chains;
     cfg_complexity_thresholds := Some thresholds |}.

(** The validated models, in the order of the document. *)
Definition alpha := {| name := "Alpha"; provider := "acme"; model_id := "Alpha";
  cost_per_1k_input := 5 # 1000; cost_per_1k_output := 15 # 1000;
  max_tokens := 128000; quality_tier := QualityTier.PREMIUM |}.
Definition beta := {| name := "Beta"; provider := "acme"; model_id := "Beta";
  cost_per_1k_input := 1 # 1000; cost_per_1k_output := 2 # 1000;
  max_tokens := 128000; quality_tier := QualityTier.STANDARD |}.
Definition gamma := {| name := "Gamma"; provider := "acme"; model_id := "Gamma";
  cost_per_1k_input := 1 # 1000; cost_per_1k_output := 4 # 1000;
  max_tokens := 128000; quality_tier := QualityTier.STANDARD |}.
Definition delta := {| name := "Delta"; provider := "acme"; model_id := "Delta";
  cost_per_1k_input := 3 # 1000; cost_per_1k_output := 12 # 1000;
  max_tokens := 128000; quality_tier := QualityTier.PREMIUM |}.
Definition epsilon := {| name := "Epsilon"; provider := "acme"; model_id := "Epsilon";
  cost_per_1k_input := 1 # 10000; cost_per_1k_output := 4 # 10000;
  max_tokens := 128000; quality_tier := QualityTier.ECONOMY |}.

Definition router : SmartRouter :=
  {| models := [alpha; beta; gamma; delta; epsilon];
     routing_rules := rules;
     fallback_chain := chains;
     complexity_thresholds := thresholds;
     _models_by_tier := fun tier =>
       sort_by_input_cost (index_models [alpha; beta; gamma; delta; epsilon] tier) |}.



(** The same document with a routing rule that names no tier. *)
Definition unknown_tier_config : Config :=
  {| cfg_models := cfg_models config;
     cfg_routing_rules := <["simple" := "ultra"]> rules;
     cfg_fallback_chain := chains;
     cfg_complexity_thresholds := Some thresholds |}.

Definition unknown_tier_router : SmartRouter :=
  {| models := models router;
     routing_rules := <["simple" := "ultra"]> rules;
     fallback_chain := chains;
     complexity_thresholds := thresholds;
     _models_by_tier := _models_by_tier router |}.

Definition request (text : string) (mc : option Q) (rq : option QualityTier.t)
    : RoutingRequest :=
  {| content := text; complexity := None; department := None; project_id := None;
     max_cost := mc; required_quality := rq |}.
(** Usage summaries: [n] models with one request and one cent each. *)
Definition digit (i : nat) : string := String (ascii_of_nat (48 + i)) EmptyString.

Definition summary (i : nat) : CostSummary :=
  {| entity := String.append "model-" (String.append (digit (i / 10)) (digit (i mod 10)));
     total_cost := 1 # 100;
     request_count := 1;
     total_input_tokens := 1000;
     total_output_tokens := 500;
     avg_cost_per_request := 1 # 100;
     avg_latency_ms := 250 |}.

Definition summaries (n : nat) : list CostSummary := List.map summary (List.seq 0 n).
End Sample.

(** ** router.py: the remaining methods *)

Definition tier_quality (tier : QualityTier.t) : Q :=
  match tier with
  | QualityTier.ECONOMY => 1
  | QualityTier.STANDARD => 2
  | QualityTier.PREMIUM => 3
  end.

Definition complexity_needs (complexity : Complexity.t) : Q :=
  match complexity with
  | Complexity.SIMPLE => 1
  | Complexity.MODERATE => 2
  | Complexity.COMPLEX => 3
  end.

(** [SmartRouter._calculate_quality_score]; [self] is not used by it. *)
Definition _calculate_quality_score (model : ModelConfig) (complexity : Complexity.t) : Q :=
  let quality := tier_quality (quality_tier model) in
  let need := complexity_needs complexity in
  let quality_match := (1 - Qabs (quality - need) / 3)%Q in
  let avg_cost := estimate_cost model 500 500 in
  let cost_efficiency := (1 / (1 + avg_cost * 100))%Q in
  (quality_match * (3 # 5) + cost_efficiency * (2 # 5))%Q.

(** [SmartRouter.get_available_models]; a member of the enumeration is
    always true as a condition, so the list of all models is returned only
    for [None]. *)
Definition get_available_models (self : SmartRouter) (tier : option QualityTier.t)
    : list ModelConfig :=
  match tier with
  | Some t => _models_by_tier self t
  | None => models self
  end.

(** *** Vocabulary *)

(** The field constraints of [ModelConfig] on a definition of the document. *)
Definition raw_model_ok (r : RawModel) : Prop :=
  (0 <= raw_cost_per_1k_input r)%Q /\ (0 <= raw_cost_per_1k_output r)%Q
  /\ (0 < raw_max_tokens r)%Z /\ is_Some (QualityTier.of_value (raw_quality_tier r)).

(** The fields of a validated model, as they stand in the document. *)
Definition as_raw (m : ModelConfig) : RawModel :=
  {| raw_name := name m; raw_provider := provider m; raw_model_id := model_id m;
     raw_cost_per_1k_input := cost_per_1k_input m;
     raw_cost_per_1k_output := cost_per_1k_output m;
     raw_max_tokens := max_tokens m;
     raw_quality_tier := QualityTier.value (quality_tier m) |}.

Definition cheaper_input (a b : ModelConfig) : Prop :=
  (cost_per_1k_input a <= cost_per_1k_input b)%Q.

(** The request with another ceiling. *)
Definition with_max_cost (request : RoutingRequest) (mc : option Q) : RoutingRequest :=
  {| content := content request; complexity := complexity request;
     department := department request; project_id := project_id request;
     max_cost := mc; required_quality := required_quality request |}.

(** The second ceiling is at least as loose as the first. *)
Definition ceiling_le (mc mc' : option Q) : Prop :=
  match mc' with
  | None => True
  | Some c' => match mc with Some c => (c <= c')%Q | None => False end
  end.

(** Some character of the string is changed by [str.lower]. *)
Fixpoint has_cased_upper (s : string) : bool :=
  match s with
  | EmptyString => false
  | String c t => negb (Ascii.eqb (lower_char c) c) || has_cased_upper t
  end.

Definition with_complex_keywords (th : Thresholds) (kws : list string) : Thresholds :=
  {| short_text_max := short_text_max th; medium_text_max := medium_text_max th;
     complex_keywords := Some kws; simple_keywords := simple_keywords th |}.

Definition with_simple_keywords (th : Thresholds) (kws : list string) : Thresholds :=
  {| short_text_max := short_text_max th; medium_text_max := medium_text_max th;
     complex_keywords := complex_keywords th; simple_keywords := Some kws |}.

(** The numbers of configured keywords that occur in the text as the
    classifier sees it. *)
Definition complex_matches_of (th : Thresholds) (text : string) : nat :=
  keyword_matches (default [] (complex_keywords th)) (py_strip (py_lower text)).

Definition simple_matches_of (th : Thresholds) (text : string) : nat :=
  keyword_matches (default [] (simple_keywords th)) (py_strip (py_lower text)).

(** ** Python dictionaries that are iterated

    A [dict] keeps its keys in the order of their first insertion; assigning
    to a key that is present replaces the value in place. *)
Module PyDict.
Section Dict.
Context {V : Type}.

Definition t := list (string * V).

Fixpoint get (d : t) (k : string) : option V :=
  match d with
  | [] => None
  | (k', v) :: rest => if String.eqb k' k then Some v else get rest k
  end.

(** [d[k] = v]. *)
Fixpoint set (d : t) (k : string) (v : V) : t :=
  match d with
  | [] => [(k, v)]
  | (k', v') :: rest =>
      if String.eqb k' k then (k', v) :: rest else (k', v') :: set rest k v
  end.

(** [del d[k]]. *)
Fixpoint del (d : t) (k : string) : t :=
  match d with
  | [] => []
  | (k', v) :: rest => if String.eqb k' k then rest else (k', v) :: del rest k
  end.

(** [k in d]. *)
Definition mem (d : t) (k : string) : bool :=
  match get d k with Some _ => true | None => false end.

Definition keys (d : t) : list string := List.map fst d.
Definition values (d : t) : list V := List.map snd d.
End Dict.
Arguments t : clear implicits.
End PyDict.

(** [max(items, key=key)] on a non-empty sequence whose first item is
    [best]: a later item replaces the current one only when its key is
    strictly greater. *)
Fixpoint py_max_from {A : Type} (key : A -> Q) (best : A) (items : list A) : A :=
  match items with
  | [] => best
  | x :: rest =>
      if negb (Qle_bool (key x) (key best)) then py_max_from key x rest
      else py_max_from key best rest
  end.

(** ** analytics.py: the remaining methods *)

(** The part of [TokenAnalytics] that [_load_models] sets. *)
Record TokenAnalytics := {
  an_models : PyDict.t ModelConfig;
  _most_expensive_model : option ModelConfig
}.

(** The dict comprehension of [_load_models]. *)
Fixpoint build_model_dict (raws : list RawModel) (d : PyDict.t ModelConfig)
    : result (PyDict.t ModelConfig) :=
  match raws with
  | [] => Ok d
  | m :: rest =>
      let? model := ModelConfig_init m in
      build_model_dict rest (PyDict.set d (raw_model_id m) model)
  end.

(** [TokenAnalytics._load_models], from the parsed document on. *)
Definition _load_models (config : Config) : result TokenAnalytics :=
  let? d := build_model_dict (cfg_models config) [] in
  Ok {| an_models := d;
        _most_expensive_model :=
          match PyDict.values d with
          | [] => None
          | first :: rest => Some (py_max_from cost_per_1k_output first rest)
          end |}.

Record DailyCost := {
  dc_date : string;
  dc_total_cost : Q;
  dc_request_count : Z
}.

Record TrendPoint := {
  tp_date : string;
  daily_cost : Q;
  tp_request_count : Z;
  cumulative_cost : Q
}.

(** The loop of [cost_trends] from a running total on. *)
Fixpoint cost_trends_from (cumulative : Q) (daily : list DailyCost) : list TrendPoint :=
  match daily with
  | [] => []
  | entry :: rest =>
      let cumulative := (cumulative + dc_total_cost entry)%Q in
      {| tp_date := dc_date entry;
         daily_cost := dc_total_cost entry;
         tp_request_count := dc_request_count entry;
         cumulative_cost := py_round cumulative 6 |}
      :: cost_trends_from cumulative rest
  end.

(** [TokenAnalytics.cost_trends], from the entries that [get_daily_costs]
    returned. *)
Definition cost_trends (daily : list DailyCost) : list TrendPoint :=
  cost_trends_from 0 daily.

Record EfficiencyMetric := {
  em_model : string;
  cost_per_output_token : Q;
  cost_per_total_token : Q;
  em_avg_latency_ms : Q;
  em_total_cost : Q;
  em_request_count : Z
}.

(** [TokenAnalytics.efficiency_metrics], from the summaries that
    [get_costs_by_model] returned. *)
Definition efficiency_metrics (summaries : list CostSummary) : list EfficiencyMetric :=
  List.map
    (fun s =>
       let cost_per_output :=
         if (0 <? total_output_tokens s)%Z
         then (total_cost s / inject_Z (total_output_tokens s))%Q else 0%Q in
       let total_tokens := (total_input_tokens s + total_output_tokens s)%Z in
       let cost_per_total :=
         if (0 <? total_tokens)%Z then (total_cost s / inject_Z total_tokens)%Q else 0%Q in
       {| em_model := entity s;
          cost_per_output_token := py_round cost_per_output 8;
          cost_per_total_token := py_round cost_per_total 8;
          em_avg_latency_ms := avg_latency_ms s;
          em_total_cost := total_cost s;
          em_request_count := request_count s |})
    summaries.

Record SavingsReport := {
  sr_actual_cost : Q;
  sr_baseline_cost : Q;
  savings : Q;
  savings_pct : Q;
  baseline_model : string
}.

(** The accumulation [baseline_cost += baseline_model.estimate_cost(...)]. *)
Definition baseline_cost_of (baseline : ModelConfig) (summaries : list CostSummary) : Q :=
  List.fold_left
    (fun acc s => (acc + estimate_cost baseline (total_input_tokens s)
                           (total_output_tokens s))%Q)
    summaries 0%Q.

(** [TokenAnalytics.savings_calculator]; [actual_cost] is what
    [cost_tracker.total_cost] returned and [summaries] what
    [get_costs_by_model] returned for the same dates. *)
Definition savings_calculator (self : TokenAnalytics) (baseline_model_id : option string)
    (actual_cost : Q) (summaries : list CostSummary) : SavingsReport :=
  let chosen :=
    match baseline_model_id with
    | Some id =>
        if negb (is_empty id) && PyDict.mem (an_models self) id
        then PyDict.get (an_models self) id
        else _most_expensive_model self
    | None => _most_expensive_model self
    end in
  match chosen with
  | None =>
      {| sr_actual_cost := 0; sr_baseline_cost := 0; savings := 0; savings_pct := 0;
         baseline_model := "none" |}
  | Some baseline =>
      let baseline_cost := baseline_cost_of baseline summaries in
      let savings' := (baseline_cost - actual_cost)%Q in
      let savings_pct' :=
        if negb (Qle_bool baseline_cost 0) then (savings' / baseline_cost * 100)%Q
        else 0%Q in
      {| sr_actual_cost := py_round actual_cost 6;
         sr_baseline_cost := py_round baseline_cost 6;
         savings := py_round savings' 6;
         savings_pct := py_round savings_pct' 2;
         baseline_model := name baseline |}
  end.

(** The field constraints of [CostSummary]. *)
Definition valid_summary (s : CostSummary) : Prop :=
  (0 <= total_cost s)%Q /\ (0 <= request_count s)%Z /\ (0 <= total_input_tokens s)%Z
  /\ (0 <= total_output_tokens s)%Z /\ (0 <= avg_cost_per_request s)%Q
  /\ (0 <= avg_latency_ms s)%Q.

(** ** cost_tracker.py

    The table [usage_records] is the list of its rows in the order of their
    insertion; the class only ever inserts, so the row at position [i] has
    the id [i + 1].  A timestamp is the text that [isoformat()] produced, the
    form in which it is stored and compared. *)

Record UsageRecord := {
  ur_timestamp : string;
  ur_model : string;
  ur_department : string;
  ur_project_id : string;
  ur_input_tokens : Z;
  ur_output_tokens : Z;
  ur_cost : Q;
  ur_latency_ms : Q
}.

(** The field constraints of [UsageRecord]. *)
Definition valid_record (r : UsageRecord) : Prop :=
  (0 <= ur_input_tokens r)%Z /\ (0 <= ur_output_tokens r)%Z
  /\ (0 <= ur_cost r)%Q /\ (0 <= ur_latency_ms r)%Q.

Definition CostTracker := list UsageRecord.

(** [CostTracker.log_usage]: the new table and [cursor.lastrowid]. *)
Definition log_usage (self : CostTracker) (record : UsageRecord) : CostTracker * Z :=
  ((self ++ [record])%list, Z.of_nat (List.length self + 1)).

(** [CostTracker.log_usage_batch]: the new table and [len(data)]. *)
Definition log_usage_batch (self : CostTracker) (records : list UsageRecord)
    : CostTracker * Z :=
  ((self ++ records)%list, Z.of_nat (List.length records)).

(** The conditions [timestamp >= ?] and [timestamp <= ?], each added only
    when its date is given; text is compared character by character. *)
Definition in_range (start_date end_date : option string) (r : UsageRecord) : bool :=
  match start_date with
  | Some s => String.leb s (ur_timestamp r)
  | None => true
  end
  && match end_date with
     | Some e => String.leb (ur_timestamp r) e
     | None => true
     end.

(** [round(row[...], 6)] of [COALESCE(SUM(cost), 0)] over the selected rows:
    [SUM] of no row is [NULL], which [COALESCE] turns into the integer 0. *)
Definition rounded_cost_sum (selected : list UsageRecord) : Q :=
  match selected with
  | [] => 0%Q
  | _ => py_round (sum_Q (List.map ur_cost selected)) 6
  end.

(** [CostTracker.total_cost]. *)
Definition tracker_total_cost (self : CostTracker) (start_date end_date : option string) : Q :=
  rounded_cost_sum (List.filter (in_range start_date end_date) self).

(** [CostTracker.avg_cost_per_request]. *)
Definition tracker_avg_cost_per_request (self : CostTracker) : Q :=
  match self with
  | [] => 0%Q
  | _ => py_round (sum_Q (List.map ur_cost self) / inject_Z (Z.of_nat (List.length self))) 6
  end.

(** [CostTracker.get_department_spend]. *)
Definition get_department_spend (self : CostTracker) (department : string)
    (start_date end_date : option string) : Q :=
  rounded_cost_sum
    (List.filter
       (fun r => String.eqb (ur_department r) department && in_range start_date end_date r)
       self).

(** [CostTracker.get_record_count]. *)
Definition get_record_count (self : CostTracker) : Z := Z.of_nat (List.length self).

(** ** models.py: budgets *)

Module BudgetPeriod.
Inductive t := WEEKLY | MONTHLY.

Definition value (p : t) : string :=
  match p with
  | WEEKLY => "weekly"
  | MONTHLY => "monthly"
  end.
End BudgetPeriod.

Module AlertType.
Inductive t := WARNING | CRITICAL.
End AlertType.

Record BudgetConfig := {
  entity_id : string;
  budget_limit : Q;
  period : BudgetPeriod.t;
  warning_threshold_pct : Q;
  critical_threshold_pct : Q
}.

(** The exceptions of the budget manager: the [ValueError] of
    [check_budget] and the validation error of a constructor. *)
Inductive budget_exn :=
| NoBudgetConfigured (entity_id : string)
| BudgetValidationError (field : string).

Inductive budget_result (A : Type) :=
| BOk (a : A)
| BErr (e : budget_exn).
Arguments BOk {A} a.
Arguments BErr {A} e.

Definition in_0_100 (x : Q) : bool := Qle_bool 0 x && Qle_bool x 100.

(** The constructor of [BudgetConfig]: [budget_limit] carries [ge=0], the
    two thresholds [ge=0, le=100]. *)
Definition BudgetConfig_init (entity_id : string) (budget_limit : Q)
    (period : BudgetPeriod.t) (warning_threshold_pct critical_threshold_pct : Q)
    : budget_result BudgetConfig :=
  if negb (Qle_bool 0 budget_limit) then BErr (BudgetValidationError "budget_limit")
  else if negb (in_0_100 warning_threshold_pct)
  then BErr (BudgetValidationError "warning_threshold_pct")
  else if negb (in_0_100 critical_threshold_pct)
  then BErr (BudgetValidationError "critical_threshold_pct")
  else BOk {| entity_id := entity_id; budget_limit := budget_limit; period := period;
              warning_threshold_pct := warning_threshold_pct;
              critical_threshold_pct := critical_threshold_pct |}.

(** A [BudgetAlert]; its [message], a rendering of these fields as text,
    and its [timestamp] are left out. *)
Record BudgetAlert := {
  alert_department : string;
  alert_budget_limit : Q;
  alert_current_spend : Q;
  threshold_pct : Q;
  alert_type : AlertType.t
}.

(** The constructor of [BudgetAlert]: [budget_limit] and [current_spend]
    carry [ge=0], [threshold_pct] carries [ge=0, le=100]. *)
Definition BudgetAlert_init (department : string) (budget_limit current_spend
    threshold_pct : Q) (alert_type : AlertType.t) : budget_result BudgetAlert :=
  if negb (Qle_bool 0 budget_limit) then BErr (BudgetValidationError "budget_limit")
  else if negb (Qle_bool 0 current_spend) then BErr (BudgetValidationError "current_spend")
  else if negb (in_0_100 threshold_pct) then BErr (BudgetValidationError "threshold_pct")
  else BOk {| alert_department := department; alert_budget_limit := budget_limit;
              alert_current_spend := current_spend; threshold_pct := threshold_pct;
              alert_type := alert_type |}.

(** ** budget_manager.py *)

(** The manager keeps a reference to the tracker, which other code goes on
    writing to; the methods that query it take the table as it is at the time
    of the call ([tracker]).  The state of the manager itself is its
    dictionary of budgets. *)
Record BudgetManager := {
  _budgets : PyDict.t BudgetConfig
}.

(** [BudgetManager(cost_tracker)]. *)
Definition BudgetManager_init : BudgetManager := {| _budgets := [] |}.

(** [BudgetManager.set_budget]: the manager afterwards and the
    configuration created. *)
Definition set_budget (self : BudgetManager) (entity_id : string) (budget_limit : Q)
    (period : BudgetPeriod.t) (warning_threshold_pct critical_threshold_pct : Q)
    : budget_result (BudgetManager * BudgetConfig) :=
  match BudgetConfig_init entity_id budget_limit period warning_threshold_pct
          critical_threshold_pct with
  | BErr e => BErr e
  | BOk config =>
      BOk ({| _budgets := PyDict.set (_budgets self) entity_id config |}, config)
  end.

(** [BudgetManager.remove_budget]. *)
Definition remove_budget (self : BudgetManager) (entity_id : string) : BudgetManager * bool :=
  if PyDict.mem (_budgets self) entity_id
  then ({| _budgets := PyDict.del (_budgets self) entity_id |}, true)
  else (self, false).

(** [BudgetManager.get_budget]. *)
Definition get_budget (self : BudgetManager) (entity_id : string) : option BudgetConfig :=
  PyDict.get (_budgets self) entity_id.

(** [BudgetManager.get_all_budgets]. *)
Definition get_all_budgets (self : BudgetManager) : PyDict.t BudgetConfig := _budgets self.

Record BudgetStatus := {
  status_entity_id : string;
  status_budget_limit : Q;
  status_current_spend : Q;
  remaining : Q;
  usage_pct : Q;
  status_period : string;
  status : string
}.

(** [current_spend / budget_limit * 100 if budget_limit > 0 else 0]. *)
Definition budget_usage_pct (config : BudgetConfig) (current_spend : Q) : Q :=
  if negb (Qle_bool (budget_limit config) 0)
  then (current_spend / budget_limit config * 100)%Q else 0%Q.

(** [BudgetManager.check_budget].  The clock is read through
    [_get_period_start]; [period_start] gives, for a period, the ISO text of
    the start of the current period at the time of the call. *)
Definition check_budget (self : BudgetManager) (tracker : CostTracker)
    (period_start : BudgetPeriod.t -> string) (entity_id : string)
    : budget_result BudgetStatus :=
  match PyDict.get (_budgets self) entity_id with
  | None => BErr (NoBudgetConfigured entity_id)
  | Some config =>
      let current_spend :=
        get_department_spend tracker entity_id
          (Some (period_start (period config))) None in
      let left := (budget_limit config - current_spend)%Q in
      let remaining := if negb (Qle_bool left 0) then left else 0%Q in
      let usage_pct := budget_usage_pct config current_spend in
      let status :=
        if Qle_bool 100 usage_pct then "exceeded"
        else if Qle_bool (critical_threshold_pct config) usage_pct then "critical"
        else if Qle_bool (warning_threshold_pct config) usage_pct then "warning"
        else "ok" in
      BOk {| status_entity_id := entity_id;
             status_budget_limit := budget_limit config;
             status_current_spend := py_round current_spend 6;
             remaining := py_round remaining 6;
             usage_pct := py_round usage_pct 2;
             status_period := BudgetPeriod.value (period config);
             status := status |}
  end.

(** The list comprehension of [check_all_budgets]. *)
Fixpoint check_each (self : BudgetManager) (tracker : CostTracker)
    (period_start : BudgetPeriod.t -> string) (entities : list string)
    : budget_result (list BudgetStatus) :=
  match entities with
  | [] => BOk []
  | entity_id :: rest =>
      match check_budget self tracker period_start entity_id with
      | BErr e => BErr e
      | BOk st =>
          match check_each self tracker period_start rest with
          | BErr e => BErr e
          | BOk sts => BOk (st :: sts)
          end
      end
  end.

(** [BudgetManager.check_all_budgets]. *)
Definition check_all_budgets (self : BudgetManager) (tracker : CostTracker)
    (period_start : BudgetPeriod.t -> string) : budget_result (list BudgetStatus) :=
  check_each self tracker period_start (PyDict.keys (_budgets self)).

(** The loop of [generate_alerts]. *)
Fixpoint alerts_for (self : BudgetManager) (tracker : CostTracker)
    (period_start : BudgetPeriod.t -> string) (entities : list string)
    (alerts : list BudgetAlert) : budget_result (list BudgetAlert) :=
  match entities with
  | [] => BOk alerts
  | eid :: rest =>
      match PyDict.get (_budgets self) eid with
      | None => alerts_for self tracker period_start rest alerts
      | Some config =>
          let current_spend :=
            get_department_spend tracker eid
              (Some (period_start (period config))) None in
          let usage_pct := budget_usage_pct config current_spend in
          if Qle_bool (critical_threshold_pct config) usage_pct then
            match BudgetAlert_init eid (budget_limit config) (py_round current_spend 6)
                    (critical_threshold_pct config) AlertType.CRITICAL with
            | BErr e => BErr e
            | BOk a => alerts_for self tracker period_start rest (alerts ++ [a])%list
            end
          else if Qle_bool (warning_threshold_pct config) usage_pct then
            match BudgetAlert_init eid (budget_limit config) (py_round current_spend 6)
                    (warning_threshold_pct config) AlertType.WARNING with
            | BErr e => BErr e
            | BOk a => alerts_for self tracker period_start rest (alerts ++ [a])%list
            end
          else alerts_for self tracker period_start rest alerts
      end
  end.

(** [BudgetManager.generate_alerts]; an empty [entity_id] counts as none. *)
Definition generate_alerts (self : BudgetManager) (tracker : CostTracker)
    (period_start : BudgetPeriod.t -> string) (entity_id : option string)
    : budget_result (list BudgetAlert) :=
  let entities :=
    match entity_id with
    | Some eid => if is_empty eid then PyDict.keys (_budgets self) else [eid]
    | None => PyDict.keys (_budgets self)
    end in
  alerts_for self tracker period_start entities [].

(** The field constraints of [BudgetConfig]. *)
Definition valid_budget (c : BudgetConfig) : Prop :=
  (0 <= budget_limit c)%Q
  /\ (0 <= warning_threshold_pct c)%Q /\ (warning_threshold_pct c <= 100)%Q
  /\ (0 <= critical_threshold_pct c)%Q /\ (critical_threshold_pct c <= 100)%Q.

(** The entity has a budget and its status is not "ok". *)
Definition status_not_ok (self : BudgetManager) (tracker : CostTracker)
    (period_start : BudgetPeriod.t -> string) (entity_id : string) : bool :=
  match check_budget self tracker period_start entity_id with
  | BOk st => negb (String.eqb (status st) "ok")
  | BErr _ => false
  end.

Record Forecast := {
  fc_entity_id : string;
  fc_current_spend : Q;
  daily_rate : Q;
  projected_spend : Q;
  fc_days_ahead : Z;
  projected_end_of_period : Q;
  fc_budget_limit : option Q;
  will_exceed : option bool
}.

(** [BudgetManager.forecast_spend].  Besides [period_start], the clock
    gives [elapsed_days], the value of [(now - period_start).days] for a
    period. *)
Definition forecast_spend (self : BudgetManager) (tracker : CostTracker)
    (period_start : BudgetPeriod.t -> string) (elapsed_days : BudgetPeriod.t -> Z)
    (entity_id : string) (days_ahead : Z) : Forecast :=
  let config := PyDict.get (_budgets self) entity_id in
  let the_period :=
    match config with Some c => period c | None => BudgetPeriod.MONTHLY end in
  let days_elapsed := Z.max (elapsed_days the_period) 1 in
  let current_spend :=
    get_department_spend tracker entity_id (Some (period_start the_period)) None in
  let daily_rate := (current_spend / inject_Z days_elapsed)%Q in
  let projected_spend := (current_spend + daily_rate * inject_Z days_ahead)%Q in
  let projected_end_of_period :=
    match config with
    | Some c =>
        let days_in_period :=
          match period c with BudgetPeriod.MONTHLY => 30%Z | BudgetPeriod.WEEKLY => 7%Z end in
        let remaining_days := Z.max (days_in_period - days_elapsed) 0 in
        (current_spend + daily_rate * inject_Z remaining_days)%Q
    | None => projected_spend
    end in
  {| fc_entity_id := entity_id;
     fc_current_spend := py_round current_spend 6;
     daily_rate := py_round daily_rate 6;
     projected_spend := py_round projected_spend 6;
     fc_days_ahead := days_ahead;
     projected_end_of_period := py_round projected_end_of_period 6;
     fc_budget_limit := match config with Some c => Some (budget_limit c) | None => None end;
     will_exceed :=
       match config with
       | Some c => Some (negb (Qle_bool projected_end_of_period (budget_limit c)))
       | None => None
       end |}.

(** ** cost_tracker.py: summaries *)

(** A row of one of the grouped queries. *)
Record SummaryRow := {
  row_entity : string;
  row_total_cost : Q;
  row_request_count : Z;
  row_total_input : Z;
  row_total_output : Z;
  row_total_latency : Q
}.

(** The constructor of [CostSummary]: every numeric field carries [ge=0]. *)
Definition CostSummary_init (entity : string) (total_cost : Q) (request_count
    total_input_tokens total_output_tokens : Z) (avg_cost_per_request avg_latency_ms : Q)
    : result CostSummary :=
  if negb (Qle_bool 0 total_cost) then Err (ValidationError "total_cost")
  else if negb (0 <=? request_count)%Z then Err (ValidationError "request_count")
  else if negb (0 <=? total_input_tokens)%Z then Err (ValidationError "total_input_tokens")
  else if negb (0 <=? total_output_tokens)%Z then Err (ValidationError "total_output_tokens")
  else if negb (Qle_bool 0 avg_cost_per_request)
  then Err (ValidationError "avg_cost_per_request")
  else if negb (Qle_bool 0 avg_latency_ms) then Err (ValidationError "avg_latency_ms")
  else Ok {| entity := entity; total_cost := total_cost; request_count := request_count;
             total_input_tokens := total_input_tokens;
             total_output_tokens := total_output_tokens;
             avg_cost_per_request := avg_cost_per_request;
             avg_latency_ms := avg_latency_ms |}.

(** [CostTracker._build_summary]. *)
Fixpoint _build_summary (rows : list SummaryRow) : result (list CostSummary) :=
  match rows with
  | [] => Ok []
  | row :: rest =>
      let avg_cost :=
        if (0 <? row_request_count row)%Z
        then (row_total_cost row / inject_Z (row_request_count row))%Q else 0%Q in
      let avg_latency :=
        if (0 <? row_request_count row)%Z
        then (row_total_latency row / inject_Z (row_request_count row))%Q else 0%Q in
      let? summary :=
        CostSummary_init (row_entity row) (py_round (row_total_cost row) 6)
          (row_request_count row) (row_total_input row) (row_total_output row)
          (py_round avg_cost 6) (py_round avg_latency 2) in
      let? summaries := _build_summary rest in
      Ok (summary :: summaries)
  end.

(** What the grouped queries deliver for records that satisfy their field
    constraints: sums and counts that are not negative. *)
Definition row_nonneg (row : SummaryRow) : Prop :=
  (0 <= row_total_cost row)%Q /\ (0 <= row_request_count row)%Z
  /\ (0 <= row_total_input row)%Z /\ (0 <= row_total_output row)%Z
  /\ (0 <= row_total_latency row)%Q.

(** *** More sample data *)
Module Sample2.
(** The sample document with rules for simple texts only. *)
Definition few_rules : gmap string string := <["simple" := "economy"]> ∅.

Definition few_rules_config : Config :=
  {| cfg_models := cfg_models Sample.config;
     cfg_routing_rules := few_rules;
     cfg_fallback_chain := Sample.chains;
     cfg_complexity_thresholds := Some Sample.thresholds |}.

Definition few_rules_router : SmartRouter :=
  {| models := models Sample.router;
     routing_rules := few_rules;
     fallback_chain := Sample.chains;
     complexity_thresholds := Sample.thresholds;
     _models_by_tier := _models_by_tier Sample.router |}.

Definition complex_request (text : string) : RoutingRequest :=
  {| content := text; complexity := Some Complexity.COMPLEX; department := None;
     project_id := None; max_cost := None; required_quality := None |}.
(** A usage table in the shape of the fixtures of the tests: five
    engineering records of nine dollars and one marketing record of five. *)
Definition usage (ts dept : string) (c : Q) : UsageRecord :=
  {| ur_timestamp := ts; ur_model := "model-a"; ur_department := dept;
     ur_project_id := "chatbot"; ur_input_tokens := 1000; ur_output_tokens := 500;
     ur_cost := c; ur_latency_ms := 200 |}.

Definition tracker : CostTracker :=
  [ usage "2026-11-04T10:00:00" "engineering" 9;
    usage "2026-11-04T09:00:00" "engineering" 9;
    usage "2026-11-04T08:00:00" "engineering" 9;
    usage "2026-11-04T07:00:00" "engineering" 9;
    usage "2026-11-04T06:00:00" "engineering" 9;
    usage "2026-11-04T10:00:00" "marketing" 5 ].

(** The start of the current month and week on that day. *)
Definition period_start (p : BudgetPeriod.t) : string :=
  match p with
  | BudgetPeriod.MONTHLY => "2026-11-01T00:00:00"
  | BudgetPeriod.WEEKLY => "2026-11-02T00:00:00"
  end.

Definition engineering_budget : BudgetConfig :=
  {| entity_id := "engineering"; budget_limit := 50; period := BudgetPeriod.MONTHLY;
     warning_threshold_pct := 80; critical_threshold_pct := 90 |}.

Definition manager : BudgetManager :=
  {| _budgets := [("engineering", engineering_budget)] |}.

Definition marketing_budget : BudgetConfig :=
  {| entity_id := "marketing"; budget_limit := 20; period := BudgetPeriod.WEEKLY;
     warning_threshold_pct := 80; critical_threshold_pct := 90 |}.

(** A manager with two budgets, engineering set first. *)
Definition two_budgets : BudgetManager :=
  {| _budgets := [("engineering", engineering_budget); ("marketing", marketing_budget)] |}.

Definition daily : list DailyCost :=
  [ {| dc_date := "2026-11-03"; dc_total_cost := 1 # 3; dc_request_count := 2 |};
    {| dc_date := "2026-11-04"; dc_total_cost := 1 # 4; dc_request_count := 1 |} ].
End Sample2.

(** The report of [savings_calculator] when no model is configured. *)
Definition empty_savings_report : SavingsReport :=
  {| sr_actual_cost := 0; sr_baseline_cost := 0; savings := 0; savings_pct := 0;
     baseline_model := "none" |}.

Example sample_loads : _load_config Sample.config = Ok Sample.router.
Proof. reflexivity. Qed.

Example sample_premium_order :
  _models_by_tier Sample.router QualityTier.PREMIUM = [Sample.delta; Sample.alpha].
Proof. reflexivity. Qed.

Example sample_standard_order :
  _models_by_tier Sample.router QualityTier.STANDARD = [Sample.beta; Sample.gamma].
Proof. reflexivity. Qed.

Example classify_hello :
  classify_complexity Sample.thresholds "hello" = Complexity.SIMPLE.
Proof. reflexivity. Qed.

Example classify_keywords :
  classify_complexity Sample.thresholds
    "Analyze and compare both designs, then evaluate them step by step?"
  = Complexity.COMPLEX.
Proof. vm_compute. reflexivity. Qed.

Example route_hello :
  route Sample.router (Sample.request "hello" None None)
  = Ok {| selected_model := Sample.epsilon;
          reason := "Complexity 'simple' mapped to 'economy' tier. Selected cheapest model in tier: Epsilon";
          estimated_cost := 50 # 1000000;
          decision_quality_tier := QualityTier.ECONOMY;
          decision_complexity := Complexity.SIMPLE |}.
Proof. vm_compute. reflexivity. Qed.

(** * Properties *)

(** ** Rounding *)

Section Rounding.
Local Open Scope Q_scope.

Lemma round_half_even_cases (x : Q) :
  round_half_even x = Qfloor x \/ round_half_even x = (Qfloor x + 1)%Z.
Proof.
  unfold round_half_even.
  destruct (x - inject_Z (Qfloor x) ?= 1 # 2); auto.
  destruct (Z.even (Qfloor x)); auto.
Qed.

Lemma Qfloor_frac (x : Q) :
  0 <= x - inject_Z (Qfloor x) /\ x - inject_Z (Qfloor x) < 1.
Proof.
  pose proof (Qfloor_le x) as Hl.
  pose proof (Qlt_floor x) as Hu.
  rewrite inject_Z_plus in Hu.
  change (inject_Z 1) with 1 in Hu.
  split; lra.
Qed.

(** The rounded integer is a nearest one. *)
Lemma round_half_even_near (x : Q) :
  Qabs (inject_Z (round_half_even x) - x) <= 1 # 2.
Proof.
  destruct (Qfloor_frac x) as [H0 H1].
  apply Qabs_Qle_condition.
  unfold round_half_even.
  destruct (Qcompare_spec (x - inject_Z (Qfloor x)) (1 # 2)) as [He | Hlt | Hgt].
  - destruct (Z.even (Qfloor x)).
    + split; lra.
    + rewrite inject_Z_plus. change (inject_Z 1) with 1. split; lra.
  - split; lra.
  - rewrite inject_Z_plus. change (inject_Z 1) with 1. split; lra.
Qed.

Lemma round_half_even_mono (x y : Q) :
  x <= y -> (round_half_even x <= round_half_even y)%Z.
Proof.
  intros Hxy.
  pose proof (Qfloor_resp_le x y Hxy) as Hf.
  destruct (Z.eq_dec (Qfloor x) (Qfloor y)) as [Heq | Hne].
  - unfold round_half_even. rewrite <- Heq.
    destruct (Qcompare_spec (x - inject_Z (Qfloor x)) (1 # 2)) as [Hx | Hx | Hx];
      destruct (Qcompare_spec (y - inject_Z (Qfloor x)) (1 # 2)) as [Hy | Hy | Hy];
      try destruct (Z.even (Qfloor x)); try lia; exfalso; lra.
  - destruct (round_half_even_cases x) as [-> | ->];
      destruct (round_half_even_cases y) as [-> | ->]; lia.
Qed.

Lemma round_half_even_Z (z : Z) : round_half_even (inject_Z z) = z.
Proof.
  unfold round_half_even. rewrite Qfloor_Z.
  destruct (Qcompare_spec (inject_Z z - inject_Z z) (1 # 2)) as [H | H | H];
    try reflexivity; exfalso; lra.
Qed.

Lemma py_round_unfold (x : Q) (n : nat) :
  py_round x n = Qmake (round_half_even (x * inject_Z (Z.pos (py_scale n)))) (py_scale n).
Proof. reflexivity. Qed.

Lemma Qmake_le (a b : Z) (p : positive) : (a <= b)%Z -> Qmake a p <= Qmake b p.
Proof. intros H. unfold Qle; simpl. nia. Qed.

Lemma scale_pos (p : positive) : 0 < inject_Z (Z.pos p).
Proof. unfold Qlt; simpl. lia. Qed.

Lemma py_round_mono (x y : Q) (n : nat) : x <= y -> py_round x n <= py_round y n.
Proof.
  intros Hxy. rewrite !py_round_unfold.
  apply Qmake_le, round_half_even_mono.
  apply Qmult_le_compat_r; [assumption | apply Qlt_le_weak, scale_pos].
Qed.

Lemma py_round_zero (n : nat) : py_round 0 n == 0.
Proof.
  rewrite py_round_unfold.
  assert (H : round_half_even (0 * inject_Z (Z.pos (py_scale n))) = 0%Z).
  { unfold round_half_even, Qfloor. simpl. reflexivity. }
  rewrite H. reflexivity.
Qed.

Lemma py_round_nonneg (x : Q) (n : nat) : 0 <= x -> 0 <= py_round x n.
Proof.
  intros H. rewrite <- (py_round_zero n). now apply py_round_mono.
Qed.

(** [round(x, n)] is a multiple of [10^-n] nearest to [x]. *)
Lemma py_round_near (x : Q) (n : nat) :
  Qabs (py_round x n - x) <= 1 # (2 * py_scale n).
Proof.
  rewrite py_round_unfold.
  set (s := py_scale n).
  pose proof (round_half_even_near (x * inject_Z (Z.pos s))) as H.
  set (r := round_half_even (x * inject_Z (Z.pos s))) in *.
  pose proof (scale_pos s) as Hs.
  apply Qabs_Qle_condition in H. destruct H as [H1 H2].
  apply Qabs_Qle_condition.
  set (S := inject_Z (Z.pos s)) in *.
  assert (Hn : ~ S == 0) by (intros Hz; rewrite Hz in Hs; now apply Qlt_irrefl in Hs).
  assert (Hi : 0 <= / S) by (apply Qinv_le_0_compat; lra).
  assert (E : Qmake r s - x == (inject_Z r - x * S) * / S).
  { rewrite (Qmake_Qdiv r s). fold S. field. exact Hn. }
  assert (Eh : 1 # (2 * s) == (1 # 2) * / S).
  { unfold S, Qeq, Qmult, Qinv; simpl. lia. }
  rewrite E, Eh.
  apply (Qmult_le_compat_r _ _ (/ S)) in H1; [| exact Hi].
  apply (Qmult_le_compat_r _ _ (/ S)) in H2; [| exact Hi].
  split; lra.
Qed.
End Rounding.

(** ** The cost estimate *)

Section EstimateCost.
Local Open Scope Q_scope.

Lemma inject_Z_le (a b : Z) : (a <= b)%Z -> inject_Z a <= inject_Z b.
Proof. intros H. now rewrite <- Zle_Qle. Qed.



Lemma estimate_cost_nonneg (m : ModelConfig) (ti to : Z) :
  0 <= cost_per_1k_input m -> 0 <= cost_per_1k_output m ->
  (0 <= ti)%Z -> (0 <= to)%Z ->
  0 <= estimate_cost m ti to.
Proof.
  intros Hi Ho Hti Hto. unfold estimate_cost. apply py_round_nonneg.
  apply inject_Z_le in Hti, Hto. change (inject_Z 0) with 0 in *.
  assert (H1 : 0 <= inject_Z ti / 1000) by (apply Qle_shift_div_l; lra).
  assert (H2 : 0 <= inject_Z to / 1000) by (apply Qle_shift_div_l; lra).
  pose proof (Qmult_le_0_compat _ _ H1 Hi).
  pose proof (Qmult_le_0_compat _ _ H2 Ho).
  lra.
Qed.
End EstimateCost.



(** ** Loading: the tier index *)

Lemma QualityTier_eqb_eq (a b : QualityTier.t) : QualityTier.eqb a b = true <-> a = b.
Proof. destruct a, b; simpl; split; congruence. Qed.

Lemma QualityTier_of_value_value (q : QualityTier.t) :
  QualityTier.of_value (QualityTier.value q) = Some q.
Proof. destruct q; reflexivity. Qed.

Lemma QualityTier_value_of_value (s : string) (q : QualityTier.t) :
  QualityTier.of_value s = Some q -> QualityTier.value q = s.
Proof.
  unfold QualityTier.of_value.
  destruct (String.eqb_spec s "premium"); [intros [= <-]; now subst |].
  destruct (String.eqb_spec s "standard"); [intros [= <-]; now subst |].
  destruct (String.eqb_spec s "economy"); [intros [= <-]; now subst |].
  discriminate.
Qed.

Lemma index_models_from (ms : list ModelConfig) (index : QualityTier.t -> list ModelConfig)
    (t : QualityTier.t) :
  List.fold_left (fun index model => index_append index (quality_tier model) model) ms index t
  = (index t ++ models_of_tier ms t)%list.
Proof.
  revert index. induction ms as [| m ms IH]; intros index; simpl.
  - now rewrite app_nil_r.
  - rewrite IH. unfold index_append.
    destruct (QualityTier.eqb (quality_tier m) t); [| reflexivity].
    now rewrite <- app_assoc.
Qed.

(** The index built by the loop holds, per tier, the tier's models in the
    order of the document. *)
Lemma index_models_filter (ms : list ModelConfig) (t : QualityTier.t) :
  index_models ms t = models_of_tier ms t.
Proof. unfold index_models. now rewrite index_models_from. Qed.

Lemma models_of_tier_In (ms : list ModelConfig) (t : QualityTier.t) (m : ModelConfig) :
  In m (models_of_tier ms t) <-> In m ms /\ quality_tier m = t.
Proof.
  unfold models_of_tier. rewrite filter_In, QualityTier_eqb_eq. reflexivity.
Qed.

Lemma insert_by_input_cost_In (m x : ModelConfig) (l : list ModelConfig) :
  In x (insert_by_input_cost m l) <-> x = m \/ In x l.
Proof.
  induction l as [| y l IH]; simpl.
  - intuition.
  - destruct (Qle_bool (cost_per_1k_input m) (cost_per_1k_input y)); simpl.
    + intuition.
    + rewrite IH. intuition.
Qed.

Lemma sort_by_input_cost_In (x : ModelConfig) (l : list ModelConfig) :
  In x (sort_by_input_cost l) <-> In x l.
Proof.
  induction l as [| y l IH]; simpl; [reflexivity |].
  rewrite insert_by_input_cost_In, IH. intuition.
Qed.

(** The head of the sorted list is the first model of minimal input price:
    everything before it in the original order is strictly dearer, everything
    after it is at least as dear. *)
Lemma sort_by_input_cost_head (l : list ModelConfig) :
  l <> [] ->
  exists m rest pre post,
    sort_by_input_cost l = m :: rest /\ l = (pre ++ m :: post)%list
    /\ (forall x, In x pre -> (cost_per_1k_input m < cost_per_1k_input x)%Q)
    /\ (forall x, In x post -> (cost_per_1k_input m <= cost_per_1k_input x)%Q).
Proof.
  induction l as [| y l IH]; [congruence | intros _].
  destruct l as [| z l].
  - exists y, [], [], []. simpl. repeat split; intros x [].
  - destruct IH as (m & rest & pre & post & Hs & Hl & Hpre & Hpost); [congruence |].
    change (sort_by_input_cost (y :: z :: l))
      with (insert_by_input_cost y (sort_by_input_cost (z :: l))).
    rewrite Hs. simpl.
    destruct (Qle_bool (cost_per_1k_input y) (cost_per_1k_input m)) eqn:Hle.
    + apply Qle_bool_iff in Hle.
      exists y, (m :: rest), [], (z :: l). repeat split; [intros x [] |].
      intros x Hx. rewrite Hl in Hx. apply in_app_or in Hx.
      destruct Hx as [Hx | [<- | Hx]].
      * apply Qlt_le_weak. eapply Qle_lt_trans; [exact Hle | now apply Hpre].
      * exact Hle.
      * eapply Qle_trans; [exact Hle | now apply Hpost].
    + assert (Hlt : (cost_per_1k_input m < cost_per_1k_input y)%Q).
      { apply Qnot_le_lt. intros H. apply Qle_bool_iff in H. congruence. }
      exists m, (insert_by_input_cost y rest), (y :: pre), post.
      repeat split; [now rewrite Hl | | exact Hpost].
      intros x [<- | Hx]; [exact Hlt | now apply Hpre].
Qed.

Lemma build_models_valid (raws : list RawModel) (ms : list ModelConfig) :
  build_models raws = Ok ms -> Forall valid_model ms.
Proof.
  revert ms. induction raws as [| r raws IH]; intros ms; simpl.
  - intros [= <-]. constructor.
  - unfold ModelConfig_init.
    destruct (Qle_bool 0 (raw_cost_per_1k_input r)) eqn:Hi; simpl; [| discriminate].
    destruct (Qle_bool 0 (raw_cost_per_1k_output r)) eqn:Ho; simpl; [| discriminate].
    destruct (0 <? raw_max_tokens r)%Z eqn:Ht; simpl; [| discriminate].
    destruct (QualityTier.of_value (raw_quality_tier r)); simpl; [| discriminate].
    destruct (build_models raws) as [others |]; simpl; [| discriminate].
    intros [= <-]. constructor; [| now apply IH].
    apply Qle_bool_iff in Hi, Ho. apply Z.ltb_lt in Ht.
    repeat split; assumption.
Qed.

(** What [_load_config] establishes. *)
Lemma load_config_inv (config : Config) (self : SmartRouter) :
  _load_config config = Ok self ->
  Forall valid_model (models self)
  /\ routing_rules self = cfg_routing_rules config
  /\ fallback_chain self = cfg_fallback_chain config
  /\ forall t, _models_by_tier self t = sort_by_input_cost (models_of_tier (models self) t).
Proof.
  unfold _load_config.
  destruct (build_models (cfg_models config)) as [ms |] eqn:Hb; simpl; [| discriminate].
  intros [= <-]. simpl. repeat split.
  - now apply build_models_valid with (raws := cfg_models config).
  - intros t. now rewrite index_models_filter.
Qed.

Lemma loaded_tier_In (config : Config) (self : SmartRouter) (t : QualityTier.t)
    (m : ModelConfig) :
  _load_config config = Ok self ->
  In m (_models_by_tier self t) <-> In m (models self) /\ quality_tier m = t.
Proof.
  intros Hl. destruct (load_config_inv _ _ Hl) as (_ & _ & _ & Hidx).
  now rewrite Hidx, sort_by_input_cost_In, models_of_tier_In.
Qed.

(** ** Selection within a tier *)

Lemma first_within_budget_unbounded (it ot : Z) (ms : list ModelConfig) :
  first_within_budget None it ot ms = List.head ms.
Proof. destruct ms; reflexivity. Qed.

Lemma first_within_budget_Some (mc : option Q) (it ot : Z) (ms : list ModelConfig)
    (m : ModelConfig) :
  first_within_budget mc it ot ms = Some m -> In m ms /\ within_budget mc it ot m.
Proof.
  induction ms as [| x ms IH]; simpl; [discriminate |].
  destruct mc as [c |]; simpl.
  - destruct (Qle_bool (estimate_cost x it ot) c) eqn:Hc; simpl.
    + intros [= <-]. split; [now left | now apply Qle_bool_iff].
    + intros H. destruct (IH H). split; [now right | assumption].
  - intros [= <-]. split; [now left | exact I].
Qed.

Lemma first_within_budget_None (mc : option Q) (it ot : Z) (ms : list ModelConfig) :
  first_within_budget mc it ot ms = None <-> forall m, In m ms -> ~ within_budget mc it ot m.
Proof.
  induction ms as [| x ms IH]; simpl.
  - split; [intros _ m [] | reflexivity].
  - destruct mc as [c |]; simpl.
    + destruct (Qle_bool (estimate_cost x it ot) c) eqn:Hc; simpl.
      * split; [discriminate |]. intros H. exfalso.
        apply (H x); [now left | now apply Qle_bool_iff].
      * rewrite IH. split.
        -- intros H m [<- | Hm]; [| now apply H].
           intros Hw. apply Qle_bool_iff in Hw. congruence.
        -- intros H m Hm. apply H. now right.
    + split; [discriminate |]. intros H. exfalso. apply (H x); [now left | exact I].
Qed.

Lemma get_cheapest_model_None (config : Config) (self : SmartRouter)
    (tier : QualityTier.t) (mc : option Q) (it ot : Z) :
  _load_config config = Ok self ->
  _get_cheapest_model self tier mc it ot = None
  <-> forall m, In m (models self) -> quality_tier m = tier -> ~ within_budget mc it ot m.
Proof.
  intros Hl. unfold _get_cheapest_model. rewrite first_within_budget_None.
  split; intros H m.
  - intros Hm Ht. apply H. rewrite (loaded_tier_In _ _ _ _ Hl). now split.
  - rewrite (loaded_tier_In _ _ _ _ Hl). intros [Hm Ht]. now apply H.
Qed.

Lemma get_cheapest_model_Some (config : Config) (self : SmartRouter)
    (tier : QualityTier.t) (mc : option Q) (it ot : Z) (m : ModelConfig) :
  _load_config config = Ok self ->
  _get_cheapest_model self tier mc it ot = Some m ->
  In m (models self) /\ quality_tier m = tier /\ within_budget mc it ot m.
Proof.
  intros Hl H. apply first_within_budget_Some in H. destruct H as [Hin Hw].
  apply (loaded_tier_In _ _ _ _ Hl) in Hin. tauto.
Qed.

(** C3. In a loaded router, with no cost ceiling, a tier that has models
    yields its first model of minimal input price in the order of the
    configuration: the models of the tier before it in that order are strictly
    dearer, those after it at least as dear.  With any ceiling, the result is
    [None] exactly when the tier has no model or a ceiling is given and the
    estimated cost of every model of the tier exceeds it. *)
Theorem C3_cheapest_in_tier (config : Config) (self : SmartRouter)
    (tier : QualityTier.t) (input_tokens output_tokens : Z) :
  _load_config config = Ok self ->
  let tier_models := models_of_tier (models self) tier in
  (tier_models <> [] ->
     exists m pre post,
       _get_cheapest_model self tier None input_tokens output_tokens = Some m
       /\ tier_models = (pre ++ m :: post)%list
       /\ (forall x, In x pre -> (cost_per_1k_input m < cost_per_1k_input x)%Q)
       /\ (forall x, In x post -> (cost_per_1k_input m <= cost_per_1k_input x)%Q))
  /\ (forall max_cost,
        _get_cheapest_model self tier max_cost input_tokens output_tokens = None
        <-> tier_models = []
            \/ exists c, max_cost = Some c
                 /\ forall x, In x tier_models ->
                      (c < estimate_cost x input_tokens output_tokens)%Q).
Proof.
  intros Hl tier_models.
  destruct (load_config_inv _ _ Hl) as (_ & _ & _ & Hidx).
  split.
  - intros Hne.
    destruct (sort_by_input_cost_head tier_models Hne)
      as (m & rest & pre & post & Hs & Hm & Hpre & Hpost).
    exists m, pre, post. repeat split; try assumption.
    unfold _get_cheapest_model.
    rewrite first_within_budget_unbounded, Hidx.
    fold tier_models. now rewrite Hs.
  - intros mc. rewrite (get_cheapest_model_None _ _ _ _ _ _ Hl). split.
    + intros H. destruct tier_models as [| x l] eqn:Htm; [now left | right].
      destruct mc as [c |].
      * exists c. split; [reflexivity |]. intros y Hy.
        apply Qnot_le_lt. intros Hle.
        rewrite <- Htm in Hy. apply models_of_tier_In in Hy. destruct Hy as [Hy Ht].
        now apply (H y Hy Ht).
      * exfalso. assert (Hx : In x (models_of_tier (models self) tier)).
        { fold tier_models. rewrite Htm. now left. }
        apply models_of_tier_In in Hx. destruct Hx as [Hx Ht].
        now apply (H x Hx Ht).
    + intros [Hnil | (c & -> & Hall)] m Hm Ht Hw.
      * assert (Hin : In m tier_models) by (apply models_of_tier_In; now split).
        rewrite Hnil in Hin. destruct Hin.
      * assert (Hin : In m tier_models) by (apply models_of_tier_In; now split).
        specialize (Hall m Hin). simpl in Hw.
        apply (Qlt_not_le _ _ Hall Hw).
Qed.

(** C3 on the sample configuration: of the two standard models with the
    same input price, the one configured first is returned. *)
Lemma C3_witness :
  exists m pre post,
    _get_cheapest_model Sample.router QualityTier.STANDARD None 500 500 = Some m
    /\ models_of_tier (models Sample.router) QualityTier.STANDARD = (pre ++ m :: post)%list
    /\ (forall x, In x pre -> (cost_per_1k_input m < cost_per_1k_input x)%Q)
    /\ (forall x, In x post -> (cost_per_1k_input m <= cost_per_1k_input x)%Q).
Proof.
  apply (C3_cheapest_in_tier Sample.config Sample.router QualityTier.STANDARD 500 500).
  - reflexivity.
  - simpl. discriminate.
Defined.

(** ** The classifier *)

Lemma lower_char_space (c : ascii) : is_space (lower_char c) = is_space c.
Proof. destruct c as [[] [] [] [] [] [] [] []]; reflexivity. Qed.

Lemma whitespace_only_lower (s : string) :
  whitespace_only (py_lower s) = whitespace_only s.
Proof.
  induction s as [| c s IH]; simpl; [reflexivity |].
  now rewrite lower_char_space, IH.
Qed.

Lemma py_lstrip_spec (s : string) :
  (whitespace_only s = true /\ py_lstrip s = EmptyString)
  \/ (whitespace_only s = false
      /\ exists c t, py_lstrip s = String c t /\ is_space c = false).
Proof.
  induction s as [| c s IH]; simpl; [now left |].
  destruct (is_space c) eqn:Hc; simpl; [exact IH |].
  right. split; [reflexivity |]. now exists c, s.
Qed.

Lemma py_rstrip_nonempty (c : ascii) (t : string) :
  is_space c = false -> py_rstrip (String c t) <> EmptyString.
Proof.
  intros Hc. simpl. destruct (py_rstrip t); [rewrite Hc |]; discriminate.
Qed.

(** Stripping leaves nothing exactly when the text is whitespace only. *)
Lemma py_strip_empty (s : string) :
  is_empty (py_strip s) = whitespace_only s.
Proof.
  unfold py_strip.
  destruct (py_lstrip_spec s) as [[-> ->] | (-> & c & t & -> & Hc)]; [reflexivity |].
  pose proof (py_rstrip_nonempty c t Hc) as Hne.
  destruct (py_rstrip (String c t)); [congruence | reflexivity].
Qed.

(** C4. Whitespace-only text, the empty text included, is simple whatever
    its score; any other text is simple when its score is at most 1,
    moderate when the score is above 1 and at most 3.5, complex above 3.5. *)
Theorem C4_classify_thresholds (th : Thresholds) (text : string) :
  (whitespace_only text = true -> classify_complexity th text = Complexity.SIMPLE)
  /\ (whitespace_only text = false ->
      ((complexity_score th text <= 1)%Q ->
         classify_complexity th text = Complexity.SIMPLE)
      /\ ((1 < complexity_score th text)%Q -> (complexity_score th text <= 7 # 2)%Q ->
         classify_complexity th text = Complexity.MODERATE)
      /\ ((7 # 2 < complexity_score th text)%Q ->
         classify_complexity th text = Complexity.COMPLEX)).
Proof.
  unfold classify_complexity.
  rewrite py_strip_empty, whitespace_only_lower.
  split; intros Hw; rewrite Hw; [reflexivity |].
  repeat split.
  - intros H. apply Qle_bool_iff in H. now rewrite H.
  - intros H1 H2.
    destruct (Qle_bool (complexity_score th text) 1) eqn:E1.
    + apply Qle_bool_iff in E1. exfalso. apply (Qlt_not_le _ _ H1 E1).
    + apply Qle_bool_iff in H2. now rewrite H2.
  - intros H.
    destruct (Qle_bool (complexity_score th text) 1) eqn:E1.
    + apply Qle_bool_iff in E1. exfalso.
      apply (Qlt_not_le _ _ H). eapply Qle_trans; [exact E1 | discriminate].
    + destruct (Qle_bool (complexity_score th text) (7 # 2)) eqn:E2; [| reflexivity].
      apply Qle_bool_iff in E2. exfalso. apply (Qlt_not_le _ _ H E2).
Qed.

(** C4 at the boundaries: a text of score exactly 1 is simple, one of score
    exactly 3.5 is moderate, and a blank text is simple. *)
Lemma C4_witness :
  classify_complexity Sample.thresholds "  " = Complexity.SIMPLE
  /\ classify_complexity Sample.thresholds "compare? thanks" = Complexity.SIMPLE
  /\ classify_complexity Sample.thresholds "compare and evaluate?" = Complexity.MODERATE
  /\ classify_complexity Sample.thresholds "analyze, compare and evaluate" = Complexity.COMPLEX.
Proof.
  split; [| split; [| split]].
  - apply (proj1 (C4_classify_thresholds Sample.thresholds "  ")). reflexivity.
  - destruct (C4_classify_thresholds Sample.thresholds "compare? thanks") as [_ H].
    destruct H as (H & _ & _); [reflexivity |].
    apply H. vm_compute. discriminate.
  - destruct (C4_classify_thresholds Sample.thresholds "compare and evaluate?")
      as [_ H].
    destruct H as (_ & H & _); [reflexivity |].
    apply H; vm_compute; [reflexivity | discriminate].
  - destruct (C4_classify_thresholds Sample.thresholds "analyze, compare and evaluate")
      as [_ H].
    destruct H as (_ & _ & H); [reflexivity |].
    apply H. vm_compute. reflexivity.
Defined.

(** A blank text whose score, were it computed, would be 1.5: the empty
    keyword occurs in every text.  It is simple all the same. *)
Example blank_text_simple_whatever_the_score :
  let th := {| short_text_max := None; medium_text_max := None;
               complex_keywords := Some [""]; simple_keywords := None |} in
  (complexity_score th "   " == 3 # 2)%Q
  /\ classify_complexity th "   " = Complexity.SIMPLE.
Proof. split; reflexivity. Qed.

(** ** Routing *)

Lemma estimate_tokens_ge (text : string) : (100 <= estimate_tokens text)%Z.
Proof. unfold estimate_tokens. lia. Qed.

Lemma route_target_error (self : SmartRouter) (request : RoutingRequest) (e : exn) :
  resolve_target_tier self request (resolve_complexity self request) = Err e ->
  route self request = Err e.
Proof. intros H. unfold route. now rewrite H. Qed.

(** The target tier has a model within budget: it is the one selected. *)
Lemma route_target_found (self : SmartRouter) (request : RoutingRequest)
    (target : QualityTier.t) (m : ModelConfig) :
  let cx := resolve_complexity self request in
  let tokens := estimate_tokens (content request) in
  resolve_target_tier self request cx = Ok target ->
  _get_cheapest_model self target (max_cost request) tokens tokens = Some m ->
  route self request
  = RoutingDecision_init m (py_join ". " [mapped_reason cx target; selected_reason m])
      (estimate_cost m tokens tokens) (quality_tier m) cx.
Proof.
  intros cx tokens Ht Hm. unfold route. fold cx. rewrite Ht. simpl.
  fold tokens. now rewrite Hm.
Qed.

(** The target tier has none: the outcome is that of the fallback loop. *)
Lemma route_target_none (self : SmartRouter) (request : RoutingRequest)
    (target : QualityTier.t) :
  let cx := resolve_complexity self request in
  let tokens := estimate_tokens (content request) in
  resolve_target_tier self request cx = Ok target ->
  _get_cheapest_model self target (max_cost request) tokens tokens = None ->
  route self request
  = match try_fallbacks self (max_cost request) tokens tokens (fallback_names self target) with
    | Ok (Some (m, part)) =>
        RoutingDecision_init m (py_join ". " [trying_fallbacks_reason target; part])
          (estimate_cost m tokens tokens) (quality_tier m) cx
    | Ok None => Err (NoSuitableModel cx (max_cost request))
    | Err e => Err e
    end.
Proof.
  intros cx tokens Ht Hm. unfold route. fold cx. rewrite Ht. simpl.
  fold tokens. rewrite Hm. unfold fallback_names.
  destruct (try_fallbacks self (max_cost request) tokens tokens
              (default [] (fallback_chain self !! QualityTier.value target)))
    as [[[m part] |] | e]; reflexivity.
Qed.


Lemma tiers_of_names_In (names : list string) (t : QualityTier.t) :
  In t (tiers_of_names names) <-> In (QualityTier.value t) names.
Proof.
  induction names as [| n names IH]; simpl; [reflexivity |].
  destruct (QualityTier.of_value n) as [q |] eqn:Hq.
  - apply QualityTier_value_of_value in Hq. simpl. rewrite IH. split.
    + intros [<- | H]; [now left | now right].
    + intros [H | H]; [| now right]. left.
      rewrite <- Hq in H.
      destruct q, t; simpl in H; congruence.
  - rewrite IH. split; [now right |].
    intros [H | H]; [| assumption].
    exfalso. rewrite H, QualityTier_of_value_value in Hq. discriminate.
Qed.

Lemma try_fallbacks_Some (self : SmartRouter) (mc : option Q) (it ot : Z)
    (names : list string) (m : ModelConfig) (part : string) :
  try_fallbacks self mc it ot names = Ok (Some (m, part)) ->
  exists q, _get_cheapest_model self q mc it ot = Some m /\ part = fell_back_reason q m.
Proof.
  induction names as [| n names IH]; simpl; [discriminate |].
  unfold QualityTier_init.
  destruct (QualityTier.of_value n) as [q |]; simpl; [| discriminate].
  destruct (_get_cheapest_model self q mc it ot) as [m' |] eqn:Hm'; [| exact IH].
  intros [= <- <-]. now exists q.
Qed.


Section Loaded.
Variables (config : Config) (self : SmartRouter).
Hypothesis Hload : _load_config config = Ok self.

Lemma loaded_estimate_nonneg (m : ModelConfig) (text : string) :
  In m (models self) ->
  (0 <= estimate_cost m (estimate_tokens text) (estimate_tokens text))%Q.
Proof.
  intros Hm. destruct (load_config_inv _ _ Hload) as (Hv & _).
  rewrite List.Forall_forall in Hv. destruct (Hv m Hm) as (Hi & Ho & _).
  pose proof (estimate_tokens_ge text).
  apply estimate_cost_nonneg; auto; lia.
Qed.

(** The decision for a configured model passes its validation. *)
Lemma loaded_decision_ok (request : RoutingRequest) (m : ModelConfig)
    (parts : list string) :
  In m (models self) ->
  let tokens := estimate_tokens (content request) in
  RoutingDecision_init m (py_join ". " parts) (estimate_cost m tokens tokens)
    (quality_tier m) (resolve_complexity self request)
  = Ok (decision_of self request m parts).
Proof.
  intros Hm tokens. unfold RoutingDecision_init.
  pose proof (loaded_estimate_nonneg m (content request) Hm) as Hn.
  apply Qle_bool_iff in Hn. fold tokens in Hn. now rewrite Hn.
Qed.

Lemma not_affordable_iff (request : RoutingRequest) (t : QualityTier.t) :
  ~ tier_has_affordable self request t
  <-> _get_cheapest_model self t (max_cost request)
        (estimate_tokens (content request)) (estimate_tokens (content request)) = None.
Proof.
  rewrite (get_cheapest_model_None _ _ _ _ _ _ Hload). unfold tier_has_affordable.
  split.
  - intros H m Hm Ht Hw. apply H. now exists m.
  - intros H (m & Hm & Ht & Hw). now apply (H m).
Qed.

(** Every decision [route] returns was built by [decision_of] from a
    configured model that [_get_cheapest_model] returned for some tier. *)
Lemma route_Ok_inv (request : RoutingRequest) (d : RoutingDecision) :
  route self request = Ok d ->
  exists t m parts,
    _get_cheapest_model self t (max_cost request)
      (estimate_tokens (content request)) (estimate_tokens (content request)) = Some m
    /\ d = decision_of self request m parts.
Proof.
  intros Hr.
  destruct (resolve_target_tier self request (resolve_complexity self request))
    as [target | e] eqn:Ht; [| rewrite (route_target_error _ _ _ Ht) in Hr; discriminate].
  destruct (_get_cheapest_model self target (max_cost request)
              (estimate_tokens (content request)) (estimate_tokens (content request)))
    as [m |] eqn:Hm.
  - rewrite (route_target_found _ _ _ _ Ht Hm) in Hr.
    destruct (get_cheapest_model_Some _ _ _ _ _ _ _ Hload Hm) as (Hin & _).
    rewrite (loaded_decision_ok request m _ Hin) in Hr.
    injection Hr as <-.
    now exists target, m,
      [mapped_reason (resolve_complexity self request) target; selected_reason m].
  - rewrite (route_target_none _ _ _ Ht Hm) in Hr.
    destruct (try_fallbacks self (max_cost request) (estimate_tokens (content request))
                (estimate_tokens (content request)) (fallback_names self target))
      as [[[m' part] |] | e] eqn:Hf; try discriminate.
    destruct (try_fallbacks_Some _ _ _ _ _ _ _ Hf) as (q & Hq & ->).
    destruct (get_cheapest_model_Some _ _ _ _ _ _ _ Hload Hq) as (Hin & _).
    rewrite (loaded_decision_ok request m' _ Hin) in Hr.
    injection Hr as <-.
    now exists q, m', [trying_fallbacks_reason target; fell_back_reason q m'].
Qed.
End Loaded.

Example unknown_tier_loads :
  _load_config Sample.unknown_tier_config = Ok Sample.unknown_tier_router.
Proof. reflexivity. Qed.

Lemma sample_tier_names_valid : tier_names_valid Sample.router.
Proof.
  split; eapply bool_decide_unpack; vm_compute; exact I.
Qed.

(** ** The claims on routing *)

(** C1. A decision that [route] returns carries the estimate of its own
    model for [T] input and [T] output tokens, [T] being twice the word count
    of the content and at least 100; and the estimate is within the ceiling
    when the request gives one. *)
Theorem C1_estimated_cost_of_decision (config : Config) (self : SmartRouter)
    (request : RoutingRequest) (d : RoutingDecision) :
  _load_config config = Ok self ->
  route self request = Ok d ->
  let T := Z.max (Z.of_nat (List.length (py_split (content request))) * 2) 100 in
  estimated_cost d = estimate_cost (selected_model d) T T
  /\ forall c, max_cost request = Some c -> (estimated_cost d <= c)%Q.
Proof.
  intros Hload Hr T.
  destruct (route_Ok_inv _ _ Hload _ _ Hr) as (t & m & parts & Hm & ->).
  split; [reflexivity |].
  intros c Hc. simpl.
  destruct (get_cheapest_model_Some _ _ _ _ _ _ _ Hload Hm) as (_ & _ & Hw).
  rewrite Hc in Hw. exact Hw.
Qed.

Lemma C1_witness :
  exists d,
    route Sample.router (Sample.request "hello" (Some (1 # 1000)) None) = Ok d
    /\ estimated_cost d = estimate_cost (selected_model d) 100 100
    /\ forall c, Some (1 # 1000) = Some c -> (estimated_cost d <= c)%Q.
Proof.
  eexists. split; [vm_compute; reflexivity |].
  apply (C1_estimated_cost_of_decision Sample.config Sample.router
           (Sample.request "hello" (Some (1 # 1000)) None)).
  - reflexivity.
  - vm_compute. reflexivity.
Defined.







(** When the target tier yields nothing, the fallback loop decides: its
    model, if it finds one, is returned with the two reason parts; its
    exception, if it raises one, is the outcome; otherwise [route] raises. *)
Lemma route_fallback_outcome (config : Config) (self : SmartRouter)
    (request : RoutingRequest) (target : QualityTier.t) :
  _load_config config = Ok self ->
  let cx := resolve_complexity self request in
  let tokens := estimate_tokens (content request) in
  resolve_target_tier self request cx = Ok target ->
  _get_cheapest_model self target (max_cost request) tokens tokens = None ->
  route self request
  = match try_fallbacks self (max_cost request) tokens tokens (fallback_names self target) with
    | Ok (Some (m, part)) =>
        Ok (decision_of self request m [trying_fallbacks_reason target; part])
    | Ok None => Err (NoSuitableModel cx (max_cost request))
    | Err e => Err e
    end.
Proof.
  intros Hload cx tokens Ht Hm.
  rewrite (route_target_none _ _ _ Ht Hm). fold cx tokens.
  destruct (try_fallbacks self (max_cost request) tokens tokens (fallback_names self target))
    as [[[m part] |] | e] eqn:Hf; try reflexivity.
  destruct (try_fallbacks_Some _ _ _ _ _ _ _ Hf) as (q & Hq & _).
  destruct (get_cheapest_model_Some _ _ _ _ _ _ _ Hload Hq) as (Hin & _).
  exact (loaded_decision_ok _ _ Hload request m _ Hin).
Qed.



(** C6. Whatever the text and whatever complexity is detected or given,
    [route_text] with [required_quality] premium returns a premium model as
    soon as some configured premium model is within the ceiling, if there is
    a ceiling. *)
Theorem C6_required_premium (config : Config) (self : SmartRouter) (text : string)
    (kwargs : Kwargs) :
  _load_config config = Ok self ->
  kw_required_quality kwargs = Some QualityTier.PREMIUM ->
  (exists m, In m (models self) /\ quality_tier m = QualityTier.PREMIUM
             /\ within_budget (kw_max_cost kwargs) (estimate_tokens text)
                  (estimate_tokens text) m) ->
  exists d,
    route_text self text kwargs = Ok d
    /\ quality_tier (selected_model d) = QualityTier.PREMIUM
    /\ decision_quality_tier d = QualityTier.PREMIUM.
Proof.
  intros Hload Hq (m & Hin & Htier & Hw).
  unfold route_text.
  set (request := {| content := text; complexity := kw_complexity kwargs;
                     department := kw_department kwargs;
                     project_id := kw_project_id kwargs;
                     max_cost := kw_max_cost kwargs;
                     required_quality := kw_required_quality kwargs |}).
  assert (Hinit : RoutingRequest_init text (kw_complexity kwargs) (kw_department kwargs)
                    (kw_project_id kwargs) (kw_max_cost kwargs)
                    (kw_required_quality kwargs) = Ok request).
  { unfold RoutingRequest_init. destruct (kw_max_cost kwargs) as [c |] eqn:Hc;
      [| reflexivity].
    assert (H0 : (0 <= c)%Q).
    { eapply Qle_trans; [exact (loaded_estimate_nonneg _ _ Hload m text Hin) | exact Hw]. }
    apply Qle_bool_iff in H0. rewrite H0. unfold request. try rewrite Hc. reflexivity. }
  rewrite Hinit. simpl.
  assert (Ht : resolve_target_tier self request (resolve_complexity self request)
               = Ok QualityTier.PREMIUM).
  { unfold resolve_target_tier. simpl. now rewrite Hq. }
  destruct (_get_cheapest_model self QualityTier.PREMIUM (max_cost request)
              (estimate_tokens (content request)) (estimate_tokens (content request)))
    as [m' |] eqn:Hm'.
  - destruct (get_cheapest_model_Some _ _ _ _ _ _ _ Hload Hm') as (Hin' & Htier' & _).
    rewrite (route_target_found _ _ _ _ Ht Hm').
    rewrite (loaded_decision_ok _ _ Hload request m' _ Hin').
    eexists. split; [reflexivity |]. simpl. now split.
  - exfalso.
    apply (get_cheapest_model_None _ _ _ _ _ _ Hload) with (m := m) in Hm'; auto.
Qed.

Lemma C6_witness :
  exists d,
    route_text Sample.router "hello" (only_required_quality QualityTier.PREMIUM) = Ok d
    /\ quality_tier (selected_model d) = QualityTier.PREMIUM
    /\ decision_quality_tier d = QualityTier.PREMIUM.
Proof.
  apply (C6_required_premium Sample.config Sample.router "hello"
           (only_required_quality QualityTier.PREMIUM)).
  - reflexivity.
  - reflexivity.
  - exists Sample.alpha. split; [simpl; tauto |]. split; [reflexivity | exact I].
Defined.








(** ** Utilisation rates *)

Section Utilization.
Local Open Scope Q_scope.

Lemma fold_left_Qplus_acc (l : list Q) (a : Q) :
  List.fold_left Qplus l a == a + sum_Q l.
Proof.
  unfold sum_Q. revert a. induction l as [| x l IH]; intros a; simpl.
  - ring.
  - rewrite (IH (a + x)), (IH (0 + x)). ring.
Qed.

Lemma sum_Q_cons (x : Q) (l : list Q) : sum_Q (x :: l) == x + sum_Q l.
Proof. unfold sum_Q at 1. simpl. rewrite fold_left_Qplus_acc. ring. Qed.

Lemma fold_left_Zplus_acc (l : list Z) (a : Z) :
  List.fold_left Z.add l a = (a + sum_Z l)%Z.
Proof.
  unfold sum_Z. revert a. induction l as [| x l IH]; intros a; cbn [List.fold_left].
  - lia.
  - rewrite (IH (a + x)%Z), (IH (0 + x)%Z). lia.
Qed.

Lemma sum_Z_cons (x : Z) (l : list Z) : sum_Z (x :: l) = (x + sum_Z l)%Z.
Proof. unfold sum_Z at 1. simpl. rewrite fold_left_Zplus_acc. lia. Qed.

(** Rounding each term to two decimals moves the sum by at most half a
    hundredth per term. *)
Lemma sum_round_near {A : Type} (f : A -> Q) (l : list A) :
  Qabs (sum_Q (List.map (fun a => py_round (f a) 2) l) - sum_Q (List.map f l))
  <= inject_Z (Z.of_nat (List.length l)) * (1 # 200).
Proof.
  induction l as [| a l IH].
  - simpl. discriminate.
  - cbn [List.map List.length]. rewrite !sum_Q_cons.
    rewrite Nat2Z.inj_succ, <- Z.add_1_r, inject_Z_plus.
    change (inject_Z 1) with 1.
    pose proof (py_round_near (f a) 2) as Ha.
    change (1 # 2 * py_scale 2) with (1 # 200) in Ha.
    set (r := py_round (f a) 2) in *.
    set (R := sum_Q (List.map (fun a0 => py_round (f a0) 2) l)) in *.
    set (S := sum_Q (List.map f l)) in *.
    apply Qabs_Qle_condition in IH, Ha.
    apply Qabs_Qle_condition. split; lra.
Qed.

(** The shares of the parts, before rounding, add up to the share of the
    whole. *)
Lemma sum_shares_Z {A : Type} (count : A -> Z) (total : Q) (l : list A) :
  sum_Q (List.map (fun a => inject_Z (count a) / total * 100) l)
  == inject_Z (sum_Z (List.map count l)) / total * 100.
Proof.
  induction l as [| a l IH].
  - cbn [List.map]. unfold sum_Q, sum_Z, Qdiv. cbn [List.fold_left].
    change (inject_Z 0) with 0. ring.
  - cbn [List.map]. rewrite sum_Q_cons, sum_Z_cons, IH, inject_Z_plus.
    unfold Qdiv. ring.
Qed.

Lemma sum_shares_Q {A : Type} (cost : A -> Q) (total : Q) (l : list A) :
  sum_Q (List.map (fun a => cost a / total * 100) l)
  == sum_Q (List.map cost l) / total * 100.
Proof.
  induction l as [| a l IH].
  - cbn [List.map]. unfold sum_Q, Qdiv. cbn [List.fold_left]. ring.
  - cbn [List.map]. rewrite !sum_Q_cons, IH. unfold Qdiv. ring.
Qed.

Lemma whole_share (total : Q) : 0 < total -> total / total * 100 == 100.
Proof. intros H. field. intros H0. rewrite H0 in H. now apply Qlt_irrefl in H. Qed.

Lemma utilization_request_sum (summaries : list CostSummary) :
  (0 < sum_Z (List.map request_count summaries))%Z ->
  Qabs (sum_request_pct (model_utilization_rates summaries) - 100)
  <= inject_Z (Z.of_nat (List.length summaries)) * (1 # 200).
Proof.
  intros Hpos. unfold sum_request_pct, model_utilization_rates.
  rewrite List.map_map. cbn [request_pct].
  set (T := sum_Z (List.map request_count summaries)) in *.
  assert (Hb : (0 <? T)%Z = true) by now apply Z.ltb_lt.
  rewrite Hb.
  pose proof (sum_round_near
                (fun s => inject_Z (request_count s) / inject_Z T * 100) summaries) as Hr.
  rewrite sum_shares_Z in Hr. fold T in Hr.
  rewrite whole_share in Hr; [exact Hr |].
  unfold Qlt. simpl. lia.
Qed.

Lemma utilization_cost_sum (summaries : list CostSummary) :
  0 < sum_Q (List.map total_cost summaries) ->
  Qabs (sum_cost_pct (model_utilization_rates summaries) - 100)
  <= inject_Z (Z.of_nat (List.length summaries)) * (1 # 200).
Proof.
  intros Hpos. unfold sum_cost_pct, model_utilization_rates.
  rewrite List.map_map. cbn [cost_pct].
  set (T := sum_Q (List.map total_cost summaries)) in *.
  assert (Hb : Qle_bool T 0 = false).
  { destruct (Qle_bool T 0) eqn:E; [| reflexivity].
    apply Qle_bool_iff in E. exfalso. apply (Qlt_not_le _ _ Hpos E). }
  rewrite Hb. cbn [negb].
  pose proof (sum_round_near (fun s => total_cost s / T * 100) summaries) as Hr.
  rewrite sum_shares_Q in Hr. fold T in Hr.
  rewrite whole_share in Hr; assumption.
Qed.
End Utilization.

(** C10, as the code has it.  Each percentage is rounded to two decimals
    before it is returned, so over [n] models the sum of [request_pct] is
    within [n] times half a hundredth of 100 when there is at least one
    request, and so is the sum of [cost_pct] when the total cost is positive
    (in exact arithmetic). *)
Theorem C10_utilization_sums_near_100 (summaries : list CostSummary) :
  let rates := model_utilization_rates summaries in
  let n := inject_Z (Z.of_nat (List.length summaries)) in
  ((0 < sum_Z (List.map request_count summaries))%Z ->
     (Qabs (sum_request_pct rates - 100) <= n * (1 # 200))%Q)
  /\ ((0 < sum_Q (List.map total_cost summaries))%Q ->
     (Qabs (sum_cost_pct rates - 100) <= n * (1 # 200))%Q).
Proof.
  intros rates n. split; intros H.
  - now apply utilization_request_sum.
  - now apply utilization_cost_sum.
Qed.

(** C10 on three models with one request and one cent each: either sum is
    99.99, within three times half a hundredth of 100. *)
Lemma C10_witness :
  (Qabs (sum_request_pct (model_utilization_rates (Sample.summaries 3)) - 100)
   <= 3 * (1 # 200))%Q
  /\ (Qabs (sum_cost_pct (model_utilization_rates (Sample.summaries 3)) - 100)
      <= 3 * (1 # 200))%Q.
Proof.
  destruct (C10_utilization_sums_near_100 (Sample.summaries 3)) as [Hr Hc].
  split; [apply Hr | apply Hc]; vm_compute; reflexivity.
Defined.

Example three_models_sum :
  (sum_request_pct (model_utilization_rates (Sample.summaries 3)) == 9999 # 100)%Q
  /\ (sum_cost_pct (model_utilization_rates (Sample.summaries 3)) == 9999 # 100)%Q.
Proof. split; vm_compute; reflexivity. Qed.

(** C10 as stated fails: over sixty models with one request and one cent
    each, every percentage is 1.67 and either sum is 100.2, further from 100
    than even the tolerance of the repository's own test. *)
Lemma C10_counterexample :
  ~ (forall summaries : list CostSummary,
       (0 < sum_Z (List.map request_count summaries))%Z ->
       (0 < sum_Q (List.map total_cost summaries))%Q ->
       (Qabs (sum_request_pct (model_utilization_rates summaries) - 100)
        <= sum_tolerance)%Q
       /\ (Qabs (sum_cost_pct (model_utilization_rates summaries) - 100)
           <= sum_tolerance)%Q).
Proof.
  intros H.
  destruct (H (Sample.summaries 60)) as [Hr _]; [reflexivity | reflexivity |].
  vm_compute in Hr. apply Hr. reflexivity.
Qed.

(** * Further properties of the code *)

(** ** Loading *)


Lemma ModelConfig_init_inv (r : RawModel) (m : ModelConfig) :
  ModelConfig_init r = Ok m -> raw_model_ok r /\ as_raw m = r.
Proof.
  unfold ModelConfig_init.
  destruct (Qle_bool 0 (raw_cost_per_1k_input r)) eqn:Hi; simpl; [| discriminate].
  destruct (Qle_bool 0 (raw_cost_per_1k_output r)) eqn:Ho; simpl; [| discriminate].
  destruct (0 <? raw_max_tokens r)%Z eqn:Ht; simpl; [| discriminate].
  destruct (QualityTier.of_value (raw_quality_tier r)) as [q |] eqn:Hq; [| discriminate].
  intros [= <-]. apply Qle_bool_iff in Hi, Ho. apply Z.ltb_lt in Ht. split.
  - repeat split; try assumption. now exists q.
  - unfold as_raw. simpl. rewrite (QualityTier_value_of_value _ _ Hq). now destruct r.
Qed.





(** ** The tier index *)

Lemma insert_by_input_cost_perm (m : ModelConfig) (l : list ModelConfig) :
  Permutation (insert_by_input_cost m l) (m :: l).
Proof.
  induction l as [| y l IH]; simpl; [reflexivity |].
  destruct (Qle_bool (cost_per_1k_input m) (cost_per_1k_input y)); [reflexivity |].
  rewrite IH. apply perm_swap.
Qed.

Lemma sort_by_input_cost_perm (l : list ModelConfig) :
  Permutation (sort_by_input_cost l) l.
Proof.
  induction l as [| y l IH]; simpl; [reflexivity |].
  rewrite insert_by_input_cost_perm. now constructor.
Qed.

Lemma insert_by_input_cost_sorted (m : ModelConfig) (l : list ModelConfig) :
  StronglySorted cheaper_input l -> StronglySorted cheaper_input (insert_by_input_cost m l).
Proof.
  induction 1 as [| y l Hs IH Hall]; simpl.
  - repeat constructor.
  - destruct (Qle_bool (cost_per_1k_input m) (cost_per_1k_input y)) eqn:Hle.
    + apply Qle_bool_iff in Hle. constructor; [now constructor |].
      constructor; [exact Hle |].
      eapply List.Forall_impl; [| exact Hall].
      intros z Hz. unfold cheaper_input in *. eapply Qle_trans; eassumption.
    + assert (Hlt : (cost_per_1k_input y <= cost_per_1k_input m)%Q).
      { apply Qlt_le_weak, Qnot_le_lt. intros H. apply Qle_bool_iff in H. congruence. }
      constructor; [exact IH |].
      apply List.Forall_forall. intros z Hz.
      apply insert_by_input_cost_In in Hz. destruct Hz as [-> | Hz]; [exact Hlt |].
      rewrite List.Forall_forall in Hall. now apply Hall.
Qed.

Lemma sort_by_input_cost_sorted (l : list ModelConfig) :
  StronglySorted cheaper_input (sort_by_input_cost l).
Proof.
  induction l as [| y l IH]; simpl; [constructor |].
  now apply insert_by_input_cost_sorted.
Qed.

Lemma loaded_tier_sorted (config : Config) (self : SmartRouter) (tier : QualityTier.t) :
  _load_config config = Ok self ->
  StronglySorted cheaper_input (_models_by_tier self tier).
Proof.
  intros Hload. destruct (load_config_inv _ _ Hload) as (_ & _ & _ & Hidx).
  rewrite Hidx. apply sort_by_input_cost_sorted.
Qed.

Lemma loaded_tier_perm (config : Config) (self : SmartRouter) (tier : QualityTier.t) :
  _load_config config = Ok self ->
  Permutation (_models_by_tier self tier) (models_of_tier (models self) tier).
Proof.
  intros Hload. destruct (load_config_inv _ _ Hload) as (_ & _ & _ & Hidx).
  rewrite Hidx. apply sort_by_input_cost_perm.
Qed.

(** X2. After loading, the list of every tier is in ascending order of
    input price and is a rearrangement of the configured models of that tier:
    no model is lost, duplicated or filed under another tier. *)
Theorem loaded_tier_sorted_permutation (config : Config) (self : SmartRouter)
    (tier : QualityTier.t) :
  _load_config config = Ok self ->
  StronglySorted cheaper_input (_models_by_tier self tier)
  /\ Permutation (_models_by_tier self tier) (models_of_tier (models self) tier)
  /\ (forall m, In m (_models_by_tier self tier) <->
                In m (models self) /\ quality_tier m = tier).
Proof.
  intros Hload. split; [now apply (loaded_tier_sorted config) |].
  split; [now apply (loaded_tier_perm config) |].
  intros m. now apply (loaded_tier_In config).
Qed.

Lemma loaded_tier_sorted_permutation_witness :
  StronglySorted cheaper_input (_models_by_tier Sample.router QualityTier.PREMIUM)
  /\ Permutation (_models_by_tier Sample.router QualityTier.PREMIUM)
       (models_of_tier (models Sample.router) QualityTier.PREMIUM).
Proof.
  destruct (loaded_tier_sorted_permutation Sample.config Sample.router
              QualityTier.PREMIUM eq_refl) as (Hs & Hp & _).
  now split.
Defined.

Lemma models_of_tier_partition (ms : list ModelConfig) :
  (List.length (models_of_tier ms QualityTier.PREMIUM)
   + List.length (models_of_tier ms QualityTier.STANDARD)
   + List.length (models_of_tier ms QualityTier.ECONOMY))%nat = List.length ms.
Proof.
  induction ms as [| m ms IH]; simpl; [reflexivity |].
  destruct (quality_tier m); simpl; lia.
Qed.

(** X3. [get_available_models] with a tier returns models of that tier
    only, each configured model of the tier as often as it is configured; the
    three tier lists together have as many entries as the list returned
    without a tier, which is the configured list itself. *)
Theorem get_available_models_partition (config : Config) (self : SmartRouter) :
  _load_config config = Ok self ->
  get_available_models self None = models self
  /\ (forall t, Permutation (get_available_models self (Some t))
                  (List.filter (fun m => QualityTier.eqb (quality_tier m) t)
                     (get_available_models self None)))
  /\ (forall t m, In m (get_available_models self (Some t)) -> quality_tier m = t)
  /\ (List.length (get_available_models self (Some QualityTier.PREMIUM))
      + List.length (get_available_models self (Some QualityTier.STANDARD))
      + List.length (get_available_models self (Some QualityTier.ECONOMY)))%nat
     = List.length (get_available_models self None).
Proof.
  intros Hload. split; [reflexivity |].
  assert (Hp : forall t, Permutation (_models_by_tier self t)
                           (models_of_tier (models self) t)).
  { intros t. now apply (loaded_tier_perm config). }
  split; [exact Hp |]. split.
  - intros t m Hin. now apply (loaded_tier_In _ _ _ _ Hload) in Hin.
  - simpl. rewrite !(Permutation_length (Hp _)). apply models_of_tier_partition.
Qed.

Lemma get_available_models_partition_witness :
  (List.length (get_available_models Sample.router (Some QualityTier.PREMIUM))
   + List.length (get_available_models Sample.router (Some QualityTier.STANDARD))
   + List.length (get_available_models Sample.router (Some QualityTier.ECONOMY)))%nat
  = List.length (get_available_models Sample.router None).
Proof.
  now destruct (get_available_models_partition Sample.config Sample.router eq_refl)
    as (_ & _ & _ & H).
Defined.

(** ** Selection under a ceiling *)

Lemma first_within_budget_sorted (c : Q) (it ot : Z) (l : list ModelConfig)
    (m : ModelConfig) :
  StronglySorted cheaper_input l ->
  first_within_budget (Some c) it ot l = Some m ->
  forall x, In x l -> (cost_per_1k_input x < cost_per_1k_input m)%Q ->
            (c < estimate_cost x it ot)%Q.
Proof.
  induction 1 as [| y l Hs IH Hall]; simpl; [discriminate |].
  destruct (Qle_bool (estimate_cost y it ot) c) eqn:Hy; simpl.
  - intros [= <-] x [<- | Hx] Hlt.
    + exfalso. now apply Qlt_irrefl in Hlt.
    + exfalso. rewrite List.Forall_forall in Hall. specialize (Hall x Hx).
      apply (Qlt_not_le _ _ Hlt Hall).
  - intros Hm x [<- | Hx] Hlt.
    + apply Qnot_le_lt. intros H. apply Qle_bool_iff in H. congruence.
    + now apply IH.
Qed.

(** X4. Under a ceiling, the model returned for a tier is a configured
    model of that tier whose estimate is within the ceiling, and every model
    of the tier with a strictly lower input price has an estimate above the
    ceiling: the tier is searched in order of input price, not of estimate. *)
Theorem cheapest_model_under_ceiling (config : Config) (self : SmartRouter)
    (tier : QualityTier.t) (c : Q) (input_tokens output_tokens : Z) (m : ModelConfig) :
  _load_config config = Ok self ->
  _get_cheapest_model self tier (Some c) input_tokens output_tokens = Some m ->
  In m (models self) /\ quality_tier m = tier
  /\ (estimate_cost m input_tokens output_tokens <= c)%Q
  /\ forall x, In x (models self) -> quality_tier x = tier ->
       (cost_per_1k_input x < cost_per_1k_input m)%Q ->
       (c < estimate_cost x input_tokens output_tokens)%Q.
Proof.
  intros Hload Hm.
  destruct (get_cheapest_model_Some _ _ _ _ _ _ _ Hload Hm) as (Hin & Ht & Hw).
  repeat split; try assumption.
  intros x Hx Hxt Hlt.
  apply (first_within_budget_sorted c input_tokens output_tokens
           (_models_by_tier self tier) m); try assumption.
  - now apply (loaded_tier_sorted config).
  - apply (loaded_tier_In _ _ _ _ Hload). now split.
Qed.

Lemma cheapest_model_under_ceiling_witness :
  In Sample.delta (models Sample.router)
  /\ quality_tier Sample.delta = QualityTier.PREMIUM
  /\ (estimate_cost Sample.delta 100 100 <= 2 # 1000)%Q
  /\ forall x, In x (models Sample.router) -> quality_tier x = QualityTier.PREMIUM ->
       (cost_per_1k_input x < cost_per_1k_input Sample.delta)%Q ->
       (2 # 1000 < estimate_cost x 100 100)%Q.
Proof.
  apply (cheapest_model_under_ceiling Sample.config Sample.router
           QualityTier.PREMIUM (2 # 1000) 100 100 Sample.delta).
  - reflexivity.
  - vm_compute. reflexivity.
Defined.

(** ** Decisions *)

Lemma try_fallbacks_Some_in (self : SmartRouter) (mc : option Q) (it ot : Z)
    (names : list string) (m : ModelConfig) (part : string) :
  try_fallbacks self mc it ot names = Ok (Some (m, part)) ->
  exists q, In q (tiers_of_names names) /\ _get_cheapest_model self q mc it ot = Some m.
Proof.
  induction names as [| n names IH]; simpl; [discriminate |].
  unfold QualityTier_init.
  destruct (QualityTier.of_value n) as [q |]; simpl; [| discriminate].
  destruct (_get_cheapest_model self q mc it ot) as [m' |] eqn:Hm'.
  - intros [= <- <-]. exists q. split; [now left | assumption].
  - intros H. destruct (IH H) as (q' & Hin & Hq'). exists q'. split; [now right | assumption].
Qed.

(** X5. A decision that [route] returns names a configured model, carries
    the tier of that model, a non-negative estimate and the complexity given
    in the request (that of the classifier when none is given); the tier is
    the target tier or a tier of the chain configured for it, and it is the
    target tier whenever the target tier has a model within the ceiling. *)
Theorem route_decision_invariants (config : Config) (self : SmartRouter)
    (request : RoutingRequest) (d : RoutingDecision) :
  _load_config config = Ok self ->
  route self request = Ok d ->
  In (selected_model d) (models self)
  /\ decision_quality_tier d = quality_tier (selected_model d)
  /\ (0 <= estimated_cost d)%Q
  /\ decision_complexity d
     = match complexity request with
       | Some c => c
       | None => classify_complexity (complexity_thresholds self) (content request)
       end
  /\ exists target,
       resolve_target_tier self request (resolve_complexity self request) = Ok target
       /\ (decision_quality_tier d = target
           \/ In (decision_quality_tier d) (fallback_tiers self target))
       /\ (tier_has_affordable self request target -> decision_quality_tier d = target).
Proof.
  intros Hload Hr.
  set (tokens := estimate_tokens (content request)).
  destruct (resolve_target_tier self request (resolve_complexity self request))
    as [target | e] eqn:Ht; [| rewrite (route_target_error _ _ _ Ht) in Hr; discriminate].
  destruct (_get_cheapest_model self target (max_cost request) tokens tokens)
    as [m |] eqn:Hm.
  - destruct (get_cheapest_model_Some _ _ _ _ _ _ _ Hload Hm) as (Hin & Htier & _).
    rewrite (route_target_found _ _ _ _ Ht Hm) in Hr.
    rewrite (loaded_decision_ok _ _ Hload request m _ Hin) in Hr.
    injection Hr as <-. simpl.
    repeat split; try assumption.
    + exact (loaded_estimate_nonneg _ _ Hload m (content request) Hin).
    + exists target. split; [reflexivity |]. split; [now left | now intros _].
  - rewrite (route_fallback_outcome _ _ request target Hload Ht Hm) in Hr.
    fold tokens in Hr.
    destruct (try_fallbacks self (max_cost request) tokens tokens
                (fallback_names self target)) as [[[m part] |] | e] eqn:Hf;
      try discriminate.
    injection Hr as <-.
    destruct (try_fallbacks_Some_in _ _ _ _ _ _ _ Hf) as (q & Hq & Hgm).
    destruct (get_cheapest_model_Some _ _ _ _ _ _ _ Hload Hgm) as (Hin & Htier & _).
    simpl. repeat split; try assumption.
    + exact (loaded_estimate_nonneg _ _ Hload m (content request) Hin).
    + exists target. split; [reflexivity |]. split.
      * right. now rewrite Htier.
      * intros Ha. exfalso. now apply (not_affordable_iff _ _ Hload request target).
Qed.

Lemma route_decision_invariants_witness :
  exists d,
    route Sample.router (Sample.request "hello" (Some (1 # 1000)%Q) None) = Ok d
    /\ In (selected_model d) (models Sample.router)
    /\ decision_quality_tier d = quality_tier (selected_model d).
Proof.
  eexists. split; [vm_compute; reflexivity |].
  destruct (route_decision_invariants Sample.config Sample.router
              (Sample.request "hello" (Some (1 # 1000)%Q) None) _ eq_refl eq_refl)
    as (H1 & H2 & _).
  split; [exact H1 | exact H2].
Defined.

Lemma string_append_assoc (a b c : string) :
  String.append (String.append a b) c = String.append a (String.append b c).
Proof.
  induction a as [| x a IH]; [reflexivity |].
  change (String x (String.append (String.append a b) c)
          = String x (String.append a (String.append b c))).
  now rewrite IH.
Qed.

(** X6. A complexity for which the routing rules have no entry is routed
    to the standard tier: with no required quality, and a standard model
    within the ceiling, the decision is for the standard tier and says so. *)
Theorem missing_rule_defaults_to_standard (config : Config) (self : SmartRouter)
    (request : RoutingRequest) :
  _load_config config = Ok self ->
  required_quality request = None ->
  routing_rules self !! Complexity.value (resolve_complexity self request) = None ->
  tier_has_affordable self request QualityTier.STANDARD ->
  exists d,
    route self request = Ok d
    /\ decision_quality_tier d = QualityTier.STANDARD
    /\ reason d
       = String.append "Complexity '"
           (String.append (Complexity.value (resolve_complexity self request))
              (String.append "' mapped to 'standard' tier. Selected cheapest model in tier: "
                 (name (selected_model d)))).
Proof.
  intros Hload Hq Hrule Ha.
  set (tokens := estimate_tokens (content request)).
  assert (Ht : resolve_target_tier self request (resolve_complexity self request)
               = Ok QualityTier.STANDARD).
  { unfold resolve_target_tier. now rewrite Hq, Hrule. }
  destruct (_get_cheapest_model self QualityTier.STANDARD (max_cost request) tokens tokens)
    as [m |] eqn:Hm.
  - destruct (get_cheapest_model_Some _ _ _ _ _ _ _ Hload Hm) as (Hin & Htier & _).
    rewrite (route_target_found _ _ _ _ Ht Hm).
    rewrite (loaded_decision_ok _ _ Hload request m _ Hin).
    eexists. split; [reflexivity |]. split; [exact Htier |].
    simpl. unfold mapped_reason, selected_reason.
    rewrite !string_append_assoc. reflexivity.
  - exfalso. now apply (not_affordable_iff _ _ Hload request QualityTier.STANDARD).
Qed.

Lemma missing_rule_defaults_to_standard_witness :
  exists d,
    route Sample2.few_rules_router (Sample2.complex_request "hello") = Ok d
    /\ decision_quality_tier d = QualityTier.STANDARD
    /\ reason d
       = "Complexity 'complex' mapped to 'standard' tier. Selected cheapest model in tier: Beta".
Proof.
  destruct (missing_rule_defaults_to_standard Sample2.few_rules_config
              Sample2.few_rules_router (Sample2.complex_request "hello"))
    as (d & Hr & Ht & Hreason).
  - reflexivity.
  - reflexivity.
  - vm_compute. reflexivity.
  - exists Sample.beta. split; [simpl; tauto |]. split; [reflexivity | exact I].
  - exists d. split; [exact Hr |]. split; [exact Ht |].
    rewrite Hreason. clear Hreason Ht.
    vm_compute in Hr. injection Hr as <-. reflexivity.
Defined.

(** ** Relaxing the ceiling *)

Lemma first_within_budget_relax (mc mc' : option Q) (it ot : Z) (l : list ModelConfig)
    (m : ModelConfig) :
  ceiling_le mc mc' ->
  first_within_budget mc it ot l = Some m ->
  exists m', first_within_budget mc' it ot l = Some m'.
Proof.
  intros Hle. induction l as [| y l IH]; simpl; [discriminate |].
  destruct mc' as [c' |]; [| intros _; now exists y].
  destruct mc as [c |]; [| destruct Hle]. simpl in Hle.
  destruct (Qle_bool (estimate_cost y it ot) c) eqn:Hy; simpl.
  - intros _. apply Qle_bool_iff in Hy.
    assert (Hy' : Qle_bool (estimate_cost y it ot) c' = true)
      by (apply Qle_bool_iff; eapply Qle_trans; eassumption).
    rewrite Hy'. simpl. now exists y.
  - intros H. destruct (Qle_bool (estimate_cost y it ot) c'); simpl;
      [now exists y | now apply IH].
Qed.

Lemma try_fallbacks_relax (self : SmartRouter) (mc mc' : option Q) (it ot : Z)
    (names : list string) (m : ModelConfig) (part : string) :
  ceiling_le mc mc' ->
  try_fallbacks self mc it ot names = Ok (Some (m, part)) ->
  exists m' part', try_fallbacks self mc' it ot names = Ok (Some (m', part')).
Proof.
  intros Hle. induction names as [| n names IH]; simpl; [discriminate |].
  unfold QualityTier_init.
  destruct (QualityTier.of_value n) as [q |]; simpl; [| discriminate].
  destruct (_get_cheapest_model self q mc' it ot) as [m1 |] eqn:H1.
  - intros _. eauto.
  - destruct (_get_cheapest_model self q mc it ot) as [m0 |] eqn:H0; [| exact IH].
    intros _. exfalso.
    destruct (first_within_budget_relax mc mc' it ot _ m0 Hle H0) as [m' Hm'].
    unfold _get_cheapest_model in H1. congruence.
Qed.

(** X7. Loosening the cost ceiling, or dropping it, never turns a request
    that is served into one that is refused: if [route] returns a decision
    under a ceiling, it returns one for the same request under any ceiling at
    least as high and under none. *)
Theorem route_relax_ceiling (config : Config) (self : SmartRouter)
    (request : RoutingRequest) (mc' : option Q) (d : RoutingDecision) :
  _load_config config = Ok self ->
  ceiling_le (max_cost request) mc' ->
  route self request = Ok d ->
  exists d', route self (with_max_cost request mc') = Ok d'.
Proof.
  intros Hload Hle Hr.
  set (request' := with_max_cost request mc').
  set (tokens := estimate_tokens (content request)).
  destruct (resolve_target_tier self request (resolve_complexity self request))
    as [target | e] eqn:Ht; [| rewrite (route_target_error _ _ _ Ht) in Hr; discriminate].
  assert (Ht' : resolve_target_tier self request' (resolve_complexity self request')
                = Ok target) by exact Ht.
  destruct (_get_cheapest_model self target mc' tokens tokens) as [m' |] eqn:Hm'.
  - destruct (get_cheapest_model_Some _ _ _ _ _ _ _ Hload Hm') as (Hin & _).
    rewrite (route_target_found self request' target m' Ht' Hm').
    rewrite (loaded_decision_ok _ _ Hload request' m' _ Hin). eauto.
  - rewrite (route_fallback_outcome _ _ request' target Hload Ht' Hm').
    destruct (_get_cheapest_model self target (max_cost request) tokens tokens)
      as [m |] eqn:Hm.
    + exfalso.
      destruct (first_within_budget_relax _ mc' tokens tokens _ m Hle Hm) as [m1 Hm1].
      unfold _get_cheapest_model in Hm'. congruence.
    + rewrite (route_fallback_outcome _ _ request target Hload Ht Hm) in Hr.
      fold tokens in Hr.
      destruct (try_fallbacks self (max_cost request) tokens tokens
                  (fallback_names self target)) as [[[m part] |] | e] eqn:Hf;
        try discriminate.
      destruct (try_fallbacks_relax _ _ mc' _ _ _ _ _ Hle Hf) as (m1 & part1 & Hf1).
      change (max_cost request') with mc'.
      change (estimate_tokens (content request')) with tokens.
      rewrite Hf1. eauto.
Qed.

Lemma route_relax_ceiling_witness :
  exists d',
    route Sample.router
      (with_max_cost (Sample.request "hello" (Some (1 # 10000)%Q) None) None) = Ok d'.
Proof.
  eapply (route_relax_ceiling Sample.config Sample.router
            (Sample.request "hello" (Some (1 # 10000)%Q) None) None).
  - reflexivity.
  - exact I.
  - vm_compute. reflexivity.
Defined.

(** ** The cost-quality score *)

Section QualityScore.
Local Open Scope Q_scope.

Lemma quality_match_values (t : QualityTier.t) (c : Complexity.t) :
  1 - Qabs (tier_quality t - complexity_needs c) / 3 == 1
  \/ 1 - Qabs (tier_quality t - complexity_needs c) / 3 == 2 # 3
  \/ 1 - Qabs (tier_quality t - complexity_needs c) / 3 == 1 # 3.
Proof.
  destruct t, c; simpl;
    first [left; reflexivity | right; left; reflexivity | right; right; reflexivity].
Qed.

Lemma quality_match_one (t : QualityTier.t) (c : Complexity.t) :
  1 - Qabs (tier_quality t - complexity_needs c) / 3 == 1
  <-> tier_quality t = complexity_needs c.
Proof.
  destruct t, c; simpl; split; intros H; try reflexivity; try discriminate H.
Qed.

Lemma cost_efficiency_range (a : Q) : 0 <= a -> 0 < 1 / (1 + a * 100) /\ 1 / (1 + a * 100) <= 1.
Proof.
  intros Ha.
  assert (Hd : 0 < 1 + a * 100) by lra.
  split.
  - apply Qlt_shift_div_l; lra.
  - apply Qle_shift_div_r; lra.
Qed.

Lemma cost_efficiency_one (a : Q) : 0 <= a -> (1 / (1 + a * 100) == 1 <-> a == 0).
Proof.
  intros Ha. assert (Hd : 0 < 1 + a * 100) by lra. split; intros H.
  - assert (E : 1 / (1 + a * 100) * (1 + a * 100) == 1) by (field; lra).
    rewrite H in E. lra.
  - rewrite H. reflexivity.
Qed.

Lemma cost_efficiency_anti (a b : Q) :
  0 <= a -> a <= b -> 1 / (1 + b * 100) <= 1 / (1 + a * 100).
Proof.
  intros Ha Hab.
  assert (Hda : 0 < 1 + a * 100) by lra.
  assert (Hdb : 0 < 1 + b * 100) by lra.
  apply Qle_shift_div_l; [exact Hda |].
  assert (E : 1 / (1 + b * 100) * (1 + a * 100)
              == 1 - (b - a) * 100 * (1 / (1 + b * 100))).
  { field. lra. }
  rewrite E.
  assert (Hb : 0 <= b) by lra.
  destruct (cost_efficiency_range b Hb) as [Hp _].
  assert (0 <= (b - a) * 100 * (1 / (1 + b * 100))).
  { apply Qmult_le_0_compat; [lra | now apply Qlt_le_weak]. }
  lra.
Qed.

Lemma valid_model_estimate_nonneg (m : ModelConfig) :
  valid_model m -> 0 <= estimate_cost m 500 500.
Proof. intros (Hi & Ho & _). apply estimate_cost_nonneg; auto; lia. Qed.

(** X8. For a model that satisfies the field constraints, the cost-quality
    score lies above 0.2 and is at most 1; it is 1 exactly when the tier of
    the model is the one the complexity needs and the model's estimate for
    500 input and 500 output tokens is zero; and of two models of the same
    tier the one with the lower estimate does not score lower. *)
Theorem quality_score_range (m : ModelConfig) (c : Complexity.t) :
  valid_model m ->
  1 # 5 < _calculate_quality_score m c
  /\ _calculate_quality_score m c <= 1
  /\ (_calculate_quality_score m c == 1
      <-> tier_quality (quality_tier m) = complexity_needs c
          /\ estimate_cost m 500 500 == 0)
  /\ forall m', valid_model m' -> quality_tier m' = quality_tier m ->
       estimate_cost m 500 500 <= estimate_cost m' 500 500 ->
       _calculate_quality_score m' c <= _calculate_quality_score m c.
Proof.
  intros Hv. pose proof (valid_model_estimate_nonneg m Hv) as Ha.
  destruct (cost_efficiency_range _ Ha) as [Hce0 Hce1].
  pose proof (cost_efficiency_one _ Ha) as Hone.
  pose proof (quality_match_one (quality_tier m) c) as Hqm1.
  unfold _calculate_quality_score.
  set (ce := 1 / (1 + estimate_cost m 500 500 * 100)) in *.
  set (qm := 1 - Qabs (tier_quality (quality_tier m) - complexity_needs c) / 3) in *.
  assert (Hqm : qm == 1 \/ qm == 2 # 3 \/ qm == 1 # 3)
    by apply quality_match_values.
  split; [| split; [| split]].
  - destruct Hqm as [H | [H | H]]; rewrite H; lra.
  - destruct Hqm as [H | [H | H]]; rewrite H; lra.
  - split.
    + intros Hs. destruct Hqm as [H | [H | H]]; rewrite H in Hs.
      * split; [now apply Hqm1 | apply Hone; lra].
      * exfalso. lra.
      * exfalso. lra.
    + intros [Hq He]. apply Hqm1 in Hq. apply Hone in He. rewrite Hq, He. reflexivity.
  - intros m' Hv' Ht Hle. rewrite Ht. fold qm.
    pose proof (cost_efficiency_anti _ _ Ha Hle) as Hanti. fold ce in Hanti.
    set (ce' := 1 / (1 + estimate_cost m' 500 500 * 100)) in *.
    lra.
Qed.

Lemma quality_score_range_witness :
  1 # 5 < _calculate_quality_score Sample.epsilon Complexity.SIMPLE
  /\ _calculate_quality_score Sample.epsilon Complexity.SIMPLE <= 1.
Proof.
  destruct (quality_score_range Sample.epsilon Complexity.SIMPLE) as (H1 & H2 & _).
  - repeat split; vm_compute; congruence.
  - now split.
Defined.
End QualityScore.

(** ** Keywords *)

Lemma lower_char_idem (c : ascii) : lower_char (lower_char c) = lower_char c.
Proof. destruct c as [[] [] [] [] [] [] [] []]; reflexivity. Qed.

Lemma py_lower_no_upper (s : string) : has_cased_upper (py_lower s) = false.
Proof.
  induction s as [| c s IH]; simpl; [reflexivity |].
  rewrite lower_char_idem, Ascii.eqb_refl, IH. reflexivity.
Qed.

Lemma py_lstrip_no_upper (s : string) :
  has_cased_upper s = false -> has_cased_upper (py_lstrip s) = false.
Proof.
  induction s as [| c s IH]; simpl; [reflexivity |].
  intros H. apply orb_false_iff in H. destruct H as [Hc Hs].
  destruct (is_space c); [now apply IH |].
  simpl. now rewrite Hc, Hs.
Qed.

Lemma py_rstrip_no_upper (s : string) :
  has_cased_upper s = false -> has_cased_upper (py_rstrip s) = false.
Proof.
  induction s as [| c s IH]; simpl; [reflexivity |].
  intros H. apply orb_false_iff in H. destruct H as [Hc Hs].
  specialize (IH Hs).
  destruct (py_rstrip s) as [| c' s'].
  - destruct (is_space c); simpl; [reflexivity | now rewrite Hc].
  - change (has_cased_upper (String c (String c' s')) = false).
    simpl in *. now rewrite Hc, IH.
Qed.

Lemma prefix_no_upper (kw s : string) :
  String.prefix kw s = true -> has_cased_upper s = false -> has_cased_upper kw = false.
Proof.
  revert s. induction kw as [| k kw IH]; intros s; [reflexivity |].
  destruct s as [| c s]; simpl; [discriminate |].
  destruct (ascii_dec k c) as [-> | Hne]; [| discriminate].
  intros Hp H. apply orb_false_iff in H. destruct H as [Hc Hs].
  rewrite Hc. simpl. now apply (IH s).
Qed.

Lemma py_in_no_upper (kw s : string) :
  py_in kw s = true -> has_cased_upper s = false -> has_cased_upper kw = false.
Proof.
  induction s as [| c s IH]; simpl.
  - rewrite orb_false_r. intros Hp _. now apply (prefix_no_upper kw EmptyString).
  - intros H Hs. apply orb_true_iff in H. destruct H as [Hp | Hin].
    + now apply (prefix_no_upper kw (String c s)).
    + apply IH; [exact Hin |]. apply orb_false_iff in Hs. tauto.
Qed.

(** A keyword with a character that lower-casing changes occurs in no text
    as the classifier sees it. *)
Lemma cased_keyword_never_in (kw text : string) :
  has_cased_upper kw = true -> py_in kw (py_strip (py_lower text)) = false.
Proof.
  intros Hkw. destruct (py_in kw (py_strip (py_lower text))) eqn:Hin; [| reflexivity].
  apply py_in_no_upper in Hin; [congruence |].
  unfold py_strip. apply py_rstrip_no_upper, py_lstrip_no_upper, py_lower_no_upper.
Qed.

Lemma keyword_matches_drop (pre post : list string) (kw text : string) :
  py_in kw text = false ->
  keyword_matches (pre ++ kw :: post) text = keyword_matches (pre ++ post) text.
Proof.
  intros H. unfold keyword_matches. rewrite !List.filter_app. simpl. now rewrite H.
Qed.

(** X9. Keywords are looked for in the lower-cased text but are not
    lower-cased themselves: a configured keyword that contains an upper-case
    letter never matches, so the classification of every text is the same as
    without it, be it a complex or a simple keyword. *)
Theorem cased_keyword_is_ignored (th : Thresholds) (pre post : list string)
    (kw text : string) :
  has_cased_upper kw = true ->
  classify_complexity (with_complex_keywords th (pre ++ kw :: post)) text
  = classify_complexity (with_complex_keywords th (pre ++ post)) text
  /\ classify_complexity (with_simple_keywords th (pre ++ kw :: post)) text
     = classify_complexity (with_simple_keywords th (pre ++ post)) text.
Proof.
  intros Hkw. pose proof (cased_keyword_never_in kw text Hkw) as Hin.
  unfold classify_complexity, complexity_score, with_complex_keywords,
    with_simple_keywords.
  cbv [complex_keywords simple_keywords short_text_max medium_text_max
       default from_option id].
  rewrite !(keyword_matches_drop pre post kw _ Hin). split; reflexivity.
Qed.

Lemma cased_keyword_is_ignored_witness :
  classify_complexity (with_complex_keywords Sample.thresholds ["Analyze"; "compare"])
    "Analyze this"
  = classify_complexity (with_complex_keywords Sample.thresholds ["compare"])
      "Analyze this".
Proof.
  apply (proj1 (cased_keyword_is_ignored Sample.thresholds [] ["compare"]
                  "Analyze" "Analyze this" eq_refl)).
Defined.

(** ** Bounds on the score *)

Lemma complexity_score_bounds (th : Thresholds) (text : string) :
  let k := (inject_Z (Z.of_nat (complex_matches_of th text)) * (3 # 2)
            - inject_Z (Z.of_nat (simple_matches_of th text)) * 1)%Q in
  (k <= complexity_score th text)%Q /\ (complexity_score th text <= k + (17 # 2))%Q.
Proof.
  unfold complexity_score, complex_matches_of, simple_matches_of. cbv zeta.
  set (cm := inject_Z (Z.of_nat (keyword_matches _ _))).
  set (sm := inject_Z (Z.of_nat (keyword_matches (default [] (simple_keywords th)) _))).
  repeat match goal with
         | |- context [if ?b then _ else _] => destruct b
         end; split; lra.
Qed.

(** X10. The score of a text is the keyword balance, 1.5 per matching
    complex keyword less 1 per matching simple keyword, plus between 0 and 8.5
    for length, questions, list items, code markers and word count.  So a
    text that is not blank is complex as soon as the balance exceeds 3.5 (three
    complex keywords and no simple one, say), and simple as soon as the
    balance is at most -7.5. *)
Theorem keyword_balance_decides (th : Thresholds) (text : string) :
  let balance := (inject_Z (Z.of_nat (complex_matches_of th text)) * (3 # 2)
                  - inject_Z (Z.of_nat (simple_matches_of th text)) * 1)%Q in
  (balance <= complexity_score th text)%Q
  /\ (complexity_score th text <= balance + (17 # 2))%Q
  /\ (whitespace_only text = false -> (7 # 2 < balance)%Q ->
      classify_complexity th text = Complexity.COMPLEX)
  /\ ((balance <= - (15 # 2))%Q ->
      classify_complexity th text = Complexity.SIMPLE).
Proof.
  intros balance.
  destruct (complexity_score_bounds th text) as [Hlo Hhi]. fold balance in Hlo, Hhi.
  split; [exact Hlo |]. split; [exact Hhi |]. split.
  - intros Hw Hb. unfold classify_complexity.
    rewrite py_strip_empty, whitespace_only_lower, Hw.
    destruct (Qle_bool (complexity_score th text) 1) eqn:E1.
    + apply Qle_bool_iff in E1. exfalso. lra.
    + destruct (Qle_bool (complexity_score th text) (7 # 2)) eqn:E2; [| reflexivity].
      apply Qle_bool_iff in E2. exfalso. lra.
  - intros Hb. unfold classify_complexity.
    destruct (is_empty (py_strip (py_lower text))); [reflexivity |].
    assert (H1 : (complexity_score th text <= 1)%Q) by lra.
    apply Qle_bool_iff in H1. now rewrite H1.
Qed.

Lemma keyword_balance_decides_witness :
  classify_complexity Sample.thresholds "analyze, compare and evaluate"
  = Complexity.COMPLEX.
Proof.
  destruct (keyword_balance_decides Sample.thresholds "analyze, compare and evaluate")
    as (_ & _ & H & _).
  apply H; [reflexivity | vm_compute; reflexivity].
Defined.

(** ** Cost trends *)

Lemma cost_trends_from_fields (c : Q) (daily : list DailyCost) :
  List.map tp_date (cost_trends_from c daily) = List.map dc_date daily
  /\ List.map daily_cost (cost_trends_from c daily) = List.map dc_total_cost daily
  /\ List.map tp_request_count (cost_trends_from c daily) = List.map dc_request_count daily.
Proof.
  revert c. induction daily as [| e daily IH]; intros c; simpl; [now repeat split |].
  destruct (IH (c + dc_total_cost e)%Q) as (H1 & H2 & H3).
  now rewrite H1, H2, H3.
Qed.

Lemma cost_trends_from_nth (daily : list DailyCost) (c : Q) (i : nat) (p : TrendPoint) :
  nth_error (cost_trends_from c daily) i = Some p ->
  cumulative_cost p
  = py_round (List.fold_left Qplus (firstn (S i) (List.map dc_total_cost daily)) c) 6.
Proof.
  revert c i. induction daily as [| e daily IH]; intros c i.
  - destruct i; discriminate.
  - destruct i as [| i]; simpl.
    + intros [= <-]. reflexivity.
    + intros H. now rewrite (IH _ _ H).
Qed.

Lemma cost_trends_from_ge (daily : list DailyCost) (c : Q) (p : TrendPoint) :
  Forall (fun e => (0 <= dc_total_cost e)%Q) daily ->
  In p (cost_trends_from c daily) ->
  (py_round c 6 <= cumulative_cost p)%Q.
Proof.
  intros Hall. revert c. induction Hall as [| e daily He Hall IH]; intros c; simpl;
    [intros [] |].
  intros [<- | Hin]; simpl.
  - apply py_round_mono. lra.
  - eapply Qle_trans; [| exact (IH _ Hin)]. apply py_round_mono. lra.
Qed.

Lemma cost_trends_from_sorted (daily : list DailyCost) (c : Q) :
  Forall (fun e => (0 <= dc_total_cost e)%Q) daily ->
  StronglySorted Qle (List.map cumulative_cost (cost_trends_from c daily)).
Proof.
  intros Hall. revert c. induction Hall as [| e daily He Hall IH]; intros c; simpl;
    constructor; [apply IH |].
  apply List.Forall_forall. intros x Hx. apply List.in_map_iff in Hx.
  destruct Hx as (p & <- & Hp). exact (cost_trends_from_ge daily _ p Hall Hp).
Qed.

(** X11. [cost_trends] keeps the daily entries in order, with their dates,
    costs and request counts; the cumulative cost of the entry at position
    [i] is the sum of the first [i+1] daily costs, rounded to six decimals
    (the running total itself is not rounded); and with non-negative daily
    costs the cumulative costs never decrease. *)
Theorem cost_trends_running_total (daily : list DailyCost) :
  List.map tp_date (cost_trends daily) = List.map dc_date daily
  /\ List.map daily_cost (cost_trends daily) = List.map dc_total_cost daily
  /\ List.map tp_request_count (cost_trends daily) = List.map dc_request_count daily
  /\ (forall i p, nth_error (cost_trends daily) i = Some p ->
        cumulative_cost p
        = py_round (sum_Q (firstn (S i) (List.map dc_total_cost daily))) 6)
  /\ (Forall (fun e => (0 <= dc_total_cost e)%Q) daily ->
      StronglySorted Qle (List.map cumulative_cost (cost_trends daily))).
Proof.
  destruct (cost_trends_from_fields 0 daily) as (H1 & H2 & H3).
  repeat split; try assumption.
  - intros i p Hp. exact (cost_trends_from_nth daily 0 i p Hp).
  - apply cost_trends_from_sorted.
Qed.

(** ** Efficiency metrics *)

Section Efficiency.
Local Open Scope Q_scope.

Lemma inject_Z_pos (z : Z) : (0 < z)%Z -> 0 < inject_Z z.
Proof. intros H. unfold Qlt. simpl. lia. Qed.

Lemma share_le (cost : Q) (a b : Z) :
  0 <= cost -> (0 < a)%Z -> (a <= b)%Z -> cost / inject_Z b <= cost / inject_Z a.
Proof.
  intros Hc Ha Hab.
  pose proof (inject_Z_pos a Ha) as Hpa.
  assert (Hpb : 0 < inject_Z b) by (apply inject_Z_pos; lia).
  apply Qle_shift_div_l; [exact Hpa |].
  assert (E : cost / inject_Z b * inject_Z a == cost * (inject_Z a / inject_Z b)).
  { field. intros H0. rewrite H0 in Hpb. now apply Qlt_irrefl in Hpb. }
  rewrite E.
  assert (Hr : inject_Z a / inject_Z b <= 1).
  { apply Qle_shift_div_r; [exact Hpb |]. rewrite Qmult_1_l. now apply inject_Z_le. }
  assert (H1 : cost * (inject_Z a / inject_Z b) <= cost * 1).
  { rewrite !(Qmult_comm cost). now apply Qmult_le_compat_r. }
  lra.
Qed.

Lemma share_nonneg (cost : Q) (a : Z) : 0 <= cost -> (0 < a)%Z -> 0 <= cost / inject_Z a.
Proof.
  intros Hc Ha. apply Qle_shift_div_l; [now apply inject_Z_pos | lra].
Qed.

(** X12. [efficiency_metrics] returns one entry per summary, in order.
    For a summary that satisfies the field constraints both costs per token
    are non-negative; they are 0, not a division error, when the summary has
    no output tokens or no tokens at all; and when it has output tokens the
    cost per total token does not exceed the cost per output token. *)
Theorem efficiency_metrics_entries (summaries : list CostSummary) :
  Forall valid_summary summaries ->
  Forall2
    (fun s e =>
       em_model e = entity s
       /\ 0 <= cost_per_output_token e /\ 0 <= cost_per_total_token e
       /\ (total_output_tokens s = 0%Z -> cost_per_output_token e == 0)
       /\ ((total_input_tokens s + total_output_tokens s)%Z = 0%Z ->
           cost_per_total_token e == 0)
       /\ ((0 < total_output_tokens s)%Z ->
           cost_per_total_token e <= cost_per_output_token e))
    summaries (efficiency_metrics summaries).
Proof.
  induction 1 as [| s summaries Hs _ IH]; simpl; constructor; [| exact IH].
  destruct Hs as (Hc & _ & Hi & Ho & _). simpl.
  split; [reflexivity |].
  destruct (0 <? total_output_tokens s)%Z eqn:Eo;
    destruct (0 <? total_input_tokens s + total_output_tokens s)%Z eqn:Et;
    try apply Z.ltb_lt in Eo; try apply Z.ltb_lt in Et;
    try apply Z.ltb_ge in Eo; try apply Z.ltb_ge in Et.
  - refine (conj _ (conj _ (conj _ (conj _ _)))).
    + apply py_round_nonneg. now apply share_nonneg.
    + apply py_round_nonneg. now apply share_nonneg.
    + intros H0. lia.
    + intros H0. lia.
    + intros _. apply py_round_mono. apply share_le; auto; lia.
  - exfalso. lia.
  - refine (conj _ (conj _ (conj _ (conj _ _)))).
    + apply py_round_nonneg. lra.
    + apply py_round_nonneg. now apply share_nonneg.
    + intros _. apply py_round_zero.
    + intros H0. lia.
    + intros H0. lia.
  - refine (conj _ (conj _ (conj _ (conj _ _)))).
    + apply py_round_nonneg. lra.
    + apply py_round_nonneg. lra.
    + intros _. apply py_round_zero.
    + intros _. apply py_round_zero.
    + intros H0. lia.
Qed.
End Efficiency.

Lemma efficiency_metrics_entries_witness :
  Forall2
    (fun s e =>
       em_model e = entity s
       /\ (0 <= cost_per_output_token e)%Q /\ (0 <= cost_per_total_token e)%Q
       /\ (total_output_tokens s = 0%Z -> (cost_per_output_token e == 0)%Q)
       /\ ((total_input_tokens s + total_output_tokens s)%Z = 0%Z ->
           (cost_per_total_token e == 0)%Q)
       /\ ((0 < total_output_tokens s)%Z ->
           (cost_per_total_token e <= cost_per_output_token e)%Q))
    (Sample.summaries 2) (efficiency_metrics (Sample.summaries 2)).
Proof.
  apply (efficiency_metrics_entries (Sample.summaries 2)).
  repeat constructor; vm_compute; congruence.
Defined.

(** ** Dictionaries *)

Lemma PyDict_get_set_eq {V : Type} (d : PyDict.t V) (k : string) (v : V) :
  PyDict.get (PyDict.set d k v) k = Some v.
Proof.
  induction d as [| [k' v'] d IH]; simpl.
  - now rewrite String.eqb_refl.
  - destruct (String.eqb k' k) eqn:E; simpl; rewrite E; [reflexivity | exact IH].
Qed.

Lemma PyDict_get_set_ne {V : Type} (d : PyDict.t V) (k k0 : string) (v : V) :
  k <> k0 -> PyDict.get (PyDict.set d k v) k0 = PyDict.get d k0.
Proof.
  intros Hne. induction d as [| [k' v'] d IH]; simpl.
  - destruct (String.eqb_spec k k0); [contradiction | reflexivity].
  - destruct (String.eqb_spec k' k) as [-> | Hk]; simpl.
    + destruct (String.eqb_spec k k0); [contradiction | reflexivity].
    + destruct (String.eqb_spec k' k0); [reflexivity | exact IH].
Qed.

Lemma PyDict_get_In {V : Type} (d : PyDict.t V) (k : string) (v : V) :
  PyDict.get d k = Some v -> In v (PyDict.values d).
Proof.
  induction d as [| [k' v'] d IH]; simpl; [discriminate |].
  destruct (String.eqb k' k); [intros [= <-]; now left | intros H; right; now apply IH].
Qed.

Lemma PyDict_set_nonempty {V : Type} (d : PyDict.t V) (k : string) (v : V) :
  PyDict.set d k v <> [].
Proof. destruct d as [| [k' v'] d]; simpl; [| destruct (String.eqb k' k)]; discriminate. Qed.

Lemma py_max_from_spec {A : Type} (key : A -> Q) (items : list A) (best : A) :
  In (py_max_from key best items) (best :: items)
  /\ forall x, In x (best :: items) -> (key x <= key (py_max_from key best items))%Q.
Proof.
  revert best. induction items as [| y items IH]; intros best; simpl.
  - split; [now left |]. intros x [<- | []]. apply Qle_refl.
  - destruct (Qle_bool (key y) (key best)) eqn:E; simpl.
    + apply Qle_bool_iff in E. destruct (IH best) as [Hin Hmax]. split.
      * destruct Hin as [H | H]; [now left | right; now right].
      * intros x [<- | [<- | Hx]].
        -- apply Hmax. now left.
        -- eapply Qle_trans; [exact E | apply Hmax; now left].
        -- apply Hmax. now right.
    + assert (Hlt : (key best <= key y)%Q).
      { apply Qlt_le_weak, Qnot_le_lt. intros H. apply Qle_bool_iff in H. congruence. }
      destruct (IH y) as [Hin Hmax]. split.
      * right. exact Hin.
      * intros x [<- | [<- | Hx]].
        -- eapply Qle_trans; [exact Hlt | apply Hmax; now left].
        -- apply Hmax. now left.
        -- apply Hmax. now right.
Qed.

(** ** The model table of the analytics *)

Lemma build_model_dict_get (raws : list RawModel) (d d' : PyDict.t ModelConfig)
    (id : string) :
  build_model_dict raws d = Ok d' ->
  (forall r, In r raws -> raw_model_id r <> id) ->
  PyDict.get d' id = PyDict.get d id.
Proof.
  revert d. induction raws as [| r raws IH]; intros d; simpl.
  - now intros [= <-].
  - destruct (ModelConfig_init r) as [m |]; simpl; [| discriminate].
    intros Hb Hne. rewrite (IH _ Hb); [| intros x Hx; apply Hne; now right].
    apply PyDict_get_set_ne. apply Hne. now left.
Qed.

Lemma build_model_dict_last (pre post : list RawModel) (r : RawModel)
    (d d' : PyDict.t ModelConfig) :
  build_model_dict (pre ++ r :: post) d = Ok d' ->
  (forall x, In x post -> raw_model_id x <> raw_model_id r) ->
  exists m, PyDict.get d' (raw_model_id r) = Some m /\ as_raw m = r.
Proof.
  revert d. induction pre as [| p pre IH]; intros d; simpl.
  - destruct (ModelConfig_init r) as [m |] eqn:Hm; simpl; [| discriminate].
    intros Hb Hne. exists m. split.
    + rewrite (build_model_dict_get _ _ _ _ Hb Hne). apply PyDict_get_set_eq.
    + now apply ModelConfig_init_inv in Hm.
  - destruct (ModelConfig_init p) as [m |]; simpl; [| discriminate].
    apply IH.
Qed.

Lemma build_model_dict_nonempty (raws : list RawModel) (d d' : PyDict.t ModelConfig) :
  build_model_dict raws d = Ok d' -> d' = [] -> raws = [] /\ d = [].
Proof.
  revert d. induction raws as [| r raws IH]; intros d; simpl.
  - intros [= <-] ->. now split.
  - destruct (ModelConfig_init r) as [m |]; simpl; [| discriminate].
    intros Hb Hd'. destruct (IH _ Hb Hd') as [_ Hset].
    now apply PyDict_set_nonempty in Hset.
Qed.

(** X13. In the model table of the analytics a model id stands for the
    last definition of the document that carries it, and an id that no
    definition carries is absent.  The most expensive model is a model of the
    table whose output price no other model of the table exceeds; there is
    none exactly when the document defines no model. *)
Theorem load_models_table (config : Config) (self : TokenAnalytics) :
  _load_models config = Ok self ->
  (forall pre r post,
     cfg_models config = (pre ++ r :: post)%list ->
     (forall x, In x post -> raw_model_id x <> raw_model_id r) ->
     exists m, PyDict.get (an_models self) (raw_model_id r) = Some m /\ as_raw m = r)
  /\ (forall id, (forall r, In r (cfg_models config) -> raw_model_id r <> id) ->
        PyDict.get (an_models self) id = None)
  /\ match _most_expensive_model self with
     | None => cfg_models config = []
     | Some m =>
         In m (PyDict.values (an_models self))
         /\ forall x, In x (PyDict.values (an_models self)) ->
              (cost_per_1k_output x <= cost_per_1k_output m)%Q
     end.
Proof.
  unfold _load_models.
  destruct (build_model_dict (cfg_models config) []) as [d |] eqn:Hb; simpl;
    [| discriminate].
  intros [= <-]. simpl. split; [| split].
  - intros pre r post Hcfg Hne. rewrite Hcfg in Hb.
    exact (build_model_dict_last _ _ _ _ _ Hb Hne).
  - intros id Hne. now rewrite (build_model_dict_get _ _ _ _ Hb Hne).
  - destruct (PyDict.values d) as [| first rest] eqn:Hv.
    + apply (build_model_dict_nonempty _ _ _ Hb).
      destruct d; [reflexivity | discriminate].
    + exact (py_max_from_spec cost_per_1k_output rest first).
Qed.

Lemma load_models_table_witness :
  exists self,
    _load_models Sample.config = Ok self
    /\ forall id, (forall r, In r (cfg_models Sample.config) -> raw_model_id r <> id) ->
         PyDict.get (an_models self) id = None.
Proof.
  eexists. split; [vm_compute; reflexivity |].
  apply (load_models_table Sample.config _ eq_refl).
Defined.

(** ** Savings *)

(** X14. With no model in the document the savings report is the fixed
    empty report, whatever the baseline id and the usage.  Otherwise the
    baseline is the model of the given id when the id is that of a configured
    model, and in every other case (no id, an empty id, an unknown id) the
    most expensive model by output price: an unknown id raises nothing. *)
Theorem savings_baseline_choice (config : Config) (self : TokenAnalytics)
    (baseline_model_id : option string) (actual_cost : Q) (summaries : list CostSummary) :
  _load_models config = Ok self ->
  let report := savings_calculator self baseline_model_id actual_cost summaries in
  (cfg_models config = [] -> report = empty_savings_report)
  /\ (forall id m, baseline_model_id = Some id -> id <> EmptyString ->
        PyDict.get (an_models self) id = Some m ->
        baseline_model report = name m
        /\ sr_baseline_cost report = py_round (baseline_cost_of m summaries) 6)
  /\ (forall m, _most_expensive_model self = Some m ->
        (baseline_model_id = None \/ baseline_model_id = Some EmptyString
         \/ exists id, baseline_model_id = Some id /\ PyDict.get (an_models self) id = None) ->
        baseline_model report = name m
        /\ sr_baseline_cost report = py_round (baseline_cost_of m summaries) 6).
Proof.
  intros Hload report. split; [| split].
  - intros Hnil. unfold _load_models in Hload. rewrite Hnil in Hload. simpl in Hload.
    injection Hload as <-. subst report. unfold savings_calculator. simpl.
    destruct baseline_model_id as [id |]; [| reflexivity].
    unfold PyDict.mem. simpl. now rewrite andb_false_r.
  - intros id m -> Hne Hget. subst report. unfold savings_calculator, PyDict.mem.
    rewrite Hget. destruct id; [contradiction |]. simpl. now split.
  - intros m Hm Hcase. subst report. unfold savings_calculator, PyDict.mem.
    destruct Hcase as [-> | [-> | (id & -> & Hget)]].
    + rewrite Hm. now split.
    + simpl. rewrite Hm. now split.
    + rewrite Hget, andb_false_r, Hm. now split.
Qed.

Lemma savings_baseline_choice_witness :
  exists self,
    _load_models Sample.config = Ok self
    /\ baseline_model (savings_calculator self (Some "no-such-model") (1 # 100)
                         (Sample.summaries 3)) = "Alpha".
Proof.
  eexists. split; [vm_compute; reflexivity |].
  eapply (proj2 (proj2 (savings_baseline_choice Sample.config _ (Some "no-such-model")
                          (1 # 100) (Sample.summaries 3) eq_refl)) Sample.alpha).
  - reflexivity.
  - right. right. exists "no-such-model". split; reflexivity.
Defined.

Section Savings.
Local Open Scope Q_scope.

Lemma py_round_gap (x : Q) :
  - (1 # 2000000) <= py_round x 6 - x /\ py_round x 6 - x <= 1 # 2000000.
Proof.
  pose proof (py_round_near x 6) as H.
  change (1 # 2 * py_scale 6) with (1 # 2000000) in H.
  now apply Qabs_Qle_condition in H.
Qed.

End Savings.

(** ** The usage table *)

Section Spend.
Local Open Scope Q_scope.

Lemma rounded_cost_sum_eq (l : list UsageRecord) :
  rounded_cost_sum l == py_round (sum_Q (List.map ur_cost l)) 6.
Proof.
  destruct l; [| reflexivity]. simpl. symmetry. apply py_round_zero.
Qed.

Lemma sum_Q_map_nonneg {A : Type} (f : A -> Q) (l : list A) :
  (forall x, In x l -> 0 <= f x) -> 0 <= sum_Q (List.map f l).
Proof.
  induction l as [| x l IH]; intros H; [discriminate |].
  cbn [List.map]. rewrite sum_Q_cons.
  assert (0 <= f x) by (apply H; now left).
  assert (0 <= sum_Q (List.map f l)) by (apply IH; intros y Hy; apply H; now right).
  lra.
Qed.

Lemma sum_Q_filter_le {A : Type} (f : A -> Q) (p q : A -> bool) (l : list A) :
  (forall x, In x l -> 0 <= f x) ->
  (forall x, p x = true -> q x = true) ->
  sum_Q (List.map f (List.filter p l)) <= sum_Q (List.map f (List.filter q l)).
Proof.
  intros Hpos Hpq. induction l as [| x l IH]; [apply Qle_refl |].
  assert (IH' : sum_Q (List.map f (List.filter p l))
                <= sum_Q (List.map f (List.filter q l)))
    by (apply IH; intros y Hy; apply Hpos; now right).
  assert (Hx : 0 <= f x) by (apply Hpos; now left).
  cbn [List.filter]. destruct (p x) eqn:Ep.
  - rewrite (Hpq x Ep). cbn [List.map]. rewrite !sum_Q_cons. lra.
  - destruct (q x); [| exact IH']. cbn [List.map]. rewrite sum_Q_cons. lra.
Qed.

Lemma py_round_proper (x y : Q) (n : nat) : x == y -> py_round x n == py_round y n.
Proof.
  intros H. apply Qle_antisym; apply py_round_mono; rewrite H; apply Qle_refl.
Qed.

Lemma rounded_cost_sum_filter_le (p q : UsageRecord -> bool) (l : list UsageRecord) :
  Forall valid_record l ->
  (forall x, p x = true -> q x = true) ->
  rounded_cost_sum (List.filter p l) <= rounded_cost_sum (List.filter q l).
Proof.
  intros Hv Hpq. rewrite !rounded_cost_sum_eq. apply py_round_mono.
  apply sum_Q_filter_le; [| exact Hpq].
  intros x Hx. rewrite List.Forall_forall in Hv. now destruct (Hv x Hx) as (_ & _ & H & _).
Qed.

(** X17. The spend of a department is untouched by a record logged for
    another department or with a timestamp outside the queried dates, and it
    is 0 for a department without records.  The same holds of the total cost
    for a record outside the dates. *)
Theorem department_spend_isolated (self : CostTracker) (record : UsageRecord)
    (department : string) (start_date end_date : option string) :
  (ur_department record <> department \/ in_range start_date end_date record = false ->
   get_department_spend (fst (log_usage self record)) department start_date end_date
   = get_department_spend self department start_date end_date)
  /\ (in_range start_date end_date record = false ->
      tracker_total_cost (fst (log_usage self record)) start_date end_date
      = tracker_total_cost self start_date end_date)
  /\ ((forall r, In r self -> ur_department r <> department) ->
      get_department_spend self department start_date end_date = 0).
Proof.
  unfold get_department_spend, tracker_total_cost, log_usage. cbn [fst].
  rewrite !List.filter_app. cbn [List.filter]. split; [| split].
  - intros [Hd | Hr].
    + destruct (String.eqb_spec (ur_department record) department); [contradiction |].
      cbn [andb]. now rewrite app_nil_r.
    + rewrite Hr, andb_false_r. now rewrite app_nil_r.
  - intros Hr. rewrite Hr. now rewrite app_nil_r.
  - intros Hnone.
    assert (E : List.filter
                  (fun r => (ur_department r =? department)%string
                            && in_range start_date end_date r) self = []).
    { induction self as [| r self IH]; [reflexivity |]. cbn [List.filter].
      destruct (String.eqb_spec (ur_department r) department) as [He | _].
      - exfalso. apply (Hnone r); [now left | exact He].
      - cbn [andb]. apply IH. intros x Hx. apply Hnone. now right. }
    now rewrite E.
Qed.

Lemma department_spend_nonneg (self : CostTracker) (department : string)
    (start_date end_date : option string) :
  Forall valid_record self ->
  0 <= get_department_spend self department start_date end_date.
Proof.
  intros Hv. unfold get_department_spend.
  rewrite rounded_cost_sum_eq. apply py_round_nonneg. apply sum_Q_map_nonneg.
  intros x Hx. apply List.filter_In in Hx. destruct Hx as [Hx _].
  rewrite List.Forall_forall in Hv. now destruct (Hv x Hx) as (_ & _ & H & _).
Qed.

(** X18. With records that satisfy the field constraints, the spend of a
    department over some dates is non-negative and never exceeds the total
    cost over the same dates, which never exceeds the total cost over all
    dates. *)
Theorem spend_within_total (self : CostTracker) (department : string)
    (start_date end_date : option string) :
  Forall valid_record self ->
  0 <= get_department_spend self department start_date end_date
  /\ get_department_spend self department start_date end_date
     <= tracker_total_cost self start_date end_date
  /\ tracker_total_cost self start_date end_date <= tracker_total_cost self None None.
Proof.
  intros Hv. split; [now apply department_spend_nonneg |].
  unfold get_department_spend, tracker_total_cost. split.
  - apply rounded_cost_sum_filter_le; [exact Hv |].
    intros x Hx. apply andb_true_iff in Hx. tauto.
  - apply rounded_cost_sum_filter_le; [exact Hv |]. intros x _. reflexivity.
Qed.

(** X19. The average cost per request agrees with the total cost divided
    by the record count up to one millionth; on an empty table the average,
    the total and the count are all 0. *)
Theorem average_matches_total (self : CostTracker) :
  (self = [] ->
   tracker_avg_cost_per_request self = 0 /\ tracker_total_cost self None None = 0
   /\ get_record_count self = 0%Z)
  /\ (self <> [] ->
      Qabs (tracker_avg_cost_per_request self
            - tracker_total_cost self None None / inject_Z (get_record_count self))
      <= 1 # 1000000).
Proof.
  split; [now intros -> |].
  intros Hne. unfold tracker_total_cost, get_record_count.
  assert (Hf : List.filter (in_range None None) self = self).
  { clear Hne. induction self as [| r self IH]; [reflexivity |].
    cbn [List.filter in_range andb]. now rewrite IH. }
  rewrite Hf. destruct self as [| r self]; [contradiction |].
  unfold tracker_avg_cost_per_request, rounded_cost_sum.
  set (S := sum_Q (List.map ur_cost (r :: self))).
  set (n := inject_Z (Z.of_nat (List.length (r :: self)))).
  assert (Hn : 1 <= n).
  { unfold n. cbn [List.length]. rewrite Nat2Z.inj_succ. unfold Qle. simpl. lia. }
  destruct (py_round_gap (S / n)) as [A1 A2].
  destruct (py_round_gap S) as [T1 T2].
  assert (Hi : 0 < / n) by (apply Qinv_lt_0_compat; lra).
  assert (Hi1 : / n <= 1).
  { assert (E : / n == 1 / n) by (field; lra). rewrite E.
    apply Qle_shift_div_r; lra. }
  assert (E : py_round S 6 / n - S / n == (py_round S 6 - S) * / n) by (field; lra).
  set (g := py_round S 6 - S) in *.
  assert (G1 : - (1 # 2000000) <= g * / n).
  { assert (H0 : (- (1 # 2000000)) * / n <= g * / n)
      by (apply Qmult_le_compat_r; lra).
    assert (H1 : (- (1 # 2000000)) * 1 <= (- (1 # 2000000)) * / n).
    { assert (H2 : (1 # 2000000) * / n <= (1 # 2000000) * 1).
      { rewrite !(Qmult_comm (1 # 2000000)). apply Qmult_le_compat_r; lra. }
      lra. }
    lra. }
  assert (G2 : g * / n <= 1 # 2000000).
  { assert (H0 : g * / n <= (1 # 2000000) * / n)
      by (apply Qmult_le_compat_r; lra).
    assert (H2 : (1 # 2000000) * / n <= (1 # 2000000) * 1).
    { rewrite !(Qmult_comm (1 # 2000000)). apply Qmult_le_compat_r; lra. }
    lra. }
  apply Qabs_Qle_condition. split; lra.
Qed.
End Spend.

(** ** Budgets *)

Lemma PyDict_get_None_keys {V : Type} (d : PyDict.t V) (k : string) :
  PyDict.get d k = None <-> ~ In k (PyDict.keys d).
Proof.
  induction d as [| [k' v'] d IH]; simpl; [tauto |].
  destruct (String.eqb_spec k' k) as [-> | Hne].
  - split; [discriminate | intros H; exfalso; apply H; now left].
  - rewrite IH. tauto.
Qed.

Lemma PyDict_keys_set {V : Type} (d : PyDict.t V) (k : string) (v : V) :
  PyDict.keys (PyDict.set d k v)
  = if PyDict.mem d k then PyDict.keys d else (PyDict.keys d ++ [k])%list.
Proof.
  unfold PyDict.mem. induction d as [| [k' v'] d IH]; simpl; [reflexivity |].
  destruct (String.eqb_spec k' k) as [-> | Hne]; simpl; [reflexivity |].
  rewrite IH. now destruct (PyDict.get d k).
Qed.

Lemma PyDict_set_keys_In {V : Type} (d : PyDict.t V) (k x : string) (v : V) :
  In x (PyDict.keys (PyDict.set d k v)) -> x = k \/ In x (PyDict.keys d).
Proof.
  induction d as [| [k' v'] d IH]; simpl; [intuition auto |].
  destruct (String.eqb k' k); simpl; [tauto |].
  intros [H | H]; [tauto | destruct (IH H); tauto].
Qed.

Lemma PyDict_set_NoDup {V : Type} (d : PyDict.t V) (k : string) (v : V) :
  List.NoDup (PyDict.keys d) -> List.NoDup (PyDict.keys (PyDict.set d k v)).
Proof.
  induction d as [| [k' v'] d IH]; simpl.
  - intros _. constructor; [intros [] | constructor].
  - intros Hnd. apply List.NoDup_cons_iff in Hnd. destruct Hnd as [Hk Hnd].
    destruct (String.eqb_spec k' k) as [-> | Hne]; simpl.
    + now apply List.NoDup_cons.
    + apply List.NoDup_cons; [| now apply IH].
      intros Hin. apply PyDict_set_keys_In in Hin. destruct Hin; [congruence | contradiction].
Qed.

Lemma PyDict_get_del_eq {V : Type} (d : PyDict.t V) (k : string) :
  List.NoDup (PyDict.keys d) -> PyDict.get (PyDict.del d k) k = None.
Proof.
  induction d as [| [k' v'] d IH]; simpl; [reflexivity |].
  intros Hnd. apply List.NoDup_cons_iff in Hnd. destruct Hnd as [Hk Hnd].
  destruct (String.eqb_spec k' k) as [-> | Hne].
  - now apply PyDict_get_None_keys.
  - simpl. destruct (String.eqb_spec k' k); [contradiction | now apply IH].
Qed.

Lemma PyDict_get_del_ne {V : Type} (d : PyDict.t V) (k k0 : string) :
  k <> k0 -> PyDict.get (PyDict.del d k) k0 = PyDict.get d k0.
Proof.
  intros Hne. induction d as [| [k' v'] d IH]; simpl; [reflexivity |].
  destruct (String.eqb_spec k' k) as [-> | Hk]; simpl.
  - destruct (String.eqb_spec k k0); [contradiction | reflexivity].
  - destruct (String.eqb_spec k' k0); [reflexivity | exact IH].
Qed.

Lemma PyDict_del_keys_incl {V : Type} (d : PyDict.t V) (k x : string) :
  In x (PyDict.keys (PyDict.del d k)) -> In x (PyDict.keys d).
Proof.
  induction d as [| [k' v'] d IH]; simpl; [tauto |].
  destruct (String.eqb k' k); simpl; [now right | intros [H | H]; [now left | right; now apply IH]].
Qed.

Lemma PyDict_del_NoDup {V : Type} (d : PyDict.t V) (k : string) :
  List.NoDup (PyDict.keys d) -> List.NoDup (PyDict.keys (PyDict.del d k)).
Proof.
  induction d as [| [k' v'] d IH]; simpl; [trivial |].
  intros Hnd. apply List.NoDup_cons_iff in Hnd. destruct Hnd as [Hk Hnd].
  destruct (String.eqb k' k); [exact Hnd |]. simpl.
  apply List.NoDup_cons; [| now apply IH].
  intros Hin. apply Hk. now apply PyDict_del_keys_incl in Hin.
Qed.

Lemma in_0_100_iff (x : Q) : in_0_100 x = true <-> (0 <= x)%Q /\ (x <= 100)%Q.
Proof. unfold in_0_100. now rewrite andb_true_iff, !Qle_bool_iff. Qed.

Lemma BudgetConfig_init_outcome (id : string) (limit : Q) (p : BudgetPeriod.t) (w c : Q) :
  match BudgetConfig_init id limit p w c with
  | BOk config =>
      valid_budget config
      /\ config = {| entity_id := id; budget_limit := limit; period := p;
                     warning_threshold_pct := w; critical_threshold_pct := c |}
  | BErr e =>
      ~ ((0 <= limit)%Q /\ ((0 <= w)%Q /\ (w <= 100)%Q) /\ ((0 <= c)%Q /\ (c <= 100)%Q))
      /\ exists field, e = BudgetValidationError field
  end.
Proof.
  unfold BudgetConfig_init.
  destruct (Qle_bool 0 limit) eqn:Hl; simpl.
  - destruct (in_0_100 w) eqn:Hw; simpl.
    + destruct (in_0_100 c) eqn:Hc; simpl.
      * apply Qle_bool_iff in Hl. apply in_0_100_iff in Hw, Hc.
        split; [| reflexivity]. unfold valid_budget. simpl. tauto.
      * split; [| eauto]. intros (_ & _ & H). apply in_0_100_iff in H. congruence.
    + split; [| eauto]. intros (_ & H & _). apply in_0_100_iff in H. congruence.
  - split; [| eauto]. intros (H & _). apply Qle_bool_iff in H. congruence.
Qed.

(** X20. [set_budget] rejects a negative limit and a threshold outside
    0..100 with a validation error and stores nothing.  Otherwise the budget
    it returns is the one [get_budget] then returns for the entity, the
    budgets of all other entities are as before, and the entity is listed
    once: a second [set_budget] for an entity replaces its budget in place. *)
Theorem set_budget_then_get (self : BudgetManager) (id : string) (limit : Q)
    (p : BudgetPeriod.t) (w c : Q) :
  List.NoDup (PyDict.keys (get_all_budgets self)) ->
  match set_budget self id limit p w c with
  | BOk (self', config) =>
      valid_budget config
      /\ config = {| entity_id := id; budget_limit := limit; period := p;
                     warning_threshold_pct := w; critical_threshold_pct := c |}
      /\ get_budget self' id = Some config
      /\ (forall other, other <> id -> get_budget self' other = get_budget self other)
      /\ List.NoDup (PyDict.keys (get_all_budgets self'))
      /\ PyDict.keys (get_all_budgets self')
         = match get_budget self id with
           | Some _ => PyDict.keys (get_all_budgets self)
           | None => (PyDict.keys (get_all_budgets self) ++ [id])%list
           end
  | BErr e =>
      ~ ((0 <= limit)%Q /\ ((0 <= w)%Q /\ (w <= 100)%Q) /\ ((0 <= c)%Q /\ (c <= 100)%Q))
      /\ exists field, e = BudgetValidationError field
  end.
Proof.
  intros Hnd. unfold set_budget.
  pose proof (BudgetConfig_init_outcome id limit p w c) as Hinit.
  destruct (BudgetConfig_init id limit p w c) as [config | e]; [| exact Hinit].
  destruct Hinit as [Hv Hc]. unfold get_budget, get_all_budgets in *. simpl.
  split; [exact Hv |]. split; [exact Hc |]. split; [apply PyDict_get_set_eq |].
  split; [intros other Hne; apply PyDict_get_set_ne; congruence |].
  split; [now apply PyDict_set_NoDup |].
  rewrite PyDict_keys_set. unfold PyDict.mem.
  now destruct (PyDict.get (_budgets self) id).
Qed.

Lemma set_budget_then_get_witness :
  match set_budget BudgetManager_init "engineering" 50 BudgetPeriod.MONTHLY 80 90 with
  | BOk (self', config) => get_budget self' "engineering" = Some config
  | BErr _ => False
  end.
Proof.
  pose proof (set_budget_then_get BudgetManager_init "engineering" 50
                BudgetPeriod.MONTHLY 80 90) as H.
  destruct (set_budget BudgetManager_init "engineering" 50 BudgetPeriod.MONTHLY 80 90)
    as [[self' config] | e] eqn:E.
  - apply H. constructor.
  - vm_compute in E. discriminate E.
Defined.

(** X21. [remove_budget] answers whether the entity had a budget; after it
    the entity has none, the budgets of the other entities are as before, and
    removing where there is nothing leaves the manager as it was. *)
Theorem remove_budget_then_get (self : BudgetManager) (id : string) :
  List.NoDup (PyDict.keys (get_all_budgets self)) ->
  let (self', removed) := remove_budget self id in
  (removed = true <-> is_Some (get_budget self id))
  /\ get_budget self' id = None
  /\ (forall other, other <> id -> get_budget self' other = get_budget self other)
  /\ List.NoDup (PyDict.keys (get_all_budgets self'))
  /\ (removed = false -> self' = self).
Proof.
  intros Hnd. unfold remove_budget, PyDict.mem, get_budget, get_all_budgets in *.
  destruct (PyDict.get (_budgets self) id) as [config |] eqn:Hg; simpl.
  - split; [split; [intros _; now exists config | reflexivity] |].
    split; [now apply PyDict_get_del_eq |].
    split; [intros other Hne; apply PyDict_get_del_ne; congruence |].
    split; [now apply PyDict_del_NoDup | discriminate].
  - split; [split; [discriminate | intros [x Hx]; discriminate] |].
    split; [exact Hg |]. split; [reflexivity |]. split; [exact Hnd | reflexivity].
Qed.

Lemma remove_budget_then_get_witness :
  let (self', removed) := remove_budget Sample2.two_budgets "engineering" in
  removed = true
  /\ get_budget self' "engineering" = None
  /\ get_budget self' "marketing" = Some Sample2.marketing_budget
  /\ PyDict.keys (get_all_budgets self') = ["marketing"].
Proof.
  pose proof (remove_budget_then_get Sample2.two_budgets "engineering") as H.
  destruct (remove_budget Sample2.two_budgets "engineering") as [self' removed] eqn:Hr.
  destruct H as (H1 & H2 & H3 & _ & _).
  - repeat constructor; simpl; intuition discriminate.
  - split; [apply H1; now exists Sample2.engineering_budget |].
    split; [exact H2 |].
    split; [rewrite H3; [reflexivity | discriminate] |].
    vm_compute in Hr. now inversion Hr.
Defined.

Section BudgetStatus.
Local Open Scope Q_scope.

Lemma usage_reaches_100 (spend limit : Q) :
  0 < limit -> (100 <= spend / limit * 100 <-> limit <= spend).
Proof.
  intros Hl.
  assert (E : spend / limit * 100 == spend * 100 / limit) by (field; lra).
  rewrite E. split; intros H.
  - assert (H1 : spend * 100 / limit * limit == spend * 100) by (field; lra).
    assert (H2 : 100 * limit <= spend * 100 / limit * limit)
      by (apply Qmult_le_compat_r; lra).
    lra.
  - apply Qle_shift_div_l; lra.
Qed.

Lemma budget_usage_exceeded (config : BudgetConfig) (spend : Q) :
  Qle_bool 100 (budget_usage_pct config spend) = true
  <-> 0 < budget_limit config /\ budget_limit config <= spend.
Proof.
  unfold budget_usage_pct. rewrite Qle_bool_iff.
  destruct (Qle_bool (budget_limit config) 0) eqn:El; simpl.
  - apply Qle_bool_iff in El. split; [intros H; exfalso; lra | intros [H _]; lra].
  - assert (Hl : 0 < budget_limit config).
    { apply Qnot_le_lt. intros H. apply Qle_bool_iff in H. congruence. }
    rewrite (usage_reaches_100 _ _ Hl). tauto.
Qed.

(** X22. [check_budget] raises for an entity without a budget and for no
    other reason.  For an entity with a budget the status is one of the four
    words; it is "exceeded" exactly when the limit is positive and the spend
    of the period has reached it, so a budget with limit 0 has usage 0 and is
    never exceeded, whatever was spent; and the remaining amount is never
    negative, and 0 once the spend has reached the limit. *)
Theorem check_budget_status (self : BudgetManager) (tracker : CostTracker)
    (period_start : BudgetPeriod.t -> string) (id : string) :
  match check_budget self tracker period_start id with
  | BErr e => get_budget self id = None /\ e = NoBudgetConfigured id
  | BOk st =>
      exists config,
        get_budget self id = Some config
        /\ let spend := get_department_spend tracker id
                          (Some (period_start (period config))) None in
           status_entity_id st = id
           /\ status_budget_limit st = budget_limit config
           /\ status_current_spend st = py_round spend 6
           /\ (status st = "exceeded"
               <-> 0 < budget_limit config /\ budget_limit config <= spend)
           /\ (status st = "exceeded" \/ status st = "critical"
               \/ status st = "warning" \/ status st = "ok")
           /\ (budget_limit config <= 0 -> usage_pct st == 0 /\ status st <> "exceeded")
           /\ 0 <= remaining st
           /\ (budget_limit config <= spend -> remaining st == 0)
  end.
Proof.
  unfold check_budget, get_budget.
  destruct (PyDict.get (_budgets self) id) as [config |]; [| now split].
  exists config. split; [reflexivity |]. cbv zeta.
  set (spend := get_department_spend tracker id (Some (period_start (period config))) None).
  cbn -[py_round].
  pose proof (budget_usage_exceeded config spend) as Hex.
  split; [reflexivity |]. split; [reflexivity |]. split; [reflexivity |].
  split; [| split; [| split; [| split]]].
  - destruct (Qle_bool 100 (budget_usage_pct config spend)).
    + split; [intros _; now apply Hex | reflexivity].
    + split; [| intros H; apply Hex in H; discriminate].
      destruct (Qle_bool (critical_threshold_pct config) _);
        [| destruct (Qle_bool (warning_threshold_pct config) _)]; discriminate.
  - destruct (Qle_bool 100 _); [now left |].
    destruct (Qle_bool (critical_threshold_pct config) _); [right; now left |].
    destruct (Qle_bool (warning_threshold_pct config) _); [right; right; now left |].
    now repeat right.
  - intros Hl. unfold budget_usage_pct in *.
    apply Qle_bool_iff in Hl. rewrite Hl in *. cbn [negb] in *. split.
    + apply py_round_zero.
    + change (Qle_bool 100 0) with false. cbv iota.
      destruct (Qle_bool (critical_threshold_pct config) 0);
        [| destruct (Qle_bool (warning_threshold_pct config) 0)]; discriminate.
  - apply py_round_nonneg.
    destruct (Qle_bool (budget_limit config - spend) 0) eqn:E; simpl; [lra |].
    apply Qlt_le_weak, Qnot_le_lt. intros H. apply Qle_bool_iff in H. congruence.
  - intros Hs.
    assert (E : Qle_bool (budget_limit config - spend) 0 = true)
      by (apply Qle_bool_iff; lra).
    rewrite E. simpl. apply py_round_zero.
Qed.

Lemma BudgetAlert_init_ok (id : string) (limit spend threshold : Q) (ty : AlertType.t) :
  0 <= limit -> 0 <= spend -> 0 <= threshold -> threshold <= 100 ->
  BudgetAlert_init id limit spend threshold ty
  = BOk {| alert_department := id; alert_budget_limit := limit;
           alert_current_spend := spend; threshold_pct := threshold;
           alert_type := ty |}.
Proof.
  intros Hl Hs H0 H1. unfold BudgetAlert_init.
  apply Qle_bool_iff in Hl, Hs. rewrite Hl, Hs. simpl.
  assert (Ht : in_0_100 threshold = true) by (apply in_0_100_iff; now split).
  now rewrite Ht.
Qed.

(** X23. For a named entity the alerts agree with the status: with a
    budget that satisfies the field constraints and records that satisfy
    theirs, [generate_alerts] returns one critical alert when the status of
    [check_budget] is "critical" or "exceeded", one warning alert when it is
    "warning", and none when it is "ok".  For an entity without a budget it
    returns no alert, where [check_budget] raises. *)
Theorem alerts_match_status (self : BudgetManager) (tracker : CostTracker)
    (period_start : BudgetPeriod.t -> string) (id : string) :
  id <> EmptyString ->
  Forall valid_record tracker ->
  match get_budget self id with
  | None =>
      generate_alerts self tracker period_start (Some id) = BOk []
      /\ check_budget self tracker period_start id = BErr (NoBudgetConfigured id)
  | Some config =>
      valid_budget config ->
      exists st alerts,
        check_budget self tracker period_start id = BOk st
        /\ generate_alerts self tracker period_start (Some id) = BOk alerts
        /\ (status st = "exceeded" \/ status st = "critical" ->
            exists a, alerts = [a] /\ alert_type a = AlertType.CRITICAL
                      /\ alert_department a = id
                      /\ threshold_pct a = critical_threshold_pct config
                      /\ alert_current_spend a = status_current_spend st)
        /\ (status st = "warning" ->
            exists a, alerts = [a] /\ alert_type a = AlertType.WARNING
                      /\ alert_department a = id
                      /\ threshold_pct a = warning_threshold_pct config
                      /\ alert_current_spend a = status_current_spend st)
        /\ (status st = "ok" -> alerts = [])
  end.
Proof.
  intros Hid Hrec. unfold generate_alerts, check_budget, get_budget.
  destruct id as [| ch id']; [contradiction |]. cbn [is_empty alerts_for].
  set (id := String ch id') in *.
  destruct (PyDict.get (_budgets self) id) as [config |]; [| now split].
  intros (Hl & Hw0 & Hw1 & Hc0 & Hc1).
  set (spend := get_department_spend tracker id (Some (period_start (period config))) None).
  assert (Hs : 0 <= py_round spend 6).
  { apply py_round_nonneg. now apply department_spend_nonneg. }
  set (u := budget_usage_pct config spend).
  destruct (Qle_bool 100 u) eqn:E100.
  - assert (Ec : Qle_bool (critical_threshold_pct config) u = true).
    { apply Qle_bool_iff. apply Qle_bool_iff in E100. lra. }
    rewrite Ec, (BudgetAlert_init_ok _ _ _ _ _ Hl Hs Hc0 Hc1). cbn [app].
    eexists. eexists. split; [reflexivity |]. split; [reflexivity |]. cbn.
    split; [intros _; eexists; now repeat split |].
    split; discriminate.
  - destruct (Qle_bool (critical_threshold_pct config) u) eqn:Ec.
    + rewrite (BudgetAlert_init_ok _ _ _ _ _ Hl Hs Hc0 Hc1). cbn [app].
      eexists. eexists. split; [reflexivity |]. split; [reflexivity |]. cbn.
      split; [intros _; eexists; now repeat split |].
      split; discriminate.
    + destruct (Qle_bool (warning_threshold_pct config) u) eqn:Ew.
      * rewrite (BudgetAlert_init_ok _ _ _ _ _ Hl Hs Hw0 Hw1). cbn [app].
        eexists. eexists. split; [reflexivity |]. split; [reflexivity |]. cbn.
        split; [intros [H | H]; discriminate H |].
        split; [intros _; eexists; now repeat split | discriminate].
      * eexists. eexists. split; [reflexivity |]. split; [reflexivity |]. cbn.
        split; [intros [H | H]; discriminate H |].
        split; [discriminate | reflexivity].
Qed.
End BudgetStatus.

Lemma sample_tracker_valid : Forall valid_record Sample2.tracker.
Proof. repeat constructor; vm_compute; congruence. Qed.

Section BudgetLists.
Local Open Scope Q_scope.

Lemma check_each_keys (self : BudgetManager) (tracker : CostTracker)
    (period_start : BudgetPeriod.t -> string) (entities : list string) :
  (forall k, In k entities -> In k (PyDict.keys (_budgets self))) ->
  exists sts, check_each self tracker period_start entities = BOk sts
              /\ List.map status_entity_id sts = entities.
Proof.
  induction entities as [| k entities IH]; intros Hin; simpl.
  - now exists [].
  - unfold check_budget at 1.
    destruct (PyDict.get (_budgets self) k) as [config |] eqn:Hget.
    + destruct IH as (sts & -> & Hsts); [intros x Hx; apply Hin; now right |].
      eexists. split; [reflexivity |]. simpl. now rewrite Hsts.
    + exfalso. apply PyDict_get_None_keys in Hget. apply Hget, Hin. now left.
Qed.

Lemma status_not_ok_step (self : BudgetManager) (tracker : CostTracker)
    (period_start : BudgetPeriod.t -> string) (k : string) (config : BudgetConfig) :
  PyDict.get (_budgets self) k = Some config ->
  critical_threshold_pct config <= 100 ->
  let u := budget_usage_pct config
             (get_department_spend tracker k (Some (period_start (period config))) None) in
  status_not_ok self tracker period_start k
  = Qle_bool (critical_threshold_pct config) u || Qle_bool (warning_threshold_pct config) u.
Proof.
  intros Hg Hc u. unfold status_not_ok, check_budget. rewrite Hg. cbn -[py_round].
  fold u.
  destruct (Qle_bool 100 u) eqn:E100.
  - assert (Ec : Qle_bool (critical_threshold_pct config) u = true).
    { apply Qle_bool_iff. apply Qle_bool_iff in E100. lra. }
    now rewrite Ec.
  - destruct (Qle_bool (critical_threshold_pct config) u); [reflexivity |].
    now destruct (Qle_bool (warning_threshold_pct config) u).
Qed.

Lemma alerts_for_departments (self : BudgetManager) (tracker : CostTracker)
    (period_start : BudgetPeriod.t -> string) (entities : list string)
    (acc : list BudgetAlert) :
  Forall valid_record tracker ->
  Forall valid_budget (PyDict.values (_budgets self)) ->
  exists alerts,
    alerts_for self tracker period_start entities acc = BOk (acc ++ alerts)%list
    /\ List.map alert_department alerts
       = List.filter (status_not_ok self tracker period_start) entities.
Proof.
  intros Hrec Hval. revert acc.
  induction entities as [| k entities IH]; intros acc; cbn [alerts_for List.filter].
  - exists []. now rewrite app_nil_r.
  - destruct (PyDict.get (_budgets self) k) as [config |] eqn:Hg.
    + assert (Hv : valid_budget config).
      { rewrite List.Forall_forall in Hval. apply Hval. now apply (PyDict_get_In _ k). }
      destruct Hv as (Hl & Hw0 & Hw1 & Hc0 & Hc1).
      rewrite (status_not_ok_step _ _ _ _ _ Hg Hc1).
      set (spend := get_department_spend tracker k
                      (Some (period_start (period config))) None).
      assert (Hs : 0 <= py_round spend 6)
        by (apply py_round_nonneg; now apply department_spend_nonneg).
      destruct (Qle_bool (critical_threshold_pct config) (budget_usage_pct config spend)).
      * rewrite (BudgetAlert_init_ok _ _ _ _ _ Hl Hs Hc0 Hc1).
        destruct (IH (acc ++ [{| alert_department := k;
                                 alert_budget_limit := budget_limit config;
                                 alert_current_spend := py_round spend 6;
                                 threshold_pct := critical_threshold_pct config;
                                 alert_type := AlertType.CRITICAL |}])%list)
          as (alerts & -> & Hd).
        eexists (_ :: alerts). rewrite <- app_assoc. split; [reflexivity |].
        cbn. now rewrite Hd.
      * destruct (Qle_bool (warning_threshold_pct config) (budget_usage_pct config spend)).
        -- rewrite (BudgetAlert_init_ok _ _ _ _ _ Hl Hs Hw0 Hw1).
           destruct (IH (acc ++ [{| alert_department := k;
                                    alert_budget_limit := budget_limit config;
                                    alert_current_spend := py_round spend 6;
                                    threshold_pct := warning_threshold_pct config;
                                    alert_type := AlertType.WARNING |}])%list)
             as (alerts & -> & Hd).
           eexists (_ :: alerts). rewrite <- app_assoc. split; [reflexivity |].
           cbn. now rewrite Hd.
        -- cbn [orb]. apply IH.
    + assert (Hno : status_not_ok self tracker period_start k = false).
      { unfold status_not_ok, check_budget. now rewrite Hg. }
      rewrite Hno. apply IH.
Qed.

(** X24. [check_all_budgets] never raises: it returns one status per
    budget, in the order in which the entities were first given a budget. *)
Theorem check_all_budgets_total (self : BudgetManager) (tracker : CostTracker)
    (period_start : BudgetPeriod.t -> string) :
  exists sts,
    check_all_budgets self tracker period_start = BOk sts
    /\ List.map status_entity_id sts = PyDict.keys (get_all_budgets self).
Proof.
  unfold check_all_budgets, get_all_budgets. apply check_each_keys. now intros k Hk.
Qed.

(** X25. Without an entity, or with an empty one, [generate_alerts] goes
    through all budgets: with budgets and records that satisfy their field
    constraints it raises nothing and returns at most one alert per entity,
    for exactly the entities whose status is not "ok", in the order of the
    budgets. *)
Theorem generate_alerts_all (self : BudgetManager) (tracker : CostTracker)
    (period_start : BudgetPeriod.t -> string) (entity_id : option string) :
  Forall valid_record tracker ->
  Forall valid_budget (PyDict.values (get_all_budgets self)) ->
  entity_id = None \/ entity_id = Some EmptyString ->
  exists alerts,
    generate_alerts self tracker period_start entity_id = BOk alerts
    /\ List.map alert_department alerts
       = List.filter (status_not_ok self tracker period_start)
           (PyDict.keys (get_all_budgets self)).
Proof.
  intros Hrec Hval Hid. unfold generate_alerts, get_all_budgets in *.
  destruct (alerts_for_departments self tracker period_start
              (PyDict.keys (_budgets self)) [] Hrec Hval) as (alerts & Ha & Hd).
  exists alerts. destruct Hid as [-> | ->]; cbn [is_empty]; now rewrite Ha.
Qed.

Lemma generate_alerts_all_witness :
  exists alerts,
    generate_alerts Sample2.manager Sample2.tracker Sample2.period_start None = BOk alerts
    /\ List.map alert_department alerts = ["engineering"].
Proof.
  destruct (generate_alerts_all Sample2.manager Sample2.tracker Sample2.period_start None)
    as (alerts & Ha & Hd).
  - exact sample_tracker_valid.
  - repeat constructor; vm_compute; congruence.
  - now left.
  - exists alerts. split; [exact Ha |]. rewrite Hd. vm_compute. reflexivity.
Defined.
End BudgetLists.

(** ** Forecasts *)

Section Forecasts.
Local Open Scope Q_scope.

Lemma rate_nonneg (spend : Q) (days : Z) : 0 <= spend -> 0 <= spend / inject_Z (Z.max days 1).
Proof. intros H. apply share_nonneg; [exact H | lia]. Qed.

(** X26. [forecast_spend] raises for no entity.  With records that satisfy
    their field constraints the daily rate is not negative; the projected
    spend is at least the current spend when [days_ahead] is not negative.
    For an entity with a budget the projection to the end of the period is at
    least the current spend, equals it once the period's days (30 or 7) have
    elapsed, and [will_exceed] is true whenever the spend is already above
    the limit.  For an entity without a budget the limit and [will_exceed]
    are [None] and the projection to the end of the period is the projected
    spend. *)
Theorem forecast_spend_properties (self : BudgetManager) (tracker : CostTracker)
    (period_start : BudgetPeriod.t -> string) (elapsed_days : BudgetPeriod.t -> Z)
    (id : string) (days_ahead : Z) :
  Forall valid_record tracker ->
  let f := forecast_spend self tracker period_start elapsed_days id days_ahead in
  0 <= daily_rate f
  /\ ((0 <= days_ahead)%Z -> fc_current_spend f <= projected_spend f)
  /\ match get_budget self id with
     | Some config =>
         let spend := get_department_spend tracker id
                        (Some (period_start (period config))) None in
         let days_in_period :=
           match period config with
           | BudgetPeriod.MONTHLY => 30%Z
           | BudgetPeriod.WEEKLY => 7%Z
           end in
         fc_budget_limit f = Some (budget_limit config)
         /\ fc_current_spend f <= projected_end_of_period f
         /\ ((days_in_period <= elapsed_days (period config))%Z ->
             projected_end_of_period f == fc_current_spend f)
         /\ (budget_limit config < spend -> will_exceed f = Some true)
     | None =>
         fc_budget_limit f = None /\ will_exceed f = None
         /\ projected_end_of_period f = projected_spend f
     end.
Proof.
  intros Hrec f. subst f. unfold forecast_spend, get_budget.
  destruct (PyDict.get (_budgets self) id) as [config |]; cbn -[py_round Z.max].
  - set (spend := get_department_spend tracker id (Some (period_start (period config))) None).
    assert (Hs : 0 <= spend) by now apply department_spend_nonneg.
    set (days := Z.max (elapsed_days (period config)) 1).
    pose proof (rate_nonneg spend (elapsed_days (period config)) Hs) as Hr. fold days in Hr.
    set (rate := spend / inject_Z days) in *.
    split; [now apply py_round_nonneg |].
    split.
    { intros Hd. apply py_round_mono.
      assert (0 <= rate * inject_Z days_ahead).
      { apply Qmult_le_0_compat; [exact Hr |]. now apply (inject_Z_le 0). }
      lra. }
    split; [reflexivity |].
    set (dip := match period config with
                | BudgetPeriod.MONTHLY => 30%Z
                | BudgetPeriod.WEEKLY => 7%Z
                end).
    assert (Hrem : 0 <= rate * inject_Z (Z.max (dip - days) 0)).
    { apply Qmult_le_0_compat; [exact Hr |]. apply (inject_Z_le 0). lia. }
    split; [apply py_round_mono; lra |]. split.
    + intros Hel. apply py_round_proper.
      assert (E : Z.max (dip - days) 0 = 0%Z) by (unfold days; lia).
      rewrite E. change (inject_Z 0) with 0. ring.
    + intros Hlim. f_equal.
      destruct (Qle_bool (spend + rate * inject_Z (Z.max (dip - days) 0))
                  (budget_limit config)) eqn:E; [| reflexivity].
      apply Qle_bool_iff in E. exfalso. lra.
  - set (spend := get_department_spend tracker id
                    (Some (period_start BudgetPeriod.MONTHLY)) None).
    assert (Hs : 0 <= spend) by now apply department_spend_nonneg.
    set (days := Z.max (elapsed_days BudgetPeriod.MONTHLY) 1).
    pose proof (rate_nonneg spend (elapsed_days BudgetPeriod.MONTHLY) Hs) as Hr.
    fold days in Hr. set (rate := spend / inject_Z days) in *.
    split; [now apply py_round_nonneg |].
    split; [| now repeat split].
    intros Hd. apply py_round_mono.
    assert (0 <= rate * inject_Z days_ahead).
    { apply Qmult_le_0_compat; [exact Hr |]. now apply (inject_Z_le 0). }
    lra.
Qed.

Lemma forecast_spend_properties_witness :
  (0 <= daily_rate (forecast_spend Sample2.manager Sample2.tracker Sample2.period_start
                      (fun _ => 3%Z) "engineering" 30))%Q.
Proof.
  apply (forecast_spend_properties Sample2.manager Sample2.tracker Sample2.period_start
           (fun _ => 3%Z) "engineering" 30 sample_tracker_valid).
Defined.
End Forecasts.

(** ** Summaries *)

Section Summaries.
Local Open Scope Q_scope.

Lemma CostSummary_init_ok (e : string) (tc : Q) (n i o : Z) (ac al : Q) :
  0 <= tc -> (0 <= n)%Z -> (0 <= i)%Z -> (0 <= o)%Z -> 0 <= ac -> 0 <= al ->
  CostSummary_init e tc n i o ac al
  = Ok {| entity := e; total_cost := tc; request_count := n; total_input_tokens := i;
          total_output_tokens := o; avg_cost_per_request := ac; avg_latency_ms := al |}.
Proof.
  intros H1 H2 H3 H4 H5 H6. unfold CostSummary_init.
  apply Qle_bool_iff in H1, H5, H6. apply Z.leb_le in H2, H3, H4.
  now rewrite H1, H2, H3, H4, H5, H6.
Qed.

(** X27. From rows whose sums and counts are not negative, as the grouped
    queries deliver them, [_build_summary] raises nothing and returns one
    summary per row, in order, with the row's entity, count and token sums,
    its total cost rounded to six decimals and fields that satisfy the
    constraints of [CostSummary]; the average cost per request is within half
    a millionth of the row's total cost divided by its count. *)
Theorem build_summary_rows (rows : list SummaryRow) :
  Forall row_nonneg rows ->
  exists summaries,
    _build_summary rows = Ok summaries
    /\ Forall2
         (fun row s =>
            entity s = row_entity row
            /\ request_count s = row_request_count row
            /\ total_input_tokens s = row_total_input row
            /\ total_output_tokens s = row_total_output row
            /\ total_cost s = py_round (row_total_cost row) 6
            /\ valid_summary s
            /\ ((0 < row_request_count row)%Z ->
                Qabs (avg_cost_per_request s
                      - row_total_cost row / inject_Z (row_request_count row))
                <= 1 # 2000000))
         rows summaries.
Proof.
  induction 1 as [| row rows Hrow _ IH]; cbn [_build_summary].
  - exists []. split; [reflexivity | constructor].
  - destruct Hrow as (Hc & Hn & Hi & Ho & Hl).
    destruct IH as (summaries & -> & Hall).
    set (n := row_request_count row) in *.
    assert (Hac : 0 <= py_round (if (0 <? n)%Z then row_total_cost row / inject_Z n
                                 else 0) 6).
    { apply py_round_nonneg. destruct (0 <? n)%Z eqn:E; [| lra].
      apply Z.ltb_lt in E. now apply share_nonneg. }
    assert (Hal : 0 <= py_round (if (0 <? n)%Z then row_total_latency row / inject_Z n
                                 else 0) 2).
    { apply py_round_nonneg. destruct (0 <? n)%Z eqn:E; [| lra].
      apply Z.ltb_lt in E. now apply share_nonneg. }
    assert (Htc : 0 <= py_round (row_total_cost row) 6) by now apply py_round_nonneg.
    rewrite (CostSummary_init_ok _ _ _ _ _ _ _ Htc Hn Hi Ho Hac Hal). cbn [bind].
    eexists. split; [reflexivity |]. constructor; [| exact Hall].
    cbn. repeat split; try assumption.
    intros Hpos. apply Z.ltb_lt in Hpos. subst n. cbv zeta. rewrite Hpos.
    exact (py_round_near (row_total_cost row / inject_Z (row_request_count row)) 6).
Qed.

Lemma build_summary_rows_witness :
  exists summaries,
    _build_summary [ {| row_entity := "engineering"; row_total_cost := 45;
                        row_request_count := 5; row_total_input := 5000;
                        row_total_output := 2500; row_total_latency := 1000 |} ]
    = Ok summaries
    /\ List.length summaries = 1%nat.
Proof.
  destruct (build_summary_rows
              [ {| row_entity := "engineering"; row_total_cost := 45;
                   row_request_count := 5; row_total_input := 5000;
                   row_total_output := 2500; row_total_latency := 1000 |} ])
    as (summaries & Hs & Hall).
  - repeat constructor; vm_compute; congruence.
  - exists summaries. split; [exact Hs |].
    apply Forall2_length in Hall. now rewrite <- Hall.
Defined.
End Summaries.

(** ** The properties on the sample data *)

Lemma cost_trends_running_total_witness :
  StronglySorted Qle (List.map cumulative_cost (cost_trends Sample2.daily)).
Proof.
  destruct (cost_trends_running_total Sample2.daily) as (_ & _ & _ & _ & H).
  apply H. repeat constructor; vm_compute; congruence.
Defined.


Lemma department_spend_isolated_witness :
  get_department_spend
    (fst (log_usage Sample2.tracker (Sample2.usage "2026-11-04T11:00:00" "sales" 3)))
    "engineering" None None
  = get_department_spend Sample2.tracker "engineering" None None.
Proof.
  apply (proj1 (department_spend_isolated Sample2.tracker
                  (Sample2.usage "2026-11-04T11:00:00" "sales" 3)
                  "engineering" None None)).
  left. discriminate.
Defined.

Lemma spend_within_total_witness :
  (get_department_spend Sample2.tracker "engineering" (Some "2026-11-04T08:00:00") None
   <= tracker_total_cost Sample2.tracker (Some "2026-11-04T08:00:00") None)%Q
  /\ (tracker_total_cost Sample2.tracker (Some "2026-11-04T08:00:00") None
      <= tracker_total_cost Sample2.tracker None None)%Q.
Proof.
  destruct (spend_within_total Sample2.tracker "engineering"
              (Some "2026-11-04T08:00:00") None sample_tracker_valid) as (_ & H1 & H2).
  now split.
Defined.

Lemma average_matches_total_witness :
  (Qabs (tracker_avg_cost_per_request Sample2.tracker
         - tracker_total_cost Sample2.tracker None None
           / inject_Z (get_record_count Sample2.tracker))
   <= 1 # 1000000)%Q.
Proof.
  apply (proj2 (average_matches_total Sample2.tracker)). discriminate.
Defined.

Example sample_engineering_status :
  check_budget Sample2.manager Sample2.tracker Sample2.period_start "engineering"
  = BOk {| status_entity_id := "engineering"; status_budget_limit := 50;
           status_current_spend := 45000000 # 1000000;
           remaining := 5000000 # 1000000; usage_pct := 9000 # 100;
           status_period := "monthly"; status := "critical" |}.
Proof. vm_compute. reflexivity. Qed.

Lemma check_budget_status_witness :
  match check_budget Sample2.manager Sample2.tracker Sample2.period_start "engineering" with
  | BOk st => (0 <= remaining st)%Q /\ status st <> "exceeded"
  | BErr _ => False
  end.
Proof.
  pose proof (check_budget_status Sample2.manager Sample2.tracker Sample2.period_start
                "engineering") as H.
  destruct (check_budget Sample2.manager Sample2.tracker Sample2.period_start
              "engineering") as [st | e] eqn:E.
  - destruct H as (config & Hg & _ & _ & _ & Hex & _ & _ & Hrem & _).
    split; [exact Hrem |]. intros Hs. apply Hex in Hs. destruct Hs as [_ Hs].
    injection Hg as <-. vm_compute in Hs. now apply Hs.
  - vm_compute in E. discriminate E.
Defined.

Lemma alerts_match_status_witness :
  exists st alerts,
    check_budget Sample2.manager Sample2.tracker Sample2.period_start "engineering" = BOk st
    /\ generate_alerts Sample2.manager Sample2.tracker Sample2.period_start
         (Some "engineering") = BOk alerts
    /\ (status st = "exceeded" \/ status st = "critical" ->
        exists a, alerts = [a] /\ alert_type a = AlertType.CRITICAL
                  /\ alert_department a = "engineering"
                  /\ threshold_pct a = critical_threshold_pct Sample2.engineering_budget
                  /\ alert_current_spend a = status_current_spend st)
    /\ (status st = "warning" ->
        exists a, alerts = [a] /\ alert_type a = AlertType.WARNING
                  /\ alert_department a = "engineering"
                  /\ threshold_pct a = warning_threshold_pct Sample2.engineering_budget
                  /\ alert_current_spend a = status_current_spend st)
    /\ (status st = "ok" -> alerts = []).
Proof.
  apply (alerts_match_status Sample2.manager Sample2.tracker Sample2.period_start
           "engineering").
  - discriminate.
  - exact sample_tracker_valid.
  - repeat split; vm_compute; congruence.
Defined.
